(** * Meal accounting engine of smc-meal: shallow embedding and properties

    The repository ships several generations of the same Express/Mongoose
    server.  The most recent one (third document of [src/unnamed/part_002],
    lines 1780-2481) is embedded here as the program; the older handlers that
    behave differently are embedded in [Module Legacy].

    Persistence model.  A MongoDB collection is a list of documents in
    natural (insertion) order and the [_id] of a document is its position in
    that list; nothing in the server deletes users or meal histories, so
    positions are stable.  [findOne] is [list_find] (first match together
    with its [_id]), [updateOne({_id: i}, fields)] overwrites position [i],
    [new Model(doc).save()] appends, [User.findById(i)] is [users !! i].
    Dates are local calendar days ([Z], after [setHours(0,0,0,0)]); instants
    are milliseconds on the same local axis. *)

From Stdlib Require Import ZArith String Lia.
From stdpp Require Import base decidable option list strings sorting.

Local Open Scope string_scope.
Local Open Scope Z_scope.

(** ** Data model *)

(** [meal: { type: String, enum: ['Lunch', 'Dinner', 'Both', 'Off'] }] *)
Inductive Meal := Off | Lunch | Dinner | Both.

(** The [mealType] of the serve and extra-specific routes, ['Lunch'] or
    ['Dinner']. *)
Inductive Slot := SLunch | SDinner.

#[global] Instance Meal_eq_dec : EqDecision Meal.
Proof. solve_decision. Defined.

#[global] Instance Slot_eq_dec : EqDecision Slot.
Proof. solve_decision. Defined.

(** [userSchema]: only the attributes read or written by the accounting
    engine and its queries. *)
Record User := mkUser {
  batch : string;
  gender : string;
  deposit : Z;
  totalMealCount : Z
}.

(** [mealHistorySchema] *)
Record MealHistory := mkMealHistory {
  userId : nat;
  date : Z;
  meal : Meal;
  additionalItems : list string;
  lunchServed : bool;
  dinnerServed : bool;
  dailyMealCount : Z;
  isExtra : bool
}.

Record Db := mkDb {
  users : list User;
  mealhistories : list MealHistory
}.

(** What a handler answers: one constructor per [res.json]/[res.status]
    message of the routes below. *)
Inductive Reply :=
  | MealUpdated
  | InvalidMealType
  | DateRequired
  | DateAndUserIdRequired
  | CannotUpdatePastDate
  | UserNotFound
  | MealHistoryNotFound
  | CannotServeOff
  | AlreadyServed (s : Slot)
  | NotEnabled (s : Slot)
  | ServedOk (s : Slot)
  | AlreadyEnabled (s : Slot)
  | ExtraEnabled (s : Slot)
  | ExtraEnabledFor (m : Meal) (n : nat).

(** The error taxonomy of the interface. *)
Inductive ErrorKind :=
  | ValidationError
  | DateError
  | NotFoundError
  | AlreadyGrantedError
  | NotEnabledError
  | AlreadyServedError.

Definition errorKind (r : Reply) : option ErrorKind :=
  match r with
  | InvalidMealType | DateRequired | DateAndUserIdRequired => Some ValidationError
  | CannotUpdatePastDate => Some DateError
  | UserNotFound | MealHistoryNotFound => Some NotFoundError
  | CannotServeOff | NotEnabled _ => Some NotEnabledError
  | AlreadyServed _ => Some AlreadyServedError
  | AlreadyEnabled _ => Some AlreadyGrantedError
  | MealUpdated | ServedOk _ | ExtraEnabled _ | ExtraEnabledFor _ _ => None
  end.

(** ** Request decoding *)

(** [['Lunch', 'Dinner', 'Both', 'Off'].includes(meal)] *)
Definition parseMeal (s : string) : option Meal :=
  if String.eqb s "Lunch" then Some Lunch
  else if String.eqb s "Dinner" then Some Dinner
  else if String.eqb s "Both" then Some Both
  else if String.eqb s "Off" then Some Off
  else None.

(** [['Lunch', 'Dinner'].includes(mealType)] *)
Definition parseSlot (s : string) : option Slot :=
  if String.eqb s "Lunch" then Some SLunch
  else if String.eqb s "Dinner" then Some SDinner
  else None.

Definition slotMeal (s : Slot) : Meal :=
  match s with SLunch => Lunch | SDinner => Dinner end.

Definition otherSlot (s : Slot) : Slot :=
  match s with SLunch => SDinner | SDinner => SLunch end.

(** The strings a client sends for a slot or a meal. *)
Definition slotName (s : Slot) : string :=
  match s with SLunch => "Lunch" | SDinner => "Dinner" end.

Definition mealName (m : Meal) : string :=
  match m with
  | Off => "Off" | Lunch => "Lunch" | Dinner => "Dinner" | Both => "Both"
  end.

(** The [additionalItems] field of a request body: an array, a single
    string, or absent. *)
Inductive ItemsField :=
  | ItemsArray (l : list string)
  | ItemsString (s : string)
  | ItemsMissing.

(** [Array.isArray(additionalItems) ? additionalItems.filter(Boolean)
     : [additionalItems].filter(Boolean)] *)
Definition additionalItemsArray (f : ItemsField) : list string :=
  match f with
  | ItemsArray l => filter (λ s, s ≠ "") l
  | ItemsString s => filter (λ s, s ≠ "") [s]
  | ItemsMissing => []
  end.

(** ** Pure helpers of the engine *)

(** [meal === 'Both' ? 2 : ['Lunch', 'Dinner'].includes(meal) ? 1 : 0] *)
Definition dailyCount (m : Meal) : Z :=
  match m with
  | Both => 2
  | Lunch | Dinner => 1
  | Off => 0
  end.

(** [['Both', 'Lunch'].includes(meal)] *)
Definition hasLunch (m : Meal) : bool :=
  match m with Both | Lunch => true | _ => false end.

(** [['Both', 'Dinner'].includes(meal)] *)
Definition hasDinner (m : Meal) : bool :=
  match m with Both | Dinner => true | _ => false end.

Definition includesSlot (m : Meal) (s : Slot) : bool :=
  match s with SLunch => hasLunch m | SDinner => hasDinner m end.

Definition servedFlag (r : MealHistory) (s : Slot) : bool :=
  match s with SLunch => lunchServed r | SDinner => dinnerServed r end.

Definition msPerDay : Z := 24 * 60 * 60 * 1000.

(** ** Collection primitives *)

(** [MealHistory.findOne({ userId, date })]: first match with its [_id]. *)
Definition findOne (u : nat) (d : Z) (l : list MealHistory)
  : option (nat * MealHistory) :=
  list_find (λ r, userId r = u ∧ date r = d) l.

(** [sort({ date: -1 })] then first: keep the strictly later document. *)
Definition laterOf (best : option MealHistory) (r : MealHistory)
  : option MealHistory :=
  match best with
  | None => Some r
  | Some b => if bool_decide (date b < date r) then Some r else Some b
  end.

(** [MealHistory.findOne({ userId, date: { $lt: d } }).sort({ date: -1 })] *)
Definition findPrevious (u : nat) (d : Z) (l : list MealHistory)
  : option MealHistory :=
  foldl laterOf None (filter (λ r, userId r = u ∧ date r < d) l).

(** [User.updateOne({ _id }, { $inc: { totalMealCount: delta } })] *)
Definition incTotal (delta : Z) (u : User) : User :=
  mkUser (batch u) (gender u) (deposit u) (totalMealCount u + delta).

Definition incUser (i : nat) (delta : Z) (db : Db) : Db :=
  mkDb (alter (incTotal delta) i (users db)) (mealhistories db).

(** [MealHistory.updateOne({ _id: i }, fields)], [r'] being the document
    with the fields overwritten. *)
Definition putHistory (i : nat) (r' : MealHistory) (db : Db) : Db :=
  mkDb (users db) (<[i := r']> (mealhistories db)).

(** [new MealHistory(doc).save()] *)
Definition saveHistory (r : MealHistory) (db : Db) : Db :=
  mkDb (users db) (mealhistories db ++ [r]).

(** The document written when a day is synthesized from an earlier one
    (cron, serve): [meal: previousMeal?.meal || 'Off'],
    [additionalItems: previousMeal?.additionalItems || []],
    [dailyMealCount: previousMeal ? (...) : 0], both flags false; [isExtra]
    takes the schema default. *)
Definition carryForward (u : nat) (d : Z) (previousMeal : option MealHistory)
  : MealHistory :=
  match previousMeal with
  | Some p => mkMealHistory u d (meal p) (additionalItems p) false false
                (dailyCount (meal p)) false
  | None => mkMealHistory u d Off [] false false 0 false
  end.

(** ** POST /meal-update (self-service) *)

(** The write performed on an existing document by both update routes;
    [items] is what ends up in [additionalItems]. *)
Definition changedRecord (r : MealHistory) (m : Meal) (items : list string)
  : MealHistory :=
  mkMealHistory (userId r) (date r) m items
    (if hasLunch m then lunchServed r else false)
    (if hasDinner m then dinnerServed r else false)
    (dailyCount m) (isExtra r).

Definition mealUpdate (now : Z) (sessionUser : nat) (mealField : string)
    (itemsField : ItemsField) (dateField : option Z) (db : Db) : Db * Reply :=
  match parseMeal mealField with
  | None => (db, InvalidMealType)
  | Some m =>
    match dateField with
    | None => (db, DateRequired)
    | Some d =>
      if bool_decide (d * msPerDay + msPerDay - 1 < now)
      then (db, CannotUpdatePastDate)
      else match users db !! sessionUser with
      | None => (db, UserNotFound)
      | Some _ =>
        let items := additionalItemsArray itemsField in
        let newMealCount := dailyCount m in
        match findOne sessionUser d (mealhistories db) with
        | Some (i, mh) =>
          let oldMealCount := dailyCount (meal mh) in
          (incUser sessionUser (newMealCount - oldMealCount)
             (putHistory i (changedRecord mh m items) db), MealUpdated)
        | None =>
          (incUser sessionUser newMealCount
             (saveHistory
                (mkMealHistory sessionUser d m items false false
                   newMealCount false) db), MealUpdated)
        end
      end
    end
  end.

(** ** POST /api/meal/staff-update *)

Definition staffUpdate (userIdField : option nat) (mealField : string)
    (dateField : option Z) (db : Db) : Db * Reply :=
  match parseMeal mealField with
  | None => (db, InvalidMealType)
  | Some m =>
    match dateField, userIdField with
    | Some d, Some u =>
      match users db !! u with
      | None => (db, UserNotFound)
      | Some _ =>
        let newMealCount := dailyCount m in
        match findOne u d (mealhistories db) with
        | Some (i, mh) =>
          let oldMealCount := dailyCount (meal mh) in
          (incUser u (newMealCount - oldMealCount)
             (putHistory i (changedRecord mh m (additionalItems mh)) db),
           MealUpdated)
        | None =>
          (incUser u newMealCount
             (saveHistory
                (mkMealHistory u d m [] false false newMealCount false) db),
           MealUpdated)
        end
      end
    | _, _ => (db, DateAndUserIdRequired)
    end
  end.

(** ** POST /api/meal/serve/:userId *)

(** The four guards in the order of the route; [None] when serving goes
    ahead. *)
Definition serveGuard (mh : MealHistory) (slot : Slot) : option Reply :=
  if bool_decide (meal mh = Off) then Some CannotServeOff
  else if servedFlag mh slot then Some (AlreadyServed slot)
  else if negb (includesSlot (meal mh) slot) then Some (NotEnabled slot)
  else None.

(** [{ [mealType === 'Lunch' ? 'lunchServed' : 'dinnerServed']: true }] *)
Definition setServed (mh : MealHistory) (slot : Slot) : MealHistory :=
  match slot with
  | SLunch => mkMealHistory (userId mh) (date mh) (meal mh)
                (additionalItems mh) true (dinnerServed mh)
                (dailyMealCount mh) (isExtra mh)
  | SDinner => mkMealHistory (userId mh) (date mh) (meal mh)
                (additionalItems mh) (lunchServed mh) true
                (dailyMealCount mh) (isExtra mh)
  end.

Definition finishServe (i : nat) (mh : MealHistory) (slot : Slot) (db : Db)
  : Db * Reply :=
  match serveGuard mh slot with
  | Some e => (db, e)
  | None => (putHistory i (setServed mh slot) db, ServedOk slot)
  end.

Definition serve (u : nat) (mealTypeField : string) (d : Z) (db : Db)
  : Db * Reply :=
  match parseSlot mealTypeField with
  | None => (db, InvalidMealType)
  | Some slot =>
    match findOne u d (mealhistories db) with
    | Some (i, mh) => finishServe i mh slot db
    | None =>
      match users db !! u with
      | None => (db, UserNotFound)
      | Some _ =>
        let mh := carryForward u d (findPrevious u d (mealhistories db)) in
        finishServe (length (mealhistories db)) mh slot (saveHistory mh db)
      end
    end
  end.

(** ** POST /api/meal/extra (bulk grant) *)

(** [mealType === 'Both' ? 2 : 1] *)
Definition extraCount (mt : Meal) : Z :=
  match mt with Both => 2 | _ => 1 end.

(** The [updateMany] write on one matched document. *)
Definition grantedRecord (mt : Meal) (r : MealHistory) : MealHistory :=
  mkMealHistory (userId r) (date r) mt (additionalItems r) false false
    (extraCount mt) true.

(** The route after validation: [updateMany] on the Off documents of the
    day, then one [$inc] for every user listed by the second query. *)
Definition grantAll (mt : Meal) (d : Z) (db : Db) : Db * Reply :=
  let isOff := λ r : MealHistory, date r = d ∧ meal r = Off in
  let modifiedCount := length (filter isOff (mealhistories db)) in
  let histories :=
    (λ r, if decide (isOff r) then grantedRecord mt r else r)
      <$> mealhistories db in
  if bool_decide (0 < modifiedCount)%nat then
    let userIds :=
      userId <$> filter (λ r, date r = d ∧ meal r = mt) histories in
    (mkDb (imap (λ i usr, if bool_decide (i ∈ userIds)
                          then incTotal (extraCount mt) usr else usr)
                (users db))
          histories,
     ExtraEnabledFor mt modifiedCount)
  else (mkDb (users db) histories, ExtraEnabledFor mt modifiedCount).

(** [['Lunch', 'Dinner', 'Both'].includes(mealType)] *)
Definition extraAll (mealTypeField : string) (d : Z) (db : Db) : Db * Reply :=
  match parseMeal mealTypeField with
  | None | Some Off => (db, InvalidMealType)
  | Some mt => grantAll mt d db
  end.

(** ** POST /api/meal/extra-specific *)

Definition extraRecord (mh : MealHistory) (newMeal : Meal) (newMealCount : Z)
  : MealHistory :=
  mkMealHistory (userId mh) (date mh) newMeal (additionalItems mh)
    (if hasLunch newMeal then lunchServed mh else false)
    (if hasDinner newMeal then dinnerServed mh else false)
    newMealCount true.

(** [newMeal] and [newMealCount], or [None] on the ["already enabled"]
    branch. *)
Definition extraTarget (existing : Meal) (slot : Slot) : option (Meal * Z) :=
  match existing, slot with
  | Off, _ => Some (slotMeal slot, 1)
  | Lunch, SDinner | Dinner, SLunch => Some (Both, 2)
  | _, _ => None
  end.

Definition finishExtra (u i : nat) (mh : MealHistory) (slot : Slot) (db : Db)
  : Db * Reply :=
  match extraTarget (meal mh) slot with
  | None => (db, AlreadyEnabled slot)
  | Some (newMeal, newMealCount) =>
    let oldMealCount := dailyCount (meal mh) in
    (incUser u (newMealCount - oldMealCount)
       (putHistory i (extraRecord mh newMeal newMealCount) db),
     ExtraEnabled slot)
  end.

Definition extraSpecific (u : nat) (mealTypeField : string) (d : Z) (db : Db)
  : Db * Reply :=
  match parseSlot mealTypeField with
  | None => (db, InvalidMealType)
  | Some slot =>
    match findOne u d (mealhistories db) with
    | Some (i, mh) => finishExtra u i mh slot db
    | None =>
      match users db !! u with
      | None => (db, UserNotFound)
      | Some _ =>
        let mh := mkMealHistory u d Off [] false false 0 false in
        finishExtra u (length (mealhistories db)) mh slot (saveHistory mh db)
      end
    end
  end.

(** ** Daily cron job *)

Definition withDailyMealCount (mh : MealHistory) (c : Z) : MealHistory :=
  mkMealHistory (userId mh) (date mh) (meal mh) (additionalItems mh)
    (lunchServed mh) (dinnerServed mh) c (isExtra mh).

(** One iteration of [for (const user of users)]. *)
Definition cronUser (today : Z) (db : Db) (u : nat) : Db :=
  let yesterday := today - 1 in
  let '(i, mh, db1) :=
    match findOne u today (mealhistories db) with
    | Some (i, mh) => (i, mh, db)
    | None =>
      let previousMeal := snd <$> findOne u yesterday (mealhistories db) in
      let mh := carryForward u today previousMeal in
      (length (mealhistories db), mh, saveHistory mh db)
    end in
  let mealCount := dailyCount (meal mh) in
  incUser u (mealCount - dailyMealCount mh)
    (putHistory i (withDailyMealCount mh mealCount) db1).

(** [today] is the calendar day of the instant the job fires;
    [User.find()] yields every [_id] in natural order. *)
Definition cron (now : Z) (db : Db) : Db :=
  foldl (cronUser (now `div` msPerDay)) db (seq 0 (length (users db))).

(** ** GET /api/meal/all-users *)

(** The [if / else if] chain filling [offMeals]. *)
Definition offMeals (m : Meal) (lunchSrv dinnerSrv : bool) : list Slot :=
  if bool_decide (m = Off) then [SLunch; SDinner]
  else if bool_decide (m = Lunch) && negb lunchSrv then [SDinner]
  else if bool_decide (m = Dinner) && negb dinnerSrv then [SLunch]
  else if bool_decide (m = Both) && negb lunchSrv then [SLunch]
  else if bool_decide (m = Both) && negb dinnerSrv then [SDinner]
  else [].

(** [mealHistories.find(...) || { meal: 'Off', lunchServed: false,
    dinnerServed: false }] *)
Definition offMealsAt (u : nat) (d : Z) (db : Db) : list Slot :=
  match findOne u d (mealhistories db) with
  | Some (_, mh) => offMeals (meal mh) (lunchServed mh) (dinnerServed mh)
  | None => offMeals Off false false
  end.

(** [if (batch && batch !== 'all') query.batch = batch], same for
    [gender]. *)
Definition queryMatches (q : option string) (v : string) : bool :=
  match q with
  | Some s => if bool_decide (s = "" ∨ s = "all") then true else bool_decide (v = s)
  | None => true
  end.

Definition allUsers (d : Z) (batchQ genderQ : option string) (db : Db)
  : list (nat * list Slot) :=
  filter (λ p, p.2 ≠ [])
    (omap (λ p : nat * User,
             if queryMatches batchQ (batch p.2) && queryMatches genderQ (gender p.2)
             then Some (p.1, offMealsAt p.1 d db) else None)
          (imap pair (users db))).

(** ** Earlier generations of the same routes *)

Module Legacy.

(** First document of [part_002], POST /api/meal/serve/:userId: a missing
    document is an error and there is no per-slot guard. *)
Definition serve1 (u : nat) (mealTypeField : string) (d : Z) (db : Db)
  : Db * Reply :=
  match parseSlot mealTypeField with
  | None => (db, InvalidMealType)
  | Some slot =>
    match findOne u d (mealhistories db) with
    | None => (db, MealHistoryNotFound)
    | Some (i, mh) =>
      if bool_decide (meal mh = Off) then (db, CannotServeOff)
      else if servedFlag mh slot then (db, AlreadyServed slot)
      else (putHistory i (setServed mh slot) db, ServedOk slot)
    end
  end.

(** Second document of [part_002], GET /api/meal/off-users. *)
Definition offMeals2 (m : Meal) (lunchSrv dinnerSrv : bool) : list Slot :=
  if bool_decide (m = Off) then [SLunch; SDinner]
  else if bool_decide (m = Lunch) && negb lunchSrv then [SLunch]
  else if bool_decide (m = Dinner) && negb dinnerSrv then [SDinner]
  else if bool_decide (m = Both) && negb lunchSrv then [SLunch]
  else if bool_decide (m = Both) && negb dinnerSrv then [SDinner]
  else [].

(** [src/server.js], POST /meal-update: [meal === 'Both' ? 2 : 1]. *)
Definition mealCount0 (m : Meal) : Z :=
  match m with Both => 2 | _ => 1 end.

(** [src/server.js], POST /meal-update: always today's entry, no
    validation, the counter is adjusted in memory and saved once. *)
Definition mealUpdate0 (today : Z) (sessionUser : nat) (m : Meal)
    (items : list string) (db : Db) : Db :=
  match findOne sessionUser today (mealhistories db) with
  | Some (i, e) =>
    incUser sessionUser (- mealCount0 (meal e) + mealCount0 m)
      (putHistory i
         (mkMealHistory (userId e) (date e) m items (lunchServed e)
            (dinnerServed e) (dailyMealCount e) (isExtra e)) db)
  | None =>
    incUser sessionUser (mealCount0 m)
      (saveHistory (mkMealHistory sessionUser today m items false false 0 false) db)
  end.

End Legacy.

(** ** Invariants of the data model *)

Fixpoint sumZ (l : list Z) : Z :=
  match l with
  | [] => 0
  | x :: l' => x + sumZ l'
  end.

(** Sum of [dailyMealCount] over the meal histories of user [u]. *)
Definition dailySum (u : nat) (l : list MealHistory) : Z :=
  sumZ (dailyMealCount <$> filter (λ r, userId r = u) l).

(** I1: every user's counter is the sum of that user's daily counts. *)
Definition I1 (db : Db) : Prop :=
  ∀ (u : nat) (usr : User),
    users db !! u = Some usr →
    totalMealCount usr = dailySum u (mealhistories db).

(** I2: [dailyMealCount] is the count of [meal]. *)
Definition I2rec (r : MealHistory) : Prop :=
  dailyMealCount r = dailyCount (meal r).

(** I3: a served flag is set only for a slot the meal includes. *)
Definition I3rec (r : MealHistory) : Prop :=
  (lunchServed r = true → hasLunch (meal r) = true) ∧
  (dinnerServed r = true → hasDinner (meal r) = true).

(** Number of documents of a (user, day) pair. *)
Definition recordCount (u : nat) (d : Z) (l : list MealHistory) : nat :=
  length (filter (λ r, userId r = u ∧ date r = d) l).

(** The unique index [{ userId: 1, date: 1 }]: at most one document per
    (user, day). *)
Definition uniqueKeys (l : list MealHistory) : Prop :=
  ∀ (u : nat) (d : Z), (recordCount u d l ≤ 1)%nat.

(** The counter of user [u], when the user exists. *)
Definition totalOf (u : nat) (db : Db) : option Z :=
  totalMealCount <$> users db !! u.

(** The meal history of (user, day), without its [_id]. *)
Definition recordOf (u : nat) (d : Z) (db : Db) : option MealHistory :=
  snd <$> findOne u d (mealhistories db).

(** The stored [additionalItems] of (user, day), [[]] without a document. *)
Definition currentItems (u : nat) (d : Z) (db : Db) : list string :=
  match recordOf u d db with
  | Some r => additionalItems r
  | None => []
  end.

(** The document the serve route works on: the stored one or, for an
    existing user, the one it synthesizes. *)
Definition serveTarget (u : nat) (d : Z) (db : Db) : option MealHistory :=
  match recordOf u d db with
  | Some mh => Some mh
  | None =>
    match users db !! u with
    | Some _ => Some (carryForward u d (findPrevious u d (mealhistories db)))
    | None => None
    end
  end.

(** User [u] needs nothing from the cron job on day [today]: the document
    of the day exists and its [dailyMealCount] agrees with its meal. *)
Definition settled (today : Z) (db : Db) (u : nat) : Prop :=
  ∃ (i : nat) (r : MealHistory),
    findOne u today (mealhistories db) = Some (i, r) ∧
    dailyMealCount r = dailyCount (meal r).

(** The users the bulk grant is for: those with an Off document on the
    day. *)
Definition affectedUsers (d : Z) (db : Db) : list nat :=
  userId <$> filter (λ r, date r = d ∧ meal r = Off) (mealhistories db).

(** The invariants of the meal histories taken together. *)
Definition goodHistories (l : list MealHistory) : Prop :=
  uniqueKeys l ∧ Forall I2rec l ∧ Forall I3rec l.

(** The operations of the accounting engine as one request type: the two
    meal updates, serving, the two extra grants and the cron job. *)
Inductive Request :=
  | ReqMealUpdate (now : Z) (sessionUser : nat) (mealField : string)
      (itemsField : ItemsField) (dateField : option Z)
  | ReqStaffUpdate (userIdField : option nat) (mealField : string)
      (dateField : option Z)
  | ReqServe (u : nat) (mealTypeField : string) (d : Z)
  | ReqExtraAll (mealTypeField : string) (d : Z)
  | ReqExtraSpecific (u : nat) (mealTypeField : string) (d : Z)
  | ReqCron (now : Z).

Definition handle (db : Db) (req : Request) : Db :=
  match req with
  | ReqMealUpdate now u m f d => (mealUpdate now u m f d db).1
  | ReqStaffUpdate u m d => (staffUpdate u m d db).1
  | ReqServe u m d => (serve u m d db).1
  | ReqExtraAll m d => (extraAll m d db).1
  | ReqExtraSpecific u m d => (extraSpecific u m d db).1
  | ReqCron now => cron now db
  end.

(** The requests that change a meal through the delta-based update: the
    two meal updates and the specific extra grant. *)
Definition isUpdate (req : Request) : bool :=
  match req with
  | ReqMealUpdate _ _ _ _ _ | ReqStaffUpdate _ _ _ | ReqExtraSpecific _ _ _ => true
  | _ => false
  end.

(** ** GET /api/meal/total-count *)

(** [mealHistories.reduce((sum, mh) => sum + mh.dailyMealCount, 0)] over
    [MealHistory.find({ date })]. *)
Definition totalCount (d : Z) (db : Db) : Z :=
  foldl (λ sum mh, sum + dailyMealCount mh) 0
    (filter (λ r, date r = d) (mealhistories db)).

(** ** POST /api/users/:id/update *)

Inductive AdminReply :=
  | NoUpdatesProvided
  | UserUpdated
  | FailedToUpdateUser.

(** [$set] of the body fields that are not [undefined]; [Some z] is a
    field whose [Number(...)] is [z]. *)
Definition adminUpdate (id : nat) (depositField totalMealCountField : option Z)
    (db : Db) : Db * AdminReply :=
  match depositField, totalMealCountField with
  | None, None => (db, NoUpdatesProvided)
  | _, _ =>
    (mkDb (alter (λ usr, mkUser (batch usr) (gender usr)
                           (default (deposit usr) depositField)
                           (default (totalMealCount usr) totalMealCountField))
                 id (users db))
          (mealhistories db),
     UserUpdated)
  end.

(** A numeric field of the request body as the route reads it:
    [undefined], a value whose [Number(...)] is a whole number, or a value
    whose [Number(...)] is [NaN]. *)
Inductive NumberField :=
  | FieldUndefined
  | FieldNumber (z : Z)
  | FieldNaN.

#[global] Instance NumberField_eq_dec : EqDecision NumberField.
Proof. solve_decision. Defined.

Definition fieldNumber (x : NumberField) : option Z :=
  match x with FieldNumber z => Some z | _ => None end.

(** The route with its [try]/[catch].  [idParam] is [None] for an [:id]
    that is not an ObjectId.  [User.updateOne] casts the filter and the
    [$set] document before anything is written and throws on such an [:id]
    and on [NaN] for a Number path; the [catch] then answers 500. *)
Definition adminUpdateRoute (idParam : option nat)
    (depositField totalMealCountField : NumberField) (db : Db)
  : Db * AdminReply :=
  match depositField, totalMealCountField with
  | FieldUndefined, FieldUndefined => (db, NoUpdatesProvided)
  | _, _ =>
    match idParam with
    | None => (db, FailedToUpdateUser)
    | Some id =>
      if bool_decide (depositField = FieldNaN ∨ totalMealCountField = FieldNaN)
      then (db, FailedToUpdateUser)
      else adminUpdate id (fieldNumber depositField)
             (fieldNumber totalMealCountField) db
    end
  end.

(** ** GET /api/meal-history *)

(** The order of [sort({ date: -1 })]. *)
Definition laterFirst (a b : MealHistory) : Prop := date b ≤ date a.

#[global] Instance laterFirst_dec : RelDecision laterFirst.
Proof. intros a b. unfold laterFirst. apply _. Defined.

(** [MealHistory.find({ userId }).sort({ date: -1 })] *)
Definition mealHistory (sessionUser : nat) (db : Db) : list MealHistory :=
  merge_sort laterFirst
    (filter (λ r, userId r = sessionUser) (mealhistories db)).

(** ** GET /export-excel: the row of one user *)

(** [userMeals.sort((a, b) => new Date(b.date) - new Date(a.date))[0]]:
    the sort is stable, so this is the first document with the latest
    date. *)
Definition latestMeal (u : nat) (l : list MealHistory) : option MealHistory :=
  foldl laterOf None (filter (λ r, userId r = u) l).

Record ExportRow := mkExportRow {
  rowMeal : Meal;
  rowAdditionalItems : string;
  rowLunchServed : string;
  rowDinnerServed : string;
  rowTotalMealCount : Z
}.

Definition yesNo (b : bool) : string := if b then "Yes" else "No".

(** [latestMeal?.meal || 'Off'],
    [latestMeal?.additionalItems?.join(', ') || '-'],
    [latestMeal?.lunchServed ? 'Yes' : 'No'], [user.totalMealCount]. *)
Definition exportRow (u : nat) (usr : User) (db : Db) : ExportRow :=
  let latest := latestMeal u (mealhistories db) in
  let joined :=
    match latest with
    | Some r => String.concat ", " (additionalItems r)
    | None => ""
    end in
  mkExportRow
    (match latest with Some r => meal r | None => Off end)
    (if bool_decide (joined = "") then "-" else joined)
    (yesNo (match latest with Some r => lunchServed r | None => false end))
    (yesNo (match latest with Some r => dinnerServed r | None => false end))
    (totalMealCount usr).

(** ** GET /staff/serving *)

(** [listed] is the result of the user query of the page (the [_id]s of
    the users it shows, in the order of the query); [d] is the selected
    day.  The documents of the day are read once, before the loop. *)
Definition staffServing (listed : list nat) (d : Z) (db : Db) : Db :=
  let mealHistories := filter (λ r, date r = d) (mealhistories db) in
  if bool_decide (length mealHistories < length listed)%nat then
    foldl (λ acc u,
             if bool_decide (u ∈ userId <$> mealHistories) then acc
             else saveHistory
                    (carryForward u d (findPrevious u d (mealhistories acc)))
                    acc)
          db listed
  else db.

(** ** The cron job of the first generation *)

Module Earlier.

(** First document of [part_002], lines 127-180: yesterday's
    [dailyMealCount] is copied as it is. *)
Definition cronUser1 (today : Z) (db : Db) (u : nat) : Db :=
  let yesterday := today - 1 in
  let '(i, mh, db1) :=
    match findOne u today (mealhistories db) with
    | Some (i, mh) => (i, mh, db)
    | None =>
      let mh :=
        match findOne u yesterday (mealhistories db) with
        | Some (_, previousMeal) =>
          mkMealHistory u today (meal previousMeal)
            (additionalItems previousMeal) false false
            (dailyMealCount previousMeal) false
        | None => mkMealHistory u today Off [] false false 0 false
        end in
      (length (mealhistories db), mh, saveHistory mh db)
    end in
  let mealCount := dailyCount (meal mh) in
  incUser u (mealCount - dailyMealCount mh)
    (putHistory i (withDailyMealCount mh mealCount) db1).

Definition cron1 (now : Z) (db : Db) : Db :=
  foldl (cronUser1 (now `div` msPerDay)) db (seq 0 (length (users db))).

End Earlier.

(** What the cron job adds to the counter of a user (the repair of a stale
    [dailyMealCount] of today's document) and what it adds to the user's
    daily counts beyond that (the count of a document it creates). *)
Definition cronRepair (today : Z) (db : Db) (u : nat) : Z :=
  match recordOf u today db with
  | Some r => dailyCount (meal r) - dailyMealCount r
  | None => 0
  end.

Definition cronCarried (today : Z) (db : Db) (u : nat) : Z :=
  match recordOf u today db with
  | Some _ => 0
  | None => dailyCount (meal (carryForward u today (recordOf u (today - 1) db)))
  end.

(** The users for whom the serving page creates a document: the listed
    ones without a document for the day, when the day has fewer documents
    than there are listed users. *)
Definition servingCreates (listed : list nat) (d : Z) (db : Db) : list nat :=
  if bool_decide (length (filter (λ r, date r = d) (mealhistories db))
                  < length listed)%nat
  then filter (λ u, recordOf u d db = None) listed
  else [].

(** Document [i] of [l'] is document [i] of [l] up to its contents: same
    owner and same day. *)
Definition keepsKeys (l l' : list MealHistory) : Prop :=
  ∀ (i : nat) (r : MealHistory),
    l !! i = Some r →
    ∃ r', l' !! i = Some r' ∧ userId r' = userId r ∧ date r' = date r.

(** * Properties *)

(** ** Collections *)

Section collections.
Implicit Types (l : list MealHistory) (r : MealHistory) (db : Db).

Lemma findOne_Some u d l i r :
  findOne u d l = Some (i, r) →
  l !! i = Some r ∧ userId r = u ∧ date r = d.
Proof.
  unfold findOne. rewrite list_find_Some. by intros (? & [? ?] & _).
Qed.

Lemma findOne_insert u d l i r r' :
  l !! i = Some r → userId r' = userId r → date r' = date r →
  findOne u d (<[i:=r']> l)
  = (λ p, (p.1, if decide (p.1 = i) then r' else p.2)) <$> findOne u d l.
Proof.
  unfold findOne. revert i. induction l as [|x l IH]; intros i Hi Hu Hd.
  - done.
  - destruct i as [|i]; simpl in *.
    + simplify_eq. rewrite Hu, Hd.
      destruct (decide (userId r = u ∧ date r = d)); simpl; [done|].
      by destruct (list_find _ l) as [[j y]|].
    + destruct (decide (userId x = u ∧ date x = d)); simpl; [done|].
      rewrite (IH i Hi Hu Hd).
      destruct (list_find _ l) as [[j y]|]; simpl; [|done].
      destruct (decide (j = i)) as [->|Hji].
      * by rewrite decide_True.
      * rewrite decide_False; [done|]. by intros [= ->].
Qed.

Lemma findOne_snoc u d l r :
  findOne u d (l ++ [r])
  = match findOne u d l with
    | Some p => Some p
    | None => if decide (userId r = u ∧ date r = d)
              then Some (length l, r) else None
    end.
Proof.
  unfold findOne.
  destruct (list_find _ l) as [[j y]|] eqn:E.
  - by apply list_find_app_l.
  - rewrite list_find_app_r by done. simpl. by case_decide.
Qed.

Lemma recordOf_incUser u d v delta db :
  recordOf u d (incUser v delta db) = recordOf u d db.
Proof. done. Qed.

Lemma recordOf_put_same u d i r r' db :
  findOne u d (mealhistories db) = Some (i, r) →
  userId r' = u → date r' = d →
  recordOf u d (putHistory i r' db) = Some r'.
Proof.
  intros E Hu Hd. destruct (findOne_Some _ _ _ _ _ E) as (Hi & <- & <-).
  unfold recordOf, putHistory; simpl.
  rewrite (findOne_insert _ _ _ _ r) by done.
  rewrite E; simpl. by rewrite decide_True.
Qed.

Lemma recordOf_put_other u d i r r' db :
  mealhistories db !! i = Some r →
  userId r' = userId r → date r' = date r →
  ¬ (userId r = u ∧ date r = d) →
  recordOf u d (putHistory i r' db) = recordOf u d db.
Proof.
  intros Hi Hu Hd Hne. unfold recordOf, putHistory; simpl.
  rewrite (findOne_insert _ _ _ _ r) by done.
  destruct (findOne u d (mealhistories db)) as [[j y]|] eqn:E; simpl; [|done].
  destruct (findOne_Some _ _ _ _ _ E) as (Hj & ? & ?).
  case_decide; [|done]. simplify_eq. naive_solver.
Qed.

Lemma recordOf_save_new u d r db :
  recordOf u d db = None → userId r = u → date r = d →
  recordOf u d (saveHistory r db) = Some r.
Proof.
  unfold recordOf, saveHistory; simpl. intros E Hu Hd.
  rewrite findOne_snoc.
  destruct (findOne u d (mealhistories db)); [done|].
  by rewrite decide_True.
Qed.

Lemma recordOf_save_other u d r db :
  ¬ (userId r = u ∧ date r = d) →
  recordOf u d (saveHistory r db) = recordOf u d db.
Proof.
  unfold recordOf, saveHistory; simpl. intros Hne.
  rewrite findOne_snoc.
  destruct (findOne u d (mealhistories db)); [done|].
  by rewrite decide_False.
Qed.

Lemma findOne_None_recordOf u d db :
  findOne u d (mealhistories db) = None ↔ recordOf u d db = None.
Proof. unfold recordOf. by destruct (findOne _ _ _). Qed.

Lemma findOne_recordOf u d db i r :
  findOne u d (mealhistories db) = Some (i, r) → recordOf u d db = Some r.
Proof. unfold recordOf. by intros ->. Qed.

Lemma totalOf_incUser_same u delta db :
  totalOf u (incUser u delta db) = (λ t, t + delta) <$> totalOf u db.
Proof.
  unfold totalOf, incUser; simpl. rewrite list_lookup_alter_eq.
  by destruct (users db !! u).
Qed.

Lemma totalOf_incUser_other u v delta db :
  u ≠ v → totalOf u (incUser v delta db) = totalOf u db.
Proof.
  intros. unfold totalOf, incUser; simpl.
  by rewrite list_lookup_alter_ne.
Qed.

End collections.

(** ** Meal changes *)

Lemma parseMeal_mealName m : parseMeal (mealName m) = Some m.
Proof. by destruct m. Qed.

Lemma parseSlot_slotName s : parseSlot (slotName s) = Some s.
Proof. by destruct s. Qed.

Lemma parseMeal_Some s m : parseMeal s = Some m ↔ s = mealName m.
Proof.
  split; [|intros ->; apply parseMeal_mealName].
  unfold parseMeal.
  destruct (String.eqb_spec s "Lunch") as [->|_]; [by intros [= <-]|].
  destruct (String.eqb_spec s "Dinner") as [->|_]; [by intros [= <-]|].
  destruct (String.eqb_spec s "Both") as [->|_]; [by intros [= <-]|].
  destruct (String.eqb_spec s "Off") as [->|_]; [by intros [= <-]|].
  done.
Qed.

Lemma parseMeal_None s :
  parseMeal s = None ↔ ¬ In s ["Lunch"; "Dinner"; "Both"; "Off"].
Proof.
  split.
  - intros E Hin. simpl in Hin.
    repeat (destruct Hin as [Hin|Hin]; [by subst s|]). done.
  - intros Hnin. destruct (parseMeal s) as [m|] eqn:E; [|done].
    apply parseMeal_Some in E as ->. destruct Hnin.
    destruct m; simpl; auto.
Qed.

(** The date guard of the self-service route fires exactly for calendar
    days strictly before the day of [now]. *)
Lemma past_guard now d :
  d * msPerDay + msPerDay - 1 < now ↔ d < now `div` msPerDay.
Proof.
  unfold msPerDay. change (24 * 60 * 60 * 1000) with 86400000.
  pose proof (Z.div_mod now 86400000 ltac:(lia)) as Hdm.
  pose proof (Z.mod_pos_bound now 86400000 ltac:(lia)) as Hb.
  split; intros H; nia.
Qed.

(** C2 (self-service meal change).  For a request with a valid meal value
    on a day that is not in the past, from an existing user: when a
    document for (user, day) exists, it ends up with the new meal, the
    submitted additional items, [lunchServed] cleared unless the new meal
    is Lunch or Both, [dinnerServed] cleared unless it is Dinner or Both (a
    flag that is not cleared keeps its value), [dailyMealCount = dailyCount
    newMeal], and the user's counter moves by [dailyCount newMeal -
    dailyCount oldMeal]; when none exists, one is created with
    [dailyMealCount = dailyCount newMeal] and both flags false, and the
    counter moves by [dailyCount newMeal].  [dailyCount] is 0 for Off, 1
    for Lunch or Dinner, 2 for Both. *)
Theorem C2_meal_change (now : Z) (u : nat) (mealField : string) (m : Meal)
    (f : ItemsField) (d : Z) (db : Db) :
  parseMeal mealField = Some m →
  now `div` msPerDay ≤ d →
  is_Some (users db !! u) →
  let res := mealUpdate now u mealField f (Some d) db in
  res.2 = MealUpdated ∧
  (dailyCount Off = 0 ∧ dailyCount Lunch = 1 ∧ dailyCount Dinner = 1 ∧
   dailyCount Both = 2) ∧
  match recordOf u d db with
  | Some old =>
    recordOf u d res.1
    = Some (mkMealHistory u d m (additionalItemsArray f)
              (if decide (m = Lunch ∨ m = Both) then lunchServed old else false)
              (if decide (m = Dinner ∨ m = Both) then dinnerServed old else false)
              (dailyCount m) (isExtra old)) ∧
    totalOf u res.1
    = (λ t, t + (dailyCount m - dailyCount (meal old))) <$> totalOf u db
  | None =>
    recordOf u d res.1
    = Some (mkMealHistory u d m (additionalItemsArray f) false false
              (dailyCount m) false) ∧
    totalOf u res.1 = (λ t, t + dailyCount m) <$> totalOf u db
  end.
Proof.
  intros Hm Hd [usr Husr]. unfold mealUpdate. rewrite Hm.
  rewrite bool_decide_eq_false_2 by (rewrite past_guard; lia).
  rewrite Husr.
  destruct (findOne u d (mealhistories db)) as [[i old]|] eqn:E.
  - rewrite (findOne_recordOf _ _ _ _ _ E). cbn [fst snd].
    destruct (findOne_Some _ _ _ _ _ E) as (Hi & Hu & Hdate).
    split_and!; try done.
    + rewrite recordOf_incUser.
      rewrite (recordOf_put_same u d i old) by done.
      unfold changedRecord. rewrite Hu, Hdate.
      destruct m; repeat case_decide; simpl; try done;
        exfalso; intuition congruence.
    + by rewrite totalOf_incUser_same.
  - apply findOne_None_recordOf in E. rewrite E. cbn [fst snd].
    split_and!; try done.
    + rewrite recordOf_incUser. by apply recordOf_save_new.
    + by rewrite totalOf_incUser_same.
Qed.

(** Frame: a self-service change leaves the documents and the counter of
    every other user alone. *)
Lemma mealUpdate_frame now u mealField f dateField db v d' :
  v ≠ u →
  recordOf v d' (mealUpdate now u mealField f dateField db).1 = recordOf v d' db ∧
  totalOf v (mealUpdate now u mealField f dateField db).1 = totalOf v db.
Proof.
  intros Hvu. unfold mealUpdate.
  destruct (parseMeal mealField) as [m|]; [|done].
  destruct dateField as [d|]; [|done].
  case_bool_decide; [done|].
  destruct (users db !! u) as [usr|]; [|done].
  destruct (findOne u d (mealhistories db)) as [[i old]|] eqn:E; cbn [fst].
  - destruct (findOne_Some _ _ _ _ _ E) as (Hi & Hu & Hd).
    rewrite recordOf_incUser, totalOf_incUser_other by done.
    split; [|done]. apply (recordOf_put_other _ _ _ old); try done.
    intros [? _]. congruence.
  - rewrite recordOf_incUser, totalOf_incUser_other by done.
    split; [|done]. apply recordOf_save_other. intros [? _]. simpl in *. congruence.
Qed.

Lemma C2_meal_change_witness :
  let db := mkDb [mkUser "11" "Female" 0 2]
                 [mkMealHistory 0 10 Both ["Egg"] true true 2 false] in
  let at10 := 10 * msPerDay + 7 in
  let toLunch :=
    (mealUpdate at10 0 "Lunch" (ItemsArray ["Fish"; ""; "Egg"]) (Some 10) db).1 in
  let toDinner := (mealUpdate at10 0 "Dinner" (ItemsString "Fish") (Some 10) db).1 in
  let toOff := (mealUpdate at10 0 "Off" ItemsMissing (Some 10) db).1 in
  let next := (mealUpdate at10 0 "Both" ItemsMissing (Some 11) db).1 in
  (recordOf 0 10 toLunch
   = Some (mkMealHistory 0 10 Lunch ["Fish"; "Egg"] true false 1 false) ∧
   totalOf 0 toLunch = Some 1) ∧
  (recordOf 0 10 toDinner
   = Some (mkMealHistory 0 10 Dinner ["Fish"] false true 1 false) ∧
   totalOf 0 toDinner = Some 1) ∧
  (recordOf 0 10 toOff = Some (mkMealHistory 0 10 Off [] false false 0 false) ∧
   totalOf 0 toOff = Some 0) ∧
  (recordOf 0 11 next = Some (mkMealHistory 0 11 Both [] false false 2 false) ∧
   totalOf 0 next = Some 4).
Proof.
  intros db at10 toLunch toDinner toOff next.
  assert (at10 `div` msPerDay ≤ 10) as H10 by (vm_compute; discriminate).
  assert (at10 `div` msPerDay ≤ 11) as H11 by (vm_compute; discriminate).
  assert (is_Some (users db !! 0%nat)) as Husr by (simpl; eauto).
  split; [|split; [|split]].
  - exact (proj2 (proj2 (C2_meal_change at10 0 "Lunch" Lunch
                           (ItemsArray ["Fish"; ""; "Egg"]) 10 db
                           eq_refl H10 Husr))).
  - exact (proj2 (proj2 (C2_meal_change at10 0 "Dinner" Dinner
                           (ItemsString "Fish") 10 db eq_refl H10 Husr))).
  - exact (proj2 (proj2 (C2_meal_change at10 0 "Off" Off ItemsMissing 10 db
                           eq_refl H10 Husr))).
  - exact (proj2 (proj2 (C2_meal_change at10 0 "Both" Both ItemsMissing 11 db
                           eq_refl H11 Husr))).
Defined.

Lemma parseMeal_valid s m :
  parseMeal s = Some m → In s ["Lunch"; "Dinner"; "Both"; "Off"].
Proof.
  intros E. apply parseMeal_Some in E as ->. destruct m; simpl; auto.
Qed.

(** The staff route is the self-service route run without the date guard
    and with the stored additional items resubmitted. *)
Lemma staffUpdate_as_mealUpdate now u mealField f d db :
  now `div` msPerDay ≤ d →
  additionalItemsArray f = currentItems u d db →
  staffUpdate (Some u) mealField (Some d) db
  = mealUpdate now u mealField f (Some d) db.
Proof.
  intros Hd Hf. unfold staffUpdate, mealUpdate.
  destruct (parseMeal mealField) as [m|]; [|done].
  rewrite bool_decide_eq_false_2 by (rewrite past_guard; lia).
  destruct (users db !! u); [|done].
  unfold currentItems, recordOf in Hf. rewrite Hf.
  by destruct (findOne u d (mealhistories db)) as [[i old]|].
Qed.

(** What the two update routes answer, guard by guard. *)
Lemma mealUpdate_reply now u mealField f dateField db :
  (mealUpdate now u mealField f dateField db).2
  = match parseMeal mealField, dateField with
    | None, _ => InvalidMealType
    | Some _, None => DateRequired
    | Some _, Some d =>
      if bool_decide (d < now `div` msPerDay) then CannotUpdatePastDate
      else match users db !! u with
           | None => UserNotFound
           | Some _ => MealUpdated
           end
    end.
Proof.
  unfold mealUpdate.
  destruct (parseMeal mealField) as [m|]; [|done].
  destruct dateField as [d|]; [|done].
  rewrite (bool_decide_ext _ _ (past_guard now d)).
  case_bool_decide; [done|]. destruct (users db !! u); [|done].
  by destruct (findOne u d (mealhistories db)) as [[i old]|].
Qed.

Lemma staffUpdate_reply userIdField mealField dateField db :
  (staffUpdate userIdField mealField dateField db).2
  = match parseMeal mealField, dateField, userIdField with
    | None, _, _ => InvalidMealType
    | Some _, Some d, Some u =>
      match users db !! u with
      | None => UserNotFound
      | Some _ => MealUpdated
      end
    | Some _, _, _ => DateAndUserIdRequired
    end.
Proof.
  unfold staffUpdate.
  destruct (parseMeal mealField) as [m|]; [|done].
  destruct dateField as [d|], userIdField as [u|]; try done.
  destruct (users db !! u); [|done].
  by destruct (findOne u d (mealhistories db)) as [[i old]|].
Qed.

(** C8 (validation of meal changes), as the routes do it.  Both routes
    answer with a validation error exactly when the submitted meal is not
    one of Lunch, Dinner, Both, Off ("Invalid meal type") or, the meal
    being valid, a required field is missing: the date on the self-service route ("Date
    required"), the date or the user id on the staff route ("Date and
    userId required").  The self-service route answers with the date error
    exactly when the request passes this validation and the day is strictly
    before the current day; the staff route never answers with the date
    error and, given both fields, performs the very same update (the stored
    additional items staying as they are). *)
Theorem C8_validation (now : Z) (sessionUser : nat) (userIdField : option nat)
    (mealField : string) (f : ItemsField) (dateField : option Z) (db : Db) :
  let self := (mealUpdate now sessionUser mealField f dateField db).2 in
  let staff := (staffUpdate userIdField mealField dateField db).2 in
  let validMeal := In mealField ["Lunch"; "Dinner"; "Both"; "Off"] in
  let past := ∃ d, dateField = Some d ∧ d < now `div` msPerDay in
  (self = InvalidMealType ↔ ¬ validMeal) ∧
  (staff = InvalidMealType ↔ ¬ validMeal) ∧
  (self = DateRequired ↔ validMeal ∧ dateField = None) ∧
  (staff = DateAndUserIdRequired
   ↔ validMeal ∧ (dateField = None ∨ userIdField = None)) ∧
  (self = CannotUpdatePastDate ↔ validMeal ∧ past) ∧
  (errorKind self = Some ValidationError ↔ ¬ validMeal ∨ dateField = None) ∧
  (errorKind staff = Some ValidationError
   ↔ ¬ validMeal ∨ dateField = None ∨ userIdField = None) ∧
  (errorKind self = Some DateError ↔ validMeal ∧ past) ∧
  errorKind staff ≠ Some DateError ∧
  (∀ (u : nat) (d : Z) (now' : Z) (f' : ItemsField),
     userIdField = Some u → dateField = Some d →
     now' `div` msPerDay ≤ d →
     additionalItemsArray f' = currentItems u d db →
     staffUpdate userIdField mealField dateField db
     = mealUpdate now' u mealField f' dateField db).
Proof.
  cbv zeta.
  assert (∀ (u : nat) (d now' : Z) (f' : ItemsField),
            userIdField = Some u → dateField = Some d →
            now' `div` msPerDay ≤ d →
            additionalItemsArray f' = currentItems u d db →
            staffUpdate userIdField mealField dateField db
            = mealUpdate now' u mealField f' dateField db) as Hsame.
  { intros u d now' f' -> -> Hd Hf. by apply staffUpdate_as_mealUpdate. }
  rewrite mealUpdate_reply, staffUpdate_reply.
  assert (∀ t, (∃ d', @None Z = Some d' ∧ d' < t) ↔ False) as HnoneP
    by (intros t; split; [by intros (? & ? & _)|done]).
  assert (∀ d t, (∃ d', Some d = Some d' ∧ d' < t) ↔ d < t) as HsomeP
    by (intros d t; split; [by intros (? & [= <-] & ?)|eauto]).
  pose proof (parseMeal_None mealField) as HN.
  destruct (parseMeal mealField) as [m|] eqn:E.
  - pose proof (parseMeal_valid _ _ E) as Hin.
    destruct dateField as [d|]; [rewrite !HsomeP|rewrite !HnoneP].
    + case_bool_decide as Hpast;
        destruct userIdField as [v|];
        destruct (users db !! sessionUser);
        try destruct (users db !! v);
        cbn [errorKind];
        split_and!; try exact Hsame; try done;
        (split; [try done; try (intros; exfalso; congruence); intros; auto
                |try done; intuition congruence]).
    + destruct userIdField as [v|];
        cbn [errorKind];
        split_and!; try exact Hsame; try done;
        (split; [try done; try (intros; exfalso; congruence); auto
                |try done; intuition congruence]).
  - pose proof (proj1 HN eq_refl) as Hnin.
    cbn [errorKind].
    split_and!; try exact Hsame; try done;
      (split; [try done; auto|try done; intuition congruence]).
Qed.

Lemma C8_validation_witness :
  let db := mkDb [mkUser "11" "Female" 0 2]
                 [mkMealHistory 0 3 Both ["Egg"] true true 2 false] in
  staffUpdate (Some 0%nat) "Lunch" (Some 3) db
  = mealUpdate (3 * msPerDay) 0 "Lunch" (ItemsString "Egg") (Some 3) db ∧
  (mealUpdate (3 * msPerDay) 0 "Lunch" (ItemsString "Egg") None db).2
  = DateRequired ∧
  (staffUpdate None "Lunch" (Some 3) db).2 = DateAndUserIdRequired.
Proof.
  intros db. split_and!.
  - destruct (C8_validation (10 * msPerDay) 0 (Some 0%nat) "Lunch" ItemsMissing
                (Some 3) db) as (_ & _ & _ & _ & _ & _ & _ & _ & _ & H).
    apply (H 0%nat 3); [reflexivity|reflexivity| |reflexivity].
    vm_compute. discriminate.
  - destruct (C8_validation (3 * msPerDay) 0 None "Lunch" (ItemsString "Egg")
                None db) as (_ & _ & H & _).
    apply H. split; [simpl; auto|reflexivity].
  - destruct (C8_validation (3 * msPerDay) 0 None "Lunch" ItemsMissing
                (Some 3) db) as (_ & _ & _ & H & _).
    apply H. split; [simpl; auto|by right].
Defined.

(** C8 as stated fails: a request with a valid meal and no date is refused
    with "Date required", a validation error although the meal is one of
    the four values. *)
Lemma C8_counterexample :
  ¬ (∀ (now : Z) (u : nat) (mealField : string) (f : ItemsField)
       (dateField : option Z) (db : Db),
       errorKind (mealUpdate now u mealField f dateField db).2
       = Some ValidationError
       ↔ ¬ In mealField ["Lunch"; "Dinner"; "Both"; "Off"]).
Proof.
  intros H.
  apply (proj1 (H 0 0%nat "Lunch" ItemsMissing None (mkDb [] []))).
  - reflexivity.
  - simpl. auto.
Qed.

(** ** Extra grants *)

Lemma findOne_save_new u d r db :
  findOne u d (mealhistories db) = None → userId r = u → date r = d →
  findOne u d (mealhistories (saveHistory r db))
  = Some (length (mealhistories db), r).
Proof.
  intros E Hu Hd. simpl. rewrite findOne_snoc, E. by rewrite decide_True.
Qed.

(** C6 (specific extra grant).  Granting Lunch or Dinner to user [u] on
    day [d]: without a document (the user existing) or with meal Off, the
    meal becomes the requested slot with [dailyMealCount] 1; with the
    opposite single slot it becomes Both with [dailyMealCount] 2; when the
    slot is already part of the meal the answer is the already-granted
    error and the database is unchanged; on success [isExtra] is true and
    the counter moves by the new count minus the count of the old meal (0
    for Off, 1 for a single slot). *)
Theorem C6_extra_specific (u : nat) (slot : Slot) (d : Z) (db : Db) :
  let mealType := match slot with SLunch => "Lunch" | SDinner => "Dinner" end in
  let res := extraSpecific u mealType d db in
  let granted :=
    λ (old : MealHistory) (newMeal : Meal) (newCount oldCount : Z),
      res.2 = ExtraEnabled slot ∧
      recordOf u d res.1
      = Some (mkMealHistory u d newMeal (additionalItems old)
                (if decide (newMeal = Lunch ∨ newMeal = Both)
                 then lunchServed old else false)
                (if decide (newMeal = Dinner ∨ newMeal = Both)
                 then dinnerServed old else false)
                newCount true) ∧
      totalOf u res.1 = (λ t, t + (newCount - oldCount)) <$> totalOf u db in
  match recordOf u d db with
  | None =>
    match users db !! u with
    | None => res = (db, UserNotFound)
    | Some _ =>
      res.2 = ExtraEnabled slot ∧
      recordOf u d res.1
      = Some (mkMealHistory u d
                match slot with SLunch => Lunch | SDinner => Dinner end
                [] false false 1 true) ∧
      totalOf u res.1 = (λ t, t + 1) <$> totalOf u db
    end
  | Some old =>
    match meal old, slot with
    | Off, SLunch => granted old Lunch 1 0
    | Off, SDinner => granted old Dinner 1 0
    | Lunch, SDinner | Dinner, SLunch => granted old Both 2 1
    | Lunch, SLunch | Dinner, SDinner | Both, _ =>
      res = (db, AlreadyEnabled slot) ∧
      errorKind res.2 = Some AlreadyGrantedError
    end
  end.
Proof.
  cbv zeta.
  assert (parseSlot match slot with SLunch => "Lunch" | SDinner => "Dinner" end
          = Some slot) as Hp by by destruct slot.
  unfold extraSpecific. rewrite Hp. clear Hp.
  destruct (findOne u d (mealhistories db)) as [[i old]|] eqn:E.
  - rewrite (findOne_recordOf _ _ _ _ _ E).
    destruct (findOne_Some _ _ _ _ _ E) as (Hi & Hu & Hd).
    unfold finishExtra.
    destruct (meal old) eqn:Em, slot; cbn [extraTarget slotMeal];
      try done; cbn [fst snd]; rewrite recordOf_incUser, totalOf_incUser_same;
      rewrite (recordOf_put_same u d i old) by done;
      unfold extraRecord; rewrite Hu, Hd; simpl;
      repeat case_decide; try done; exfalso; intuition congruence.
  - pose proof E as E'. apply findOne_None_recordOf in E'. rewrite E'.
    destruct (users db !! u) as [usr|] eqn:Husr; [|done].
    unfold finishExtra. cbn [meal extraTarget fst snd].
    rewrite recordOf_incUser, totalOf_incUser_same.
    erewrite recordOf_put_same;
      [|by apply findOne_save_new|done|done].
    split_and!; [done|by destruct slot|].
    destruct (totalOf u _); simpl; [f_equal; lia|done].
Qed.

Lemma C6_extra_specific_witness :
  let db := mkDb [mkUser "12" "Male" 0 1; mkUser "12" "Male" 0 0]
                 [mkMealHistory 0 4 Lunch ["Egg"] true false 1 false;
                  mkMealHistory 0 5 Off [] false false 0 false] in
  ((extraSpecific 0 "Dinner" 4 db).2 = ExtraEnabled SDinner ∧
   recordOf 0 4 (extraSpecific 0 "Dinner" 4 db).1
   = Some (mkMealHistory 0 4 Both ["Egg"] true false 2 true) ∧
   totalOf 0 (extraSpecific 0 "Dinner" 4 db).1 = Some 2) ∧
  ((extraSpecific 0 "Dinner" 5 db).2 = ExtraEnabled SDinner ∧
   recordOf 0 5 (extraSpecific 0 "Dinner" 5 db).1
   = Some (mkMealHistory 0 5 Dinner [] false false 1 true) ∧
   totalOf 0 (extraSpecific 0 "Dinner" 5 db).1 = Some 2) ∧
  ((extraSpecific 1 "Dinner" 4 db).2 = ExtraEnabled SDinner ∧
   recordOf 1 4 (extraSpecific 1 "Dinner" 4 db).1
   = Some (mkMealHistory 1 4 Dinner [] false false 1 true) ∧
   totalOf 1 (extraSpecific 1 "Dinner" 4 db).1 = Some 1) ∧
  extraSpecific 0 "Lunch" 4 db = (db, AlreadyEnabled SLunch).
Proof.
  intros db. split; [|split; [|split]].
  - exact (C6_extra_specific 0 SDinner 4 db).
  - exact (C6_extra_specific 0 SDinner 5 db).
  - exact (C6_extra_specific 1 SDinner 4 db).
  - exact (proj1 (C6_extra_specific 0 SLunch 4 db)).
Defined.

Example C6_off_to_dinner :
  let db := mkDb [mkUser "12" "Male" 0 0]
                 [mkMealHistory 0 4 Off [] false false 0 false] in
  extraSpecific 0 "Dinner" 4 db
  = (mkDb [mkUser "12" "Male" 0 1]
          [mkMealHistory 0 4 Dinner [] false false 1 true],
     ExtraEnabled SDinner).
Proof. reflexivity. Qed.

(** ** Serving *)

Lemma serveGuard_None mh slot :
  serveGuard mh slot = None
  ↔ includesSlot (meal mh) slot = true ∧ servedFlag mh slot = false.
Proof.
  unfold serveGuard.
  destruct (meal mh), slot; simpl;
    destruct (lunchServed mh), (dinnerServed mh); simpl;
    intuition congruence.
Qed.

Lemma serveGuard_setServed mh slot :
  meal mh ≠ Off →
  serveGuard (setServed mh slot) slot = Some (AlreadyServed slot).
Proof.
  intros Hoff. unfold serveGuard.
  assert (meal (setServed mh slot) = meal mh) as -> by by destruct slot.
  rewrite bool_decide_eq_false_2 by done. by destruct slot.
Qed.

Lemma findOne_put_same u d i r r' db :
  findOne u d (mealhistories db) = Some (i, r) →
  userId r' = u → date r' = d →
  findOne u d (mealhistories (putHistory i r' db)) = Some (i, r').
Proof.
  intros E Hu Hd. destruct (findOne_Some _ _ _ _ _ E) as (Hi & <- & <-).
  simpl. rewrite (findOne_insert _ _ _ _ r) by done.
  rewrite E; simpl. by rewrite decide_True.
Qed.

Lemma finishServe_spec u d i mh slot db :
  findOne u d (mealhistories db) = Some (i, mh) →
  I3rec mh →
  let res := finishServe i mh slot db in
  (includesSlot (meal mh) slot = false →
   errorKind res.2 = Some NotEnabledError) ∧
  (servedFlag mh slot = true → errorKind res.2 = Some AlreadyServedError) ∧
  (includesSlot (meal mh) slot = true → servedFlag mh slot = false →
   res.2 = ServedOk slot ∧
   recordOf u d res.1 = Some (setServed mh slot) ∧
   serve u (slotName slot) d res.1 = (res.1, AlreadyServed slot)) ∧
  (errorKind res.2 ≠ None → res.1 = db).
Proof.
  intros E [HL HD]. cbv zeta. unfold finishServe.
  destruct (findOne_Some _ _ _ _ _ E) as (Hi & Hu & Hd).
  destruct (serveGuard mh slot) as [e|] eqn:G.
  - split_and!; try done.
    + intros Hinc. unfold serveGuard in G.
      destruct (meal mh), slot; simpl in *;
        destruct (lunchServed mh), (dinnerServed mh); simpl in *;
        simplify_eq; try done; intuition congruence.
    + intros Hsrv. unfold serveGuard in G.
      destruct (meal mh), slot; simpl in *;
        destruct (lunchServed mh), (dinnerServed mh); simpl in *;
        simplify_eq; try done; intuition congruence.
    + intros Hinc Hsrv.
      assert (serveGuard mh slot = None) as G' by by apply serveGuard_None.
      congruence.
  - apply serveGuard_None in G as [Hinc Hsrv].
    split_and!; try (intros; congruence); try done.
    intros _ _. cbn [fst snd].
    assert (userId (setServed mh slot) = u) as Hu' by by destruct slot.
    assert (date (setServed mh slot) = d) as Hd' by by destruct slot.
    split_and!; [done|by eapply recordOf_put_same|].
    unfold serve. rewrite parseSlot_slotName.
    rewrite (findOne_put_same u d i mh) by done.
    unfold finishServe. rewrite serveGuard_setServed; [done|].
    intros Hoff. rewrite Hoff in Hinc. by destruct slot.
Qed.

(** C7 (serve marking).  On a database whose documents satisfy I3, with
    [mh] the document of (user, day) the route works on: the answer is the
    not-enabled error whenever the meal does not include the slot (Off
    includes neither), the already-served error whenever the slot's flag is
    set, and otherwise the call succeeds, sets exactly that slot's flag and
    leaves the rest of the document alone, after which the same call
    answers with the already-served error. *)
Theorem C7_serve (u : nat) (slot : Slot) (d : Z) (db : Db) (mh : MealHistory) :
  Forall I3rec (mealhistories db) →
  serveTarget u d db = Some mh →
  let res := serve u (slotName slot) d db in
  (includesSlot (meal mh) slot = false →
   errorKind res.2 = Some NotEnabledError) ∧
  (servedFlag mh slot = true → errorKind res.2 = Some AlreadyServedError) ∧
  (includesSlot (meal mh) slot = true → servedFlag mh slot = false →
   res.2 = ServedOk slot ∧
   recordOf u d res.1
   = Some (mkMealHistory (userId mh) (date mh) (meal mh) (additionalItems mh)
             (if decide (slot = SLunch) then true else lunchServed mh)
             (if decide (slot = SDinner) then true else dinnerServed mh)
             (dailyMealCount mh) (isExtra mh)) ∧
   serve u (slotName slot) d res.1 = (res.1, AlreadyServed slot)).
Proof.
  intros HI3 Ht. cbv zeta.
  unfold serveTarget, recordOf in Ht.
  assert (setServed mh slot
          = mkMealHistory (userId mh) (date mh) (meal mh) (additionalItems mh)
              (if decide (slot = SLunch) then true else lunchServed mh)
              (if decide (slot = SDinner) then true else dinnerServed mh)
              (dailyMealCount mh) (isExtra mh)) as <- by by destruct slot.
  destruct (findOne u d (mealhistories db)) as [[i old]|] eqn:E;
    simpl in Ht.
  - simplify_eq.
    assert (serve u (slotName slot) d db = finishServe i mh slot db) as ->.
    { unfold serve. by rewrite parseSlot_slotName, E. }
    destruct (findOne_Some _ _ _ _ _ E) as (Hi & _ & _).
    pose proof (Forall_lookup_1 _ _ _ _ HI3 Hi) as Hmh.
    destruct (finishServe_spec u d i mh slot db E Hmh) as (H1 & H2 & H3 & _).
    done.
  - destruct (users db !! u) as [usr|] eqn:Husr; [|done]. simplify_eq.
    set (mh := carryForward u d (findPrevious u d (mealhistories db))).
    assert (serve u (slotName slot) d db
            = finishServe (length (mealhistories db)) mh slot
                (saveHistory mh db)) as ->.
    { unfold serve. by rewrite parseSlot_slotName, E, Husr. }
    assert (userId mh = u ∧ date mh = d ∧ lunchServed mh = false
            ∧ dinnerServed mh = false) as (Hu & Hd & HL & HD).
    { unfold mh, carryForward. by destruct (findPrevious _ _ _). }
    assert (I3rec mh) as Hmh by (split; congruence).
    pose proof (findOne_save_new u d mh db E Hu Hd) as E'.
    destruct (finishServe_spec u d _ mh slot _ E' Hmh) as (H1 & H2 & H3 & _).
    done.
Qed.

Lemma C7_serve_witness :
  let db := mkDb [mkUser "10" "Male" 0 1]
                 [mkMealHistory 0 6 Lunch [] false false 1 false] in
  errorKind (serve 0 "Dinner" 6 db).2 = Some NotEnabledError ∧
  (serve 0 "Lunch" 6 db).2 = ServedOk SLunch ∧
  serve 0 "Lunch" 6 (serve 0 "Lunch" 6 db).1
  = ((serve 0 "Lunch" 6 db).1, AlreadyServed SLunch).
Proof.
  intros db.
  assert (Forall I3rec (mealhistories db)) as HI3.
  { repeat constructor; simpl; discriminate. }
  destruct (C7_serve 0 SDinner 6 db _ HI3 eq_refl) as (HD & _ & _).
  destruct (C7_serve 0 SLunch 6 db _ HI3 eq_refl) as (_ & _ & HL).
  destruct (HL eq_refl eq_refl) as (Hok & _ & Hagain).
  split_and!; [exact (HD eq_refl)|exact Hok|exact Hagain].
Defined.

(** C10 (serving never touches a counter).  Whatever the request and the
    database, the users collection after a serve call is the one before
    it. *)
Theorem C10_serve_keeps_counters (u : nat) (mealTypeField : string) (d : Z)
    (db : Db) :
  users (serve u mealTypeField d db).1 = users db.
Proof.
  unfold serve. destruct (parseSlot mealTypeField) as [slot|]; [|done].
  destruct (findOne u d (mealhistories db)) as [[i mh]|].
  - unfold finishServe. by destruct (serveGuard mh slot).
  - destruct (users db !! u); [|done].
    unfold finishServe. by destruct (serveGuard _ slot).
Qed.

(** Serving a day that has no document yet, the previous day being Both:
    a document with [dailyMealCount] 2 appears and the counter stays at 2. *)
Example C10_synthesized_day :
  let db := mkDb [mkUser "10" "Male" 0 2]
                 [mkMealHistory 0 6 Both [] true true 2 false] in
  serve 0 "Lunch" 7 db
  = (mkDb [mkUser "10" "Male" 0 2]
          [mkMealHistory 0 6 Both [] true true 2 false;
           mkMealHistory 0 7 Both [] true false 2 false],
     ServedOk SLunch).
Proof. reflexivity. Qed.

(** ** Daily cron job *)

Lemma findOne_insert_other u d l i r r' :
  l !! i = Some r → userId r' = userId r → date r' = date r →
  ¬ (userId r = u ∧ date r = d) →
  findOne u d (<[i:=r']> l) = findOne u d l.
Proof.
  intros Hi Hu Hd Hne. rewrite (findOne_insert _ _ _ _ r) by done.
  destruct (findOne u d l) as [[j y]|] eqn:E; simpl; [|done].
  destruct (findOne_Some _ _ _ _ _ E) as (Hj & ? & ?).
  case_decide; [|done]. simplify_eq. tauto.
Qed.

Lemma findOne_snoc_other u d l r :
  ¬ (userId r = u ∧ date r = d) →
  findOne u d (l ++ [r]) = findOne u d l.
Proof.
  intros Hne. rewrite findOne_snoc.
  destruct (findOne u d l); [done|]. by rewrite decide_False.
Qed.

Lemma withDailyMealCount_id r : withDailyMealCount r (dailyMealCount r) = r.
Proof. by destruct r. Qed.

Lemma incTotal_0 usr : incTotal 0 usr = usr.
Proof. destruct usr. unfold incTotal; simpl. by rewrite Z.add_0_r. Qed.

Lemma incUser_0 u db : incUser u 0 db = db.
Proof.
  destruct db as [us hs]. unfold incUser; simpl.
  by rewrite list_alter_id by apply incTotal_0.
Qed.

Lemma putHistory_id i r db :
  mealhistories db !! i = Some r → putHistory i r db = db.
Proof.
  destruct db as [us hs]. unfold putHistory; simpl. intros Hi.
  by rewrite list_insert_id.
Qed.

Lemma carryForward_key u d p :
  userId (carryForward u d p) = u ∧ date (carryForward u d p) = d.
Proof. by destruct p. Qed.

Lemma carryForward_count u d p :
  dailyMealCount (carryForward u d p) = dailyCount (meal (carryForward u d p)).
Proof. by destruct p. Qed.

Lemma cronUser_settled today db u :
  settled today db u → cronUser today db u = db.
Proof.
  intros (i & r & E & Hc). unfold cronUser. rewrite E.
  destruct (findOne_Some _ _ _ _ _ E) as (Hi & _ & _).
  rewrite <- Hc, Z.sub_diag, withDailyMealCount_id.
  by rewrite incUser_0, putHistory_id.
Qed.

Lemma cronUser_settles today db u : settled today (cronUser today db u) u.
Proof.
  unfold cronUser.
  destruct (findOne u today (mealhistories db)) as [[i r]|] eqn:E.
  - destruct (findOne_Some _ _ _ _ _ E) as (Hi & Hu & Hd).
    exists i, (withDailyMealCount r (dailyCount (meal r))).
    split; [|done]. by apply (findOne_put_same u today i r).
  - destruct (carryForward_key u today
                (snd <$> findOne u (today - 1) (mealhistories db))) as [Hu Hd].
    remember (carryForward u today _) as mh eqn:Hmh in *.
    exists (length (mealhistories db)),
           (withDailyMealCount mh (dailyCount (meal mh))).
    split; [|done].
    apply (findOne_put_same u today _ mh); [|done..].
    by apply findOne_save_new.
Qed.

Lemma cronUser_other today db u v d :
  u ≠ v →
  findOne u d (mealhistories (cronUser today db v))
  = findOne u d (mealhistories db).
Proof.
  intros Huv. unfold cronUser.
  destruct (findOne v today (mealhistories db)) as [[i r]|] eqn:E.
  - destruct (findOne_Some _ _ _ _ _ E) as (Hi & Hu & Hd). simpl.
    apply (findOne_insert_other _ _ _ _ r); [done..|]. intros [? _]. congruence.
  - destruct (carryForward_key v today
                (snd <$> findOne v (today - 1) (mealhistories db))) as [Hu Hd].
    remember (carryForward v today _) as mh eqn:Hmh in *.
    simpl.
    rewrite (findOne_insert_other _ _ _ _ mh).
    + apply findOne_snoc_other. intros [? _]. congruence.
    + by rewrite lookup_app_r, Nat.sub_diag.
    + done.
    + done.
    + intros [? _]. congruence.
Qed.

Lemma settled_cronUser today db u v :
  settled today db u → settled today (cronUser today db v) u.
Proof.
  intros Hs. destruct (decide (u = v)) as [<-|Huv].
  - by rewrite cronUser_settled.
  - destruct Hs as (i & r & E & Hc). exists i, r.
    by rewrite cronUser_other.
Qed.

Lemma settled_foldl today l db u :
  settled today db u → settled today (foldl (cronUser today) db l) u.
Proof.
  revert db. induction l as [|v l IH]; intros db Hs; simpl; [done|].
  by apply IH, settled_cronUser.
Qed.

Lemma foldl_cronUser_settles today l db :
  Forall (settled today (foldl (cronUser today) db l)) l.
Proof.
  revert db. induction l as [|v l IH]; intros db; simpl; constructor.
  - apply settled_foldl, cronUser_settles.
  - apply IH.
Qed.

Lemma foldl_cronUser_settled today l db :
  Forall (settled today db) l → foldl (cronUser today) db l = db.
Proof.
  induction 1 as [|v l Hv Hl IH]; simpl; [done|].
  by rewrite cronUser_settled.
Qed.

Lemma cronUser_users_length today db u :
  length (users (cronUser today db u)) = length (users db).
Proof.
  unfold cronUser.
  destruct (findOne u today (mealhistories db)) as [[i r]|];
    simpl; by rewrite length_alter.
Qed.

Lemma foldl_cronUser_users_length today l db :
  length (users (foldl (cronUser today) db l)) = length (users db).
Proof.
  revert db. induction l as [|v l IH]; intros db; simpl; [done|].
  by rewrite IH, cronUser_users_length.
Qed.

Lemma cron_twice now1 now2 db :
  now2 `div` msPerDay = now1 `div` msPerDay →
  cron now2 (cron now1 db) = cron now1 db.
Proof.
  intros Hday. unfold cron at 1. rewrite Hday.
  apply foldl_cronUser_settled.
  unfold cron. rewrite foldl_cronUser_users_length.
  apply foldl_cronUser_settles.
Qed.

Lemma recordCount_insert u d l i r r' :
  l !! i = Some r → userId r' = userId r → date r' = date r →
  recordCount u d (<[i:=r']> l) = recordCount u d l.
Proof.
  unfold recordCount. revert i.
  induction l as [|x l IH]; intros i Hi Hu Hd; [done|].
  destruct i as [|i]; simpl in *.
  - simplify_eq. rewrite !filter_cons, Hu, Hd. by case_decide.
  - rewrite !filter_cons. case_decide; simpl; by rewrite (IH i).
Qed.

Lemma recordCount_snoc u d l r :
  recordCount u d (l ++ [r])
  = (recordCount u d l
     + if decide (userId r = u ∧ date r = d) then 1 else 0)%nat.
Proof.
  unfold recordCount. rewrite filter_app, length_app.
  f_equal. rewrite filter_cons. by case_decide.
Qed.

Lemma findOne_None_recordCount u d l :
  findOne u d l = None ↔ recordCount u d l = 0%nat.
Proof.
  unfold findOne, recordCount. induction l as [|x l IH]; simpl; [done|].
  rewrite filter_cons. case_decide; simpl; [done|].
  rewrite <- IH. by destruct (list_find _ l).
Qed.

Lemma cronUser_recordCount today db v u d :
  recordCount u d (mealhistories (cronUser today db v))
  = if decide (u = v ∧ d = today ∧ recordCount u d (mealhistories db) = 0%nat)
    then 1%nat else recordCount u d (mealhistories db).
Proof.
  unfold cronUser.
  destruct (findOne v today (mealhistories db)) as [[i r]|] eqn:E.
  - destruct (findOne_Some _ _ _ _ _ E) as (Hi & Hu & Hd). simpl.
    rewrite (recordCount_insert _ _ _ _ r) by done.
    case_decide as Hc; [|done]. destruct Hc as (-> & -> & Hc).
    apply findOne_None_recordCount in Hc. congruence.
  - destruct (carryForward_key v today
                (snd <$> findOne v (today - 1) (mealhistories db))) as [Hu Hd].
    remember (carryForward v today _) as mh eqn:Hmh in *.
    simpl. rewrite (recordCount_insert _ _ _ _ mh);
      [|by rewrite lookup_app_r, Nat.sub_diag|done..].
    rewrite recordCount_snoc, Hu, Hd.
    apply findOne_None_recordCount in E.
    destruct (decide (v = u ∧ today = d)) as [[-> ->]|Hne].
    + rewrite E. by rewrite decide_True.
    + rewrite decide_False by (intros (-> & -> & _); tauto). lia.
Qed.

Lemma cronUser_uniqueKeys today db v :
  uniqueKeys (mealhistories db) →
  uniqueKeys (mealhistories (cronUser today db v)).
Proof.
  intros Hq u d. rewrite cronUser_recordCount. case_decide; [lia|apply Hq].
Qed.

Lemma foldl_cronUser_uniqueKeys today l db :
  uniqueKeys (mealhistories db) →
  uniqueKeys (mealhistories (foldl (cronUser today) db l)).
Proof.
  revert db. induction l as [|v l IH]; intros db Hq; simpl; [done|].
  by apply IH, cronUser_uniqueKeys.
Qed.

Lemma settled_recordCount today db u :
  settled today db u → (1 ≤ recordCount u today (mealhistories db))%nat.
Proof.
  intros (i & r & E & _).
  destruct (recordCount u today (mealhistories db)) eqn:Hc; [|lia].
  apply findOne_None_recordCount in Hc. congruence.
Qed.

Lemma cron_settles now db u :
  is_Some (users db !! u) → settled (now `div` msPerDay) (cron now db) u.
Proof.
  intros Hu%lookup_lt_is_Some. unfold cron.
  pose proof (foldl_cronUser_settles (now `div` msPerDay)
                (seq 0 (length (users db))) db) as Hall.
  rewrite Forall_forall in Hall. apply Hall.
  apply elem_of_seq. lia.
Qed.

(** C4 (idempotence of the daily job).  Running the job again on the same
    day on the database left by the first run changes nothing: the database
    is the same, so no counter moves, and every user has exactly one
    document for the day. *)
Theorem C4_cron_idempotent (now1 now2 : Z) (db : Db) :
  now2 `div` msPerDay = now1 `div` msPerDay →
  uniqueKeys (mealhistories db) →
  let db1 := cron now1 db in
  let db2 := cron now2 db1 in
  db2 = db1 ∧
  mealhistories db2 = mealhistories db1 ∧
  (∀ u : nat, totalOf u db2 = totalOf u db1) ∧
  (∀ u : nat, is_Some (users db !! u) →
     recordCount u (now1 `div` msPerDay) (mealhistories db2) = 1%nat).
Proof.
  intros Hday Hq. cbv zeta. rewrite (cron_twice now1 now2 db Hday).
  split_and!; try done.
  intros u Hu.
  pose proof (settled_recordCount _ _ _ (cron_settles now1 db u Hu)) as Hge.
  pose proof (foldl_cronUser_uniqueKeys (now1 `div` msPerDay)
                (seq 0 (length (users db))) db Hq u (now1 `div` msPerDay)) as Hle.
  unfold cron in *. lia.
Qed.

Lemma C4_cron_idempotent_witness :
  let db := mkDb [mkUser "09" "Male" 0 2; mkUser "10" "Female" 0 0]
                 [mkMealHistory 0 9 Both ["Egg"] true false 2 false] in
  cron (10 * msPerDay + 99) (cron (10 * msPerDay) db) = cron (10 * msPerDay) db ∧
  recordCount 1 10 (mealhistories (cron (10 * msPerDay + 99) (cron (10 * msPerDay) db)))
  = 1%nat.
Proof.
  intros db.
  assert (uniqueKeys (mealhistories db)) as Hq.
  { intros u d. unfold recordCount, db; simpl. rewrite filter_cons.
    case_decide; simpl; lia. }
  destruct (C4_cron_idempotent (10 * msPerDay) (10 * msPerDay + 99) db)
    as (H1 & _ & _ & H4); [reflexivity|exact Hq|].
  split; [exact H1|]. apply H4. simpl. eauto.
Defined.

Lemma seq_split (n u : nat) :
  (u < n)%nat → seq 0 n = (seq 0 u ++ u :: seq (S u) (n - S u))%list.
Proof.
  intros Hu. replace n with (u + S (n - S u))%nat at 1 by lia.
  by rewrite seq_app.
Qed.

Lemma foldl_cronUser_other today l db u d :
  Forall (λ v, v ≠ u) l →
  findOne u d (mealhistories (foldl (cronUser today) db l))
  = findOne u d (mealhistories db).
Proof.
  intros Hl. revert db.
  induction Hl as [|v l Hv Hl IH]; intros db; simpl; [done|].
  rewrite IH. by apply cronUser_other.
Qed.

Lemma cronUser_creates today db u :
  findOne u today (mealhistories db) = None →
  recordOf u today (cronUser today db u)
  = Some (carryForward u today (recordOf u (today - 1) db)).
Proof.
  intros E. unfold cronUser. rewrite E. fold (recordOf u (today - 1) db).
  destruct (carryForward_key u today (recordOf u (today - 1) db)) as [Hu Hd].
  rewrite <- carryForward_count, withDailyMealCount_id.
  rewrite recordOf_incUser.
  eapply recordOf_put_same; [|done..]. by apply findOne_save_new.
Qed.

(** C3, as the job does it.  For every user without a document for today,
    the job creates one carrying forward the meal and the additional items
    of yesterday's document, with both served flags false and
    [dailyMealCount] the count of that meal; without a document for
    yesterday the new one is Off with count 0 and no items. *)
Theorem C3_cron_carries_yesterday (now : Z) (db : Db) (u : nat) :
  is_Some (users db !! u) →
  recordOf u (now `div` msPerDay) db = None →
  recordOf u (now `div` msPerDay) (cron now db)
  = Some match recordOf u (now `div` msPerDay - 1) db with
         | Some p =>
           mkMealHistory u (now `div` msPerDay) (meal p) (additionalItems p)
             false false (dailyCount (meal p)) false
         | None =>
           mkMealHistory u (now `div` msPerDay) Off [] false false 0 false
         end.
Proof.
  intros Hu%lookup_lt_is_Some Hnone. unfold cron.
  set (today := now `div` msPerDay) in *.
  rewrite (seq_split _ u Hu), foldl_app. simpl.
  assert (Forall (λ v, v ≠ u) (seq 0 u)) as Hbefore.
  { apply Forall_forall. intros v Hv%elem_of_seq. lia. }
  assert (Forall (λ v, v ≠ u) (seq (S u) (length (users db) - S u))) as Hafter.
  { apply Forall_forall. intros v Hv%elem_of_seq. lia. }
  set (db0 := foldl (cronUser today) db (seq 0 u)).
  unfold recordOf at 1. rewrite (foldl_cronUser_other _ _ _ _ _ Hafter).
  fold (recordOf u today (cronUser today db0 u)).
  rewrite cronUser_creates.
  - unfold recordOf at 1, db0.
    rewrite (foldl_cronUser_other _ _ _ _ _ Hbefore).
    fold (recordOf u (today - 1) db).
    by destruct (recordOf u (today - 1) db).
  - unfold db0. rewrite (foldl_cronUser_other _ _ _ _ _ Hbefore).
    by apply findOne_None_recordOf.
Qed.

Lemma C3_cron_carries_yesterday_witness :
  let db := mkDb [mkUser "09" "Male" 0 1]
                 [mkMealHistory 0 9 Lunch ["Mutton"] true false 1 true] in
  recordOf 0 10 (cron (10 * msPerDay + 1) db)
  = Some (mkMealHistory 0 10 Lunch ["Mutton"] false false 1 false).
Proof.
  intros db.
  apply (C3_cron_carries_yesterday (10 * msPerDay + 1) db 0).
  - simpl. eauto.
  - reflexivity.
Defined.

(** C3 as stated fails: the job looks at yesterday only.  With the most
    recent earlier document two days old (Lunch), the document created for
    today is Off, not Lunch. *)
Lemma C3_counterexample :
  ¬ (∀ (now : Z) (db : Db) (u : nat),
       is_Some (users db !! u) →
       recordOf u (now `div` msPerDay) db = None →
       let created :=
         carryForward u (now `div` msPerDay)
           (findPrevious u (now `div` msPerDay) (mealhistories db)) in
       recordOf u (now `div` msPerDay) (cron now db) = Some created ∧
       totalOf u (cron now db)
       = (λ t, t + dailyCount (meal created)) <$> totalOf u db).
Proof.
  intros H.
  destruct (H (10 * msPerDay)
              (mkDb [mkUser "09" "Male" 0 1]
                    [mkMealHistory 0 8 Lunch [] false false 1 false]) 0%nat)
    as [Hrec _].
  - simpl. eauto.
  - reflexivity.
  - vm_compute in Hrec. discriminate Hrec.
Qed.

(** ** The running counter and the per-day counts *)

Lemma dailySum_insert u l i r r' :
  l !! i = Some r → userId r' = userId r →
  dailySum u (<[i:=r']> l)
  = dailySum u l
    + (if decide (userId r = u) then dailyMealCount r' - dailyMealCount r else 0).
Proof.
  unfold dailySum. revert i.
  induction l as [|x l IH]; intros i Hi Hu; [done|].
  destruct i as [|i]; simpl in *.
  - simplify_eq. rewrite !filter_cons, Hu.
    case_decide; rewrite ?fmap_cons; cbn [sumZ]; lia.
  - rewrite !filter_cons.
    destruct (decide (userId x = u)); rewrite ?fmap_cons; cbn [sumZ];
      rewrite (IH i) by done; lia.
Qed.

Lemma dailySum_snoc u l r :
  dailySum u (l ++ [r])
  = dailySum u l + (if decide (userId r = u) then dailyMealCount r else 0).
Proof.
  unfold dailySum. induction l as [|x l IH].
  - simpl. rewrite filter_cons. case_decide; simpl; lia.
  - rewrite <- app_comm_cons, !filter_cons.
    destruct (decide (userId x = u)); rewrite ?fmap_cons; cbn [sumZ];
      rewrite IH; lia.
Qed.

Lemma I1_put_inc db u i r r' delta :
  I1 db →
  mealhistories db !! i = Some r → userId r = u → userId r' = u →
  delta = dailyMealCount r' - dailyMealCount r →
  I1 (incUser u delta (putHistory i r' db)).
Proof.
  intros HI Hi Hu Hu' -> v usr. simpl.
  rewrite (dailySum_insert _ _ _ r) by congruence.
  rewrite list_lookup_alter, Hu.
  destruct (decide (u = v)) as [<-|Hne].
  - destruct (users db !! u) as [usr0|] eqn:E; [|done].
    intros [= <-]. simpl. rewrite (HI _ _ E). lia.
  - intros Hv. rewrite (HI _ _ Hv). lia.
Qed.

Lemma I1_save_inc db u r delta :
  I1 db → userId r = u → delta = dailyMealCount r →
  I1 (incUser u delta (saveHistory r db)).
Proof.
  intros HI Hu -> v usr. simpl. rewrite dailySum_snoc.
  rewrite list_lookup_alter, Hu.
  destruct (decide (u = v)) as [<-|Hne].
  - destruct (users db !! u) as [usr0|] eqn:E; [|done].
    intros [= <-]. simpl. rewrite (HI _ _ E). lia.
  - intros Hv. rewrite (HI _ _ Hv). lia.
Qed.

(** Both update routes keep I1 on a database that satisfies I1 and I2. *)
Lemma mealUpdate_I1 now u mealField f dateField db :
  I1 db → Forall I2rec (mealhistories db) →
  I1 (mealUpdate now u mealField f dateField db).1.
Proof.
  intros HI H2. unfold mealUpdate.
  destruct (parseMeal mealField) as [m|]; [|done].
  destruct dateField as [d|]; [|done].
  case_bool_decide; [done|].
  destruct (users db !! u) as [usr|]; [|done].
  destruct (findOne u d (mealhistories db)) as [[i old]|] eqn:E; simpl.
  - destruct (findOne_Some _ _ _ _ _ E) as (Hi & Hu & Hd).
    apply (I1_put_inc _ _ _ old); try done.
    simpl. by rewrite (Forall_lookup_1 _ _ _ _ H2 Hi).
  - by apply I1_save_inc.
Qed.

Lemma staffUpdate_I1 uf mealField dateField db :
  I1 db → Forall I2rec (mealhistories db) →
  I1 (staffUpdate uf mealField dateField db).1.
Proof.
  intros HI H2. unfold staffUpdate.
  destruct (parseMeal mealField) as [m|]; [|done].
  destruct dateField as [d|], uf as [u|]; try done.
  destruct (users db !! u) as [usr|]; [|done].
  destruct (findOne u d (mealhistories db)) as [[i old]|] eqn:E; simpl.
  - destruct (findOne_Some _ _ _ _ _ E) as (Hi & Hu & Hd).
    apply (I1_put_inc _ _ _ old); try done.
    simpl. by rewrite (Forall_lookup_1 _ _ _ _ H2 Hi).
  - by apply I1_save_inc.
Qed.

(** So does the specific extra grant. *)
Lemma extraSpecific_I1 u mealTypeField d db :
  I1 db → Forall I2rec (mealhistories db) →
  I1 (extraSpecific u mealTypeField d db).1.
Proof.
  intros HI H2. unfold extraSpecific.
  destruct (parseSlot mealTypeField) as [slot|]; [|done].
  destruct (findOne u d (mealhistories db)) as [[i old]|] eqn:E.
  - destruct (findOne_Some _ _ _ _ _ E) as (Hi & Hu & Hd).
    unfold finishExtra.
    destruct (extraTarget (meal old) slot) as [[newMeal c]|]; [|done].
    simpl. apply (I1_put_inc _ _ _ old); try done.
    simpl. by rewrite (Forall_lookup_1 _ _ _ _ H2 Hi).
  - destruct (users db !! u) as [usr|]; [|done].
    unfold finishExtra. cbn [meal extraTarget fst].
    set (mh := mkMealHistory u d Off [] false false 0 false).
    apply (I1_put_inc _ _ _ mh); try done.
    + rewrite <- (incUser_0 u (saveHistory mh db)). by apply I1_save_inc.
    + simpl. by rewrite lookup_app_r, Nat.sub_diag.
Qed.

(** C1, where the daily job leaves it.  The database below satisfies I1,
    I2, I3 and the unique index; after the job has carried yesterday's Both
    into today, the user's daily counts add up to 4 while the counter is
    still 2. *)
Theorem C1_cron_breaks_I1 :
  let db := mkDb [mkUser "09" "Male" 0 2]
                 [mkMealHistory 0 9 Both [] true true 2 false] in
  I1 db ∧ Forall I2rec (mealhistories db) ∧ Forall I3rec (mealhistories db) ∧
  cron (10 * msPerDay) db
  = mkDb [mkUser "09" "Male" 0 2]
         [mkMealHistory 0 9 Both [] true true 2 false;
          mkMealHistory 0 10 Both [] false false 2 false] ∧
  totalOf 0 (cron (10 * msPerDay) db) = Some 2 ∧
  dailySum 0 (mealhistories (cron (10 * msPerDay) db)) = 4 ∧
  ¬ I1 (cron (10 * msPerDay) db).
Proof.
  cbv zeta. split_and!.
  - intros [|u] usr; simpl; [by intros [= <-]|done].
  - by repeat constructor.
  - by repeat constructor.
  - reflexivity.
  - reflexivity.
  - reflexivity.
  - intros H. specialize (H 0%nat _ eq_refl). vm_compute in H. discriminate H.
Qed.

(** The same drift through the serve route (a synthesized day) and through
    the bulk grant (a user whose meal already was the granted one). *)
Lemma serve_breaks_I1 :
  let db := mkDb [mkUser "09" "Male" 0 2]
                 [mkMealHistory 0 9 Both [] true true 2 false] in
  I1 db ∧ ¬ I1 (serve 0 "Lunch" 10 db).1.
Proof.
  cbv zeta. split.
  - intros [|u] usr; simpl; [by intros [= <-]|done].
  - intros H. specialize (H 0%nat _ eq_refl). vm_compute in H. discriminate H.
Qed.

Lemma extraAll_breaks_I1 :
  let db := mkDb [mkUser "09" "Male" 0 1; mkUser "09" "Female" 0 0]
                 [mkMealHistory 0 9 Lunch [] false false 1 false;
                  mkMealHistory 1 9 Off [] false false 0 false] in
  I1 db ∧
  totalOf 0 (extraAll "Lunch" 9 db).1 = Some 2 ∧
  ¬ I1 (extraAll "Lunch" 9 db).1.
Proof.
  cbv zeta. split_and!.
  - intros [|[|u]] usr; simpl; [by intros [= <-]|by intros [= <-]|done].
  - reflexivity.
  - intros H. specialize (H 0%nat _ eq_refl). vm_compute in H. discriminate H.
Qed.

(** ** Unserved query *)

Lemma offMeals_cases (ls ds : bool) :
  offMeals Off ls ds = [SLunch; SDinner] ∧
  offMeals Lunch ls ds = (if ls then [] else [SDinner]) ∧
  offMeals Dinner ls ds = (if ds then [] else [SLunch]) ∧
  offMeals Both ls ds
  = (if ls then (if ds then [] else [SDinner]) else [SLunch]).
Proof. by destruct ls, ds. Qed.

Lemma offMeals2_cases (ls ds : bool) :
  Legacy.offMeals2 Off ls ds = [SLunch; SDinner] ∧
  Legacy.offMeals2 Lunch ls ds = (if ls then [] else [SLunch]) ∧
  Legacy.offMeals2 Dinner ls ds = (if ds then [] else [SDinner]) ∧
  Legacy.offMeals2 Both ls ds
  = (if ls then (if ds then [] else [SDinner]) else [SLunch]).
Proof. by destruct ls, ds. Qed.

(** C9, what the query answers.  A user on Both with neither meal served
    is reported with Lunch only; a user on Lunch, not yet served, is
    reported with Dinner; a user without a document with both slots. *)
Theorem C9_all_users_answers :
  let db := mkDb [mkUser "09" "Male" 0 2; mkUser "09" "Male" 0 1;
                  mkUser "10" "Female" 0 0]
                 [mkMealHistory 0 5 Both [] false false 2 false;
                  mkMealHistory 1 5 Lunch [] false false 1 false] in
  allUsers 5 None (Some "all") db
  = [(0%nat, [SLunch]); (1%nat, [SDinner]); (2%nat, [SLunch; SDinner])].
Proof. reflexivity. Qed.

(** ** Bulk extra grant *)

Lemma extraAll_grantAll mt d db :
  mt ≠ Off → extraAll (mealName mt) d db = grantAll mt d db.
Proof. intros Hmt. unfold extraAll. rewrite parseMeal_mealName. by destruct mt. Qed.

Lemma findOne_fmap_key u d (g : MealHistory → MealHistory) l :
  (∀ r, userId (g r) = userId r ∧ date (g r) = date r) →
  findOne u d (g <$> l) = prod_map id g <$> findOne u d l.
Proof.
  intros Hg. unfold findOne. rewrite list_find_fmap.
  f_equal. apply list_find_ext. intros r; simpl.
  by destruct (Hg r) as [-> ->].
Qed.

Lemma grantAll_recordOf mt d db u d' :
  recordOf u d' (grantAll mt d db).1
  = (λ r, if decide (date r = d ∧ meal r = Off) then grantedRecord mt r else r)
      <$> recordOf u d' db.
Proof.
  unfold grantAll, recordOf.
  assert (∀ hs us,
    snd <$> findOne u d' (mealhistories (mkDb us
      ((λ r, if decide (date r = d ∧ meal r = Off)
             then grantedRecord mt r else r) <$> hs)))
    = (λ r, if decide (date r = d ∧ meal r = Off)
            then grantedRecord mt r else r) <$> (snd <$> findOne u d' hs)) as H.
  { intros hs us. simpl. rewrite findOne_fmap_key.
    - by destruct (findOne u d' hs) as [[i r]|].
    - intros r. by case_decide. }
  case_bool_decide; apply H.
Qed.

Lemma grantAll_reply mt d db :
  (grantAll mt d db).2 = ExtraEnabledFor mt (length (affectedUsers d db)).
Proof.
  unfold grantAll, affectedUsers. rewrite length_fmap. by case_bool_decide.
Qed.

Lemma grantAll_listed mt d db u :
  mt ≠ Off →
  u ∈ userId <$> filter (λ r, date r = d ∧ meal r = mt)
        ((λ r, if decide (date r = d ∧ meal r = Off)
               then grantedRecord mt r else r) <$> mealhistories db)
  ↔ ∃ r, r ∈ mealhistories db ∧ userId r = u ∧ date r = d ∧
         (meal r = Off ∨ meal r = mt).
Proof.
  intros Hmt. rewrite list_elem_of_fmap. split.
  - intros (r' & -> & Hr'). apply list_elem_of_filter in Hr' as [[Hd Hm] Hr'].
    apply list_elem_of_fmap in Hr' as (r & -> & Hr). exists r.
    case_decide as Hoff; simpl in *; [tauto|]. tauto.
  - intros (r & Hr & Hu & Hd & Hm).
    exists (if decide (date r = d ∧ meal r = Off) then grantedRecord mt r else r).
    split; [by case_decide|].
    apply list_elem_of_filter. split.
    + case_decide as Hoff; simpl; [tauto|]. split; [done|]. tauto.
    + apply list_elem_of_fmap. by exists r.
Qed.

Lemma grantAll_totalOf mt d db u :
  totalOf u (grantAll mt d db).1
  = if bool_decide
         ((0 < length (affectedUsers d db))%nat ∧
          u ∈ userId <$> filter (λ r, date r = d ∧ meal r = mt)
                ((λ r, if decide (date r = d ∧ meal r = Off)
                       then grantedRecord mt r else r) <$> mealhistories db))
    then (λ t, t + extraCount mt) <$> totalOf u db
    else totalOf u db.
Proof.
  unfold grantAll, affectedUsers, totalOf. rewrite length_fmap.
  case_bool_decide as Hn; simpl.
  - rewrite list_lookup_imap. destruct (users db !! u) as [usr|]; simpl.
    + case_bool_decide as Hin.
      * by rewrite bool_decide_eq_true_2.
      * rewrite bool_decide_eq_false_2; [done|tauto].
    + by case_bool_decide.
  - rewrite bool_decide_eq_false_2; [done|tauto].
Qed.

Lemma recordCount_cons u d x l :
  recordCount u d (x :: l)
  = ((if decide (userId x = u ∧ date x = d) then 1 else 0)
     + recordCount u d l)%nat.
Proof. unfold recordCount. rewrite filter_cons. by case_decide. Qed.

Lemma uniqueKeys_cons_inv x l : uniqueKeys (x :: l) → uniqueKeys l.
Proof.
  intros Hq u d. specialize (Hq u d). rewrite recordCount_cons in Hq. lia.
Qed.

Lemma recordCount_elem r l :
  r ∈ l → (1 ≤ recordCount (userId r) (date r) l)%nat.
Proof.
  induction 1 as [x l|x y l Hin IH]; rewrite recordCount_cons.
  - rewrite decide_True by done. lia.
  - lia.
Qed.

Lemma uniqueKeys_findOne l r :
  uniqueKeys l → r ∈ l →
  snd <$> findOne (userId r) (date r) l = Some r.
Proof.
  induction l as [|x l IH]; intros Hq Hin; [by apply elem_of_nil in Hin|].
  unfold findOne. simpl.
  pose proof (Hq (userId r) (date r)) as Hc. rewrite recordCount_cons in Hc.
  apply elem_of_cons in Hin as [->|Hin].
  - by rewrite decide_True.
  - pose proof (recordCount_elem _ _ Hin) as Hge.
    rewrite decide_False by (intros Hx; rewrite decide_True in Hc by done; lia).
    specialize (IH (uniqueKeys_cons_inv _ _ Hq) Hin). unfold findOne in IH.
    by destruct (list_find _ l) as [[j y]|].
Qed.

Lemma affectedUsers_NoDup d db :
  uniqueKeys (mealhistories db) → NoDup (affectedUsers d db).
Proof.
  unfold affectedUsers. induction (mealhistories db) as [|x l IH]; intros Hq.
  - constructor.
  - rewrite filter_cons.
    specialize (IH (uniqueKeys_cons_inv _ _ Hq)).
    case_decide as Hx; [|done]. rewrite fmap_cons. constructor; [|done].
    intros (r & Hu & Hr)%list_elem_of_fmap.
    apply list_elem_of_filter in Hr as [[Hd _] Hr].
    pose proof (recordCount_elem _ _ Hr) as Hge.
    pose proof (Hq (userId r) (date r)) as Hc. rewrite recordCount_cons in Hc.
    rewrite decide_True in Hc by (destruct Hx; split; congruence). lia.
Qed.

Lemma affectedUsers_spec d db u :
  uniqueKeys (mealhistories db) →
  u ∈ affectedUsers d db
  ↔ ∃ old, recordOf u d db = Some old ∧ meal old = Off.
Proof.
  intros Hq. unfold affectedUsers. rewrite list_elem_of_fmap. split.
  - intros (r & -> & Hr). apply list_elem_of_filter in Hr as [[<- Hm] Hr].
    exists r. split; [|done]. by apply uniqueKeys_findOne.
  - intros (old & Hrec & Hm). unfold recordOf in Hrec.
    destruct (findOne u d (mealhistories db)) as [[i r]|] eqn:E; [|done].
    simpl in Hrec. simplify_eq.
    destruct (findOne_Some _ _ _ _ _ E) as (Hi & Hu & Hd).
    exists old. split; [done|]. apply list_elem_of_filter.
    split; [done|]. by eapply list_elem_of_lookup_2.
Qed.

(** C5, as the route does it.  The bulk grant of [mt] (Lunch, Dinner or
    Both) on a day is for exactly the users whose document for that day is
    Off: each such document gets meal [mt], both served flags false,
    [dailyMealCount] 2 for Both and 1 otherwise and [isExtra] true, and each
    such user's counter is incremented once by that count; the answer
    reports their number.  A user without a document for the day gets none
    and keeps the counter; a document that is not Off is left as it is. *)
Theorem C5_extra_all (mt : Meal) (d : Z) (db : Db) :
  mt ≠ Off →
  uniqueKeys (mealhistories db) →
  let res := extraAll (mealName mt) d db in
  (∀ u : nat,
     u ∈ affectedUsers d db ↔ ∃ old, recordOf u d db = Some old ∧ meal old = Off) ∧
  NoDup (affectedUsers d db) ∧
  res.2 = ExtraEnabledFor mt (length (affectedUsers d db)) ∧
  (∀ (u : nat) (old : MealHistory),
     recordOf u d db = Some old → meal old = Off →
     recordOf u d res.1
     = Some (mkMealHistory u d mt (additionalItems old) false false
               (if decide (mt = Both) then 2 else 1) true) ∧
     totalOf u res.1
     = (λ t, t + (if decide (mt = Both) then 2 else 1)) <$> totalOf u db) ∧
  (∀ u : nat,
     recordOf u d db = None →
     recordOf u d res.1 = None ∧ totalOf u res.1 = totalOf u db) ∧
  (∀ (u : nat) (old : MealHistory),
     recordOf u d db = Some old → meal old ≠ Off →
     recordOf u d res.1 = Some old).
Proof.
  intros Hmt Hq. cbv zeta. rewrite extraAll_grantAll by done.
  assert (extraCount mt = if decide (mt = Both) then 2 else 1) as Hc
    by by destruct mt.
  split_and!.
  - intros u. by apply affectedUsers_spec.
  - by apply affectedUsers_NoDup.
  - apply grantAll_reply.
  - intros u old Hrec Hm. rewrite grantAll_recordOf, grantAll_totalOf, Hrec.
    unfold recordOf in Hrec.
    destruct (findOne u d (mealhistories db)) as [[i r]|] eqn:E; [|done].
    simpl in Hrec. simplify_eq.
    destruct (findOne_Some _ _ _ _ _ E) as (Hi & Hu & Hd).
    pose proof (list_elem_of_lookup_2 _ _ _ Hi) as Hin.
    split.
    + simpl. rewrite decide_True by done.
      unfold grantedRecord. by rewrite Hu, Hd, Hc.
    + rewrite bool_decide_eq_true_2; [by rewrite Hc|]. split.
      * assert (u ∈ affectedUsers d db) as Ha.
        { unfold affectedUsers. apply list_elem_of_fmap. exists old.
          split; [done|]. by apply list_elem_of_filter. }
        destruct (affectedUsers d db); [by apply elem_of_nil in Ha|simpl; lia].
      * apply grantAll_listed; [done|]. exists old. tauto.
  - intros u Hrec. rewrite grantAll_recordOf, grantAll_totalOf, Hrec.
    split; [done|]. rewrite bool_decide_eq_false_2; [done|].
    intros [_ (r & Hr & Hu & Hd & _)%grantAll_listed]; [|done].
    apply findOne_None_recordOf, findOne_None_recordCount in Hrec.
    pose proof (recordCount_elem _ _ Hr) as Hge. rewrite Hu, Hd in Hge. lia.
  - intros u old Hrec Hm. rewrite grantAll_recordOf, Hrec. simpl.
    rewrite decide_False; [done|tauto].
Qed.

Lemma C5_extra_all_witness :
  let db := mkDb [mkUser "09" "Male" 0 0; mkUser "09" "Female" 0 5]
                 [mkMealHistory 0 3 Off ["Egg"] false false 0 false] in
  (extraAll "Both" 3 db).2 = ExtraEnabledFor Both 1 ∧
  recordOf 0 3 (extraAll "Both" 3 db).1
  = Some (mkMealHistory 0 3 Both ["Egg"] false false 2 true) ∧
  totalOf 0 (extraAll "Both" 3 db).1 = Some 2 ∧
  recordOf 1 3 (extraAll "Both" 3 db).1 = None ∧
  totalOf 1 (extraAll "Both" 3 db).1 = Some 5.
Proof.
  intros db.
  assert (uniqueKeys (mealhistories db)) as Hq.
  { intros u d. unfold recordCount, db; simpl. rewrite filter_cons.
    case_decide; simpl; lia. }
  destruct (C5_extra_all Both 3 db ltac:(discriminate) Hq)
    as (_ & _ & Hrep & Hoff & Hnone & _).
  destruct (Hoff 0%nat _ eq_refl eq_refl) as [Hr Ht].
  destruct (Hnone 1%nat eq_refl) as [Hr1 Ht1].
  split_and!; [exact Hrep|exact Hr|exact Ht|exact Hr1|exact Ht1].
Defined.

(** C5 as stated fails: a user without a document for the day is not
    treated as Off; the grant creates no document and moves no counter for
    that user. *)
Lemma C5_counterexample :
  ¬ (∀ (mt : Meal) (d : Z) (db : Db) (u : nat),
       mt ≠ Off →
       is_Some (users db !! u) →
       recordOf u d db = None ∨ meal <$> recordOf u d db = Some Off →
       meal <$> recordOf u d (extraAll (mealName mt) d db).1 = Some mt ∧
       totalOf u (extraAll (mealName mt) d db).1
       = (λ t, t + extraCount mt) <$> totalOf u db).
Proof.
  intros H.
  destruct (H Lunch 3
              (mkDb [mkUser "09" "Male" 0 0; mkUser "09" "Female" 0 5]
                    [mkMealHistory 0 3 Off [] false false 0 false]) 1%nat)
    as [Hrec _].
  - discriminate.
  - simpl. eauto.
  - by left.
  - vm_compute in Hrec. discriminate Hrec.
Qed.

(** ** I2, I3 and the unique index along every run *)

Lemma good_putHistory db u d i r r' :
  goodHistories (mealhistories db) →
  findOne u d (mealhistories db) = Some (i, r) →
  userId r' = u → date r' = d → I2rec r' → I3rec r' →
  goodHistories (mealhistories (putHistory i r' db)).
Proof.
  intros (Hq & H2 & H3) E Hu Hd Hr2 Hr3.
  destruct (findOne_Some _ _ _ _ _ E) as (Hi & <- & <-). simpl.
  split_and!.
  - intros v e. rewrite (recordCount_insert _ _ _ _ r) by done. apply Hq.
  - by apply Forall_insert.
  - by apply Forall_insert.
Qed.

Lemma good_saveHistory db u d r :
  goodHistories (mealhistories db) →
  findOne u d (mealhistories db) = None →
  userId r = u → date r = d → I2rec r → I3rec r →
  goodHistories (mealhistories (saveHistory r db)).
Proof.
  intros (Hq & H2 & H3) E Hu Hd Hr2 Hr3. simpl. split_and!.
  - intros v e. rewrite recordCount_snoc. case_decide as Hk; [|specialize (Hq v e); lia].
    destruct Hk as [<- <-]. rewrite Hu, Hd.
    apply findOne_None_recordCount in E. lia.
  - apply Forall_app; split; [done|]. constructor; [done|constructor].
  - apply Forall_app; split; [done|]. constructor; [done|constructor].
Qed.

Lemma changedRecord_ok r m items :
  I2rec (changedRecord r m items) ∧ I3rec (changedRecord r m items).
Proof. unfold I2rec, I3rec. by destruct m. Qed.

Lemma carryForward_ok u d p :
  I2rec (carryForward u d p) ∧ I3rec (carryForward u d p).
Proof. unfold I2rec, I3rec. by destruct p. Qed.

Lemma mealUpdate_good now u mealField f dateField db :
  goodHistories (mealhistories db) →
  goodHistories (mealhistories (mealUpdate now u mealField f dateField db).1).
Proof.
  intros Hg. unfold mealUpdate.
  destruct (parseMeal mealField) as [m|]; [|done].
  destruct dateField as [d|]; [|done].
  case_bool_decide; [done|].
  destruct (users db !! u) as [usr|]; [|done].
  destruct (findOne u d (mealhistories db)) as [[i old]|] eqn:E.
  - destruct (findOne_Some _ _ _ _ _ E) as (Hi & Hu & Hd).
    apply (good_putHistory _ u d _ old); try done;
      apply changedRecord_ok.
  - apply (good_saveHistory _ u d); try done; try (by split); by destruct m.
Qed.

Lemma staffUpdate_good uf mealField dateField db :
  goodHistories (mealhistories db) →
  goodHistories (mealhistories (staffUpdate uf mealField dateField db).1).
Proof.
  intros Hg. unfold staffUpdate.
  destruct (parseMeal mealField) as [m|]; [|done].
  destruct dateField as [d|], uf as [u|]; try done.
  destruct (users db !! u) as [usr|]; [|done].
  destruct (findOne u d (mealhistories db)) as [[i old]|] eqn:E.
  - destruct (findOne_Some _ _ _ _ _ E) as (Hi & Hu & Hd).
    apply (good_putHistory _ u d _ old); try done;
      apply changedRecord_ok.
  - apply (good_saveHistory _ u d); try done; try (by split); by destruct m.
Qed.

Lemma finishServe_good u d i mh slot db :
  goodHistories (mealhistories db) →
  findOne u d (mealhistories db) = Some (i, mh) →
  goodHistories (mealhistories (finishServe i mh slot db).1).
Proof.
  intros Hg E. unfold finishServe.
  destruct (serveGuard mh slot) as [e|] eqn:G; [done|].
  apply serveGuard_None in G as [Hinc Hsrv].
  destruct (findOne_Some _ _ _ _ _ E) as (Hi & Hu & Hd).
  destruct Hg as (Hq & H2 & H3).
  pose proof (Forall_lookup_1 _ _ _ _ H2 Hi) as Hr2.
  pose proof (Forall_lookup_1 _ _ _ _ H3 Hi) as [HL HD].
  apply (good_putHistory _ u d _ mh); try done.
  - by destruct slot.
  - by destruct slot.
  - by destruct slot.
  - destruct slot; split; simpl in *; auto.
Qed.

Lemma serve_good u mealTypeField d db :
  goodHistories (mealhistories db) →
  goodHistories (mealhistories (serve u mealTypeField d db).1).
Proof.
  intros Hg. unfold serve.
  destruct (parseSlot mealTypeField) as [slot|]; [|done].
  destruct (findOne u d (mealhistories db)) as [[i mh]|] eqn:E.
  - by apply (finishServe_good u d).
  - destruct (users db !! u) as [usr|]; [|done].
    destruct (carryForward_key u d (findPrevious u d (mealhistories db)))
      as [Hu Hd].
    destruct (carryForward_ok u d (findPrevious u d (mealhistories db)))
      as [Hr2 Hr3].
    apply (finishServe_good u d).
    + by apply (good_saveHistory _ u d).
    + by apply findOne_save_new.
Qed.

Lemma finishExtra_good u d i mh slot db :
  goodHistories (mealhistories db) →
  findOne u d (mealhistories db) = Some (i, mh) →
  goodHistories (mealhistories (finishExtra u i mh slot db).1).
Proof.
  intros Hg E. unfold finishExtra.
  destruct (findOne_Some _ _ _ _ _ E) as (Hi & Hu & Hd).
  destruct (extraTarget (meal mh) slot) as [[newMeal c]|] eqn:T; [|done].
  apply (good_putHistory _ u d _ mh); try done.
  - unfold I2rec. destruct (meal mh), slot; simpl in T; by simplify_eq.
  - unfold I3rec.
    destruct (meal mh), slot; simpl in T; simplify_eq; simpl; by split.
Qed.

Lemma extraSpecific_good u mealTypeField d db :
  goodHistories (mealhistories db) →
  goodHistories (mealhistories (extraSpecific u mealTypeField d db).1).
Proof.
  intros Hg. unfold extraSpecific.
  destruct (parseSlot mealTypeField) as [slot|]; [|done].
  destruct (findOne u d (mealhistories db)) as [[i mh]|] eqn:E.
  - by apply (finishExtra_good u d).
  - destruct (users db !! u) as [usr|]; [|done].
    apply (finishExtra_good u d).
    + apply (good_saveHistory _ u d); try done; by split.
    + by apply findOne_save_new.
Qed.

Lemma recordCount_fmap_key u d (g : MealHistory → MealHistory) l :
  (∀ r, userId (g r) = userId r ∧ date (g r) = date r) →
  recordCount u d (g <$> l) = recordCount u d l.
Proof.
  intros Hg. induction l as [|x l IH]; [done|].
  rewrite fmap_cons, !recordCount_cons, IH.
  destruct (Hg x) as [-> ->]. done.
Qed.

Lemma grantAll_good mt d db :
  mt ≠ Off →
  goodHistories (mealhistories db) →
  goodHistories (mealhistories (grantAll mt d db).1).
Proof.
  intros Hmt (Hq & H2 & H3).
  assert (goodHistories
            ((λ r, if decide (date r = d ∧ meal r = Off)
                   then grantedRecord mt r else r) <$> mealhistories db)) as Hg.
  { split_and!.
    - intros u e. rewrite recordCount_fmap_key; [apply Hq|].
      intros r. by case_decide.
    - apply Forall_fmap. eapply Forall_impl; [exact H2|].
      intros r Hr. simpl. case_decide; [|done]. by destruct mt.
    - apply Forall_fmap. eapply Forall_impl; [exact H3|].
      intros r Hr. simpl. case_decide; [|done]. by split. }
  unfold grantAll. by case_bool_decide.
Qed.

Lemma extraAll_good mealTypeField d db :
  goodHistories (mealhistories db) →
  goodHistories (mealhistories (extraAll mealTypeField d db).1).
Proof.
  intros Hg. unfold extraAll.
  destruct (parseMeal mealTypeField) as [[| | |]|]; try done;
    by apply grantAll_good.
Qed.

Lemma cronUser_good today db u :
  goodHistories (mealhistories db) →
  goodHistories (mealhistories (cronUser today db u)).
Proof.
  intros Hg. unfold cronUser.
  destruct (findOne u today (mealhistories db)) as [[i mh]|] eqn:E.
  - destruct (findOne_Some _ _ _ _ _ E) as (Hi & Hu & Hd).
    destruct Hg as (Hq & H2 & H3).
    pose proof (Forall_lookup_1 _ _ _ _ H3 Hi) as Hr3.
    by apply (good_putHistory _ u today _ mh).
  - destruct (carryForward_key u today
                (snd <$> findOne u (today - 1) (mealhistories db))) as [Hu Hd].
    destruct (carryForward_ok u today
                (snd <$> findOne u (today - 1) (mealhistories db))) as [Hr2 Hr3].
    remember (carryForward u today _) as mh eqn:Hmh in *.
    apply (good_putHistory _ u today _ mh); try done.
    + by apply (good_saveHistory _ u today).
    + by apply findOne_save_new.
Qed.

Lemma cron_good now db :
  goodHistories (mealhistories db) →
  goodHistories (mealhistories (cron now db)).
Proof.
  unfold cron. generalize (seq 0 (length (users db))). intros l. revert db.
  induction l as [|u l IH]; intros db Hg; simpl; [done|].
  by apply IH, cronUser_good.
Qed.

Lemma handle_good db req :
  goodHistories (mealhistories db) →
  goodHistories (mealhistories (handle db req)).
Proof.
  destruct req; simpl;
    eauto using mealUpdate_good, staffUpdate_good, serve_good, extraAll_good,
      extraSpecific_good, cron_good.
Qed.

(** Starting without meal histories, every sequence of requests leads to a
    database whose histories satisfy I2, I3 and the unique index. *)
Lemma run_good (us : list User) (reqs : list Request) :
  goodHistories (mealhistories (foldl handle (mkDb us []) reqs)).
Proof.
  assert (goodHistories (mealhistories (mkDb us []))) as Hg.
  { split_and!; [intros u d; unfold recordCount; simpl; lia|constructor..]. }
  revert Hg. generalize (mkDb us []). intros db.
  revert db. induction reqs as [|req reqs IH]; intros db Hg; simpl; [done|].
  by apply IH, handle_good.
Qed.

(** Along any sequence of meal updates and specific extra grants the
    counter of every user stays the sum of that user's daily counts. *)
Lemma updates_keep_I1 (reqs : list Request) (db : Db) :
  I1 db → goodHistories (mealhistories db) →
  Forall (λ req, isUpdate req = true) reqs →
  I1 (foldl handle db reqs).
Proof.
  intros HI Hg Hall. revert db HI Hg.
  induction Hall as [|req reqs Hreq Hall IH]; intros db HI Hg; simpl; [done|].
  apply IH; [|by apply handle_good].
  destruct Hg as (_ & H2 & _).
  destruct req; simpl in *; try done;
    eauto using mealUpdate_I1, staffUpdate_I1, extraSpecific_I1.
Qed.

(** ** Scenarios *)

(** No document yet: Both creates one with [dailyMealCount] 2 and adds 2 to
    the counter. *)
Example scenario_first_selection :
  mealUpdate (100 * msPerDay) 0 "Both" (ItemsArray []) (Some 100)
    (mkDb [mkUser "12" "Female" 0 0] [])
  = (mkDb [mkUser "12" "Female" 0 2]
          [mkMealHistory 0 100 Both [] false false 2 false], MealUpdated).
Proof. reflexivity. Qed.

(** Both to Lunch on the same day: the counter goes down by 1 and
    [dinnerServed] is cleared although it was set. *)
Example scenario_both_to_lunch :
  mealUpdate (100 * msPerDay) 0 "Lunch" (ItemsArray []) (Some 100)
    (mkDb [mkUser "12" "Female" 0 2]
          [mkMealHistory 0 100 Both [] true true 2 false])
  = (mkDb [mkUser "12" "Female" 0 1]
          [mkMealHistory 0 100 Lunch [] true false 1 false], MealUpdated).
Proof. reflexivity. Qed.

(** A user without any document: the job creates Off with count 0, and a
    second run the same day adds nothing. *)
Example scenario_cron_twice :
  let db := mkDb [mkUser "12" "Female" 0 0] [] in
  cron (100 * msPerDay) db
  = mkDb [mkUser "12" "Female" 0 0]
         [mkMealHistory 0 100 Off [] false false 0 false] ∧
  cron (100 * msPerDay + 5) (cron (100 * msPerDay) db) = cron (100 * msPerDay) db.
Proof. split; reflexivity. Qed.

(** A past day is refused on the self-service route and accepted on the
    staff route. *)
Example scenario_past_day :
  let db := mkDb [mkUser "12" "Female" 0 0] [] in
  mealUpdate (100 * msPerDay) 0 "Lunch" ItemsMissing (Some 99) db
  = (db, CannotUpdatePastDate) ∧
  staffUpdate (Some 0%nat) "Lunch" (Some 99) db
  = (mkDb [mkUser "12" "Female" 0 1]
          [mkMealHistory 0 99 Lunch [] false false 1 false], MealUpdated).
Proof. split; reflexivity. Qed.

(** ** The earlier generations *)

(** The first serve route has no per-slot guard: Lunch is marked served on
    a Dinner-only day. *)
Example legacy_serve_ignores_slot :
  Legacy.serve1 0 "Lunch" 6
    (mkDb [mkUser "10" "Male" 0 1]
          [mkMealHistory 0 6 Dinner [] false false 1 false])
  = (mkDb [mkUser "10" "Male" 0 1]
          [mkMealHistory 0 6 Dinner [] true false 1 false], ServedOk SLunch).
Proof. reflexivity. Qed.

(** The second query reports a single-meal day under its own slot, and a
    Both day with nothing served under Lunch only. *)
Example legacy_off_users :
  Legacy.offMeals2 Lunch false false = [SLunch] ∧
  Legacy.offMeals2 Both false false = [SLunch].
Proof. split; reflexivity. Qed.

(** [src/server.js] counts Off as one meal: switching today's entry from
    Lunch to Off leaves the counter where it was. *)
Example legacy_off_counts_one :
  Legacy.mealUpdate0 20 0 Off []
    (mkDb [mkUser "10" "Male" 0 1]
          [mkMealHistory 0 20 Lunch [] false false 0 false])
  = mkDb [mkUser "10" "Male" 0 1]
         [mkMealHistory 0 20 Off [] false false 0 false].
Proof. reflexivity. Qed.

(** * Further properties of the routes *)

(** ** The latest-document lookups *)

Lemma foldl_laterOf_Some a l :
  ∃ b, foldl laterOf (Some a) l = Some b ∧ b ∈ a :: l ∧
       ∀ r, r ∈ a :: l → date r ≤ date b.
Proof.
  revert a. induction l as [|x l IH]; intros a; simpl.
  - exists a. split_and!; [done|by left|].
    intros r Hr. apply list_elem_of_singleton in Hr as ->. lia.
  - case_bool_decide as Hlt.
    + destruct (IH x) as (b & -> & Hin & Hmax). exists b.
      split_and!; [done|by right|].
      intros r Hr. pose proof (Hmax x ltac:(by left)).
      apply elem_of_cons in Hr as [->|Hr]; [lia|by apply Hmax].
    + destruct (IH a) as (b & -> & Hin & Hmax). exists b. split_and!; [done| |].
      * apply elem_of_cons in Hin as [->|Hin]; [by left|by do 2 right].
      * intros r Hr. pose proof (Hmax a ltac:(by left)).
        apply elem_of_cons in Hr as [->|Hr]; [done|].
        apply elem_of_cons in Hr as [->|Hr]; [lia|].
        apply Hmax. by right.
Qed.

Lemma foldl_laterOf_None l :
  match foldl laterOf None l with
  | Some b => b ∈ l ∧ ∀ r, r ∈ l → date r ≤ date b
  | None => l = []
  end.
Proof.
  destruct l as [|a l]; simpl; [done|].
  by destruct (foldl_laterOf_Some a l) as (b & -> & Hin & Hmax).
Qed.

Lemma findPrevious_spec (u : nat) (d : Z) (l : list MealHistory) :
  match findPrevious u d l with
  | Some b =>
    b ∈ l ∧ userId b = u ∧ date b < d ∧
    ∀ r, r ∈ l → userId r = u → date r < d → date r ≤ date b
  | None => ∀ r, r ∈ l → userId r = u → ¬ date r < d
  end.
Proof.
  unfold findPrevious.
  pose proof (foldl_laterOf_None (filter (λ r, userId r = u ∧ date r < d) l)) as H.
  destruct (foldl laterOf None _) as [b|].
  - destruct H as [Hin Hmax]. apply list_elem_of_filter in Hin as [[Hu Hd] Hin].
    split_and!; try done. intros r Hr Hru Hrd. apply Hmax.
    by apply list_elem_of_filter.
  - intros r Hr Hru Hrd.
    assert (r ∈ filter (λ r, userId r = u ∧ date r < d) l) as Hf
      by by apply list_elem_of_filter.
    rewrite H in Hf. by apply elem_of_nil in Hf.
Qed.

(** The document that serve and the serving page carry forward is the
    user's latest one strictly before the day: it belongs to the user, lies
    before the day and no earlier document of the user is later; there is
    none exactly when the user has no document before the day. *)
Theorem findPrevious_latest_earlier (u : nat) (d : Z) (l : list MealHistory) :
  match findPrevious u d l with
  | Some b =>
    b ∈ l ∧ userId b = u ∧ date b < d ∧
    ∀ r, r ∈ l → userId r = u → date r < d → date r ≤ date b
  | None => ∀ r, r ∈ l → userId r = u → ¬ date r < d
  end.
Proof. exact (findPrevious_spec u d l). Qed.

(** ** Serving a day that has no document *)

(** For an existing user and a day without a document, every serve call
    with a valid meal type adds exactly one document, the one for that day,
    also when the call is refused. *)
Theorem serve_creates_day (u : nat) (slot : Slot) (d : Z) (db : Db) :
  is_Some (users db !! u) →
  recordOf u d db = None →
  let res := serve u (slotName slot) d db in
  length (mealhistories res.1) = S (length (mealhistories db)) ∧
  ∃ r, recordOf u d res.1 = Some r ∧
       meal r = meal (carryForward u d (findPrevious u d (mealhistories db))) ∧
       (errorKind res.2 ≠ None →
        r = carryForward u d (findPrevious u d (mealhistories db))).
Proof.
  intros [usr Husr] Hnone. cbv zeta.
  apply findOne_None_recordOf in Hnone.
  assert (serve u (slotName slot) d db
          = finishServe (length (mealhistories db))
              (carryForward u d (findPrevious u d (mealhistories db))) slot
              (saveHistory
                 (carryForward u d (findPrevious u d (mealhistories db))) db))
    as ->.
  { unfold serve. by rewrite parseSlot_slotName, Hnone, Husr. }
  destruct (carryForward_key u d (findPrevious u d (mealhistories db)))
    as [Hu Hd].
  remember (carryForward u d _) as mh eqn:Hmh.
  pose proof (findOne_save_new u d mh db Hnone Hu Hd) as E.
  unfold finishServe. destruct (serveGuard mh slot) as [e|] eqn:G; cbn [fst snd].
  - split; [simpl; rewrite length_app; simpl; lia|].
    exists mh. by rewrite (findOne_recordOf _ _ _ _ _ E).
  - split; [simpl; rewrite length_insert, length_app; simpl; lia|].
    exists (setServed mh slot). split_and!.
    + apply (recordOf_put_same u d _ mh); [done|by destruct slot..].
    + by destruct slot.
    + by destruct slot.
Qed.

Lemma serve_creates_day_witness :
  let db := mkDb [mkUser "10" "Male" 0 0] [] in
  length (mealhistories (serve 0 "Lunch" 4 db).1) = 1%nat.
Proof.
  intros db.
  destruct (serve_creates_day 0 SLunch 4 db) as [H _].
  - simpl. eauto.
  - reflexivity.
  - exact H.
Defined.

(** ** Repeating and undoing a change *)

Lemma changedRecord_again r m items :
  changedRecord (changedRecord r m items) m items = changedRecord r m items.
Proof. unfold changedRecord; simpl. by destruct (hasLunch m), (hasDinner m). Qed.

Lemma users_incUser_is_Some u v delta db :
  is_Some (users (incUser v delta db) !! u) ↔ is_Some (users db !! u).
Proof. simpl. by rewrite !lookup_lt_is_Some, length_alter. Qed.

(** Resent at the very same instant, a self-service request is answered as
    before and changes nothing more. *)
Lemma mealUpdate_again (now : Z) (u : nat) (mealField : string)
    (f : ItemsField) (dateField : option Z) (db : Db) :
  mealUpdate now u mealField f dateField
    (mealUpdate now u mealField f dateField db).1
  = mealUpdate now u mealField f dateField db.
Proof.
  destruct (parseMeal mealField) as [m|] eqn:Hm;
    [|by unfold mealUpdate; rewrite Hm].
  destruct dateField as [d|]; [|by unfold mealUpdate; rewrite Hm].
  destruct (bool_decide (d * msPerDay + msPerDay - 1 < now)) eqn:Hg;
    [by unfold mealUpdate; rewrite Hm, Hg|].
  destruct (users db !! u) as [usr|] eqn:Husr;
    [|unfold mealUpdate; rewrite Hm, Hg, Husr; cbn [fst]; by rewrite Husr].
  assert (∀ db1 i r,
    is_Some (users db1 !! u) →
    findOne u d (mealhistories db1) = Some (i, r) →
    meal r = m →
    changedRecord r m (additionalItemsArray f) = r →
    mealUpdate now u mealField f (Some d) db1 = (db1, MealUpdated)) as Hfix.
  { intros db1 i r [usr1 Husr1] E Hmeal Hsame. unfold mealUpdate.
    rewrite Hm, Hg, Husr1, E, Hsame, Hmeal, Z.sub_diag.
    destruct (findOne_Some _ _ _ _ _ E) as (Hi & _ & _).
    by rewrite incUser_0, putHistory_id. }
  unfold mealUpdate at 2 3. rewrite Hm, Hg, Husr.
  destruct (findOne u d (mealhistories db)) as [[i old]|] eqn:E; cbn [fst].
  - destruct (findOne_Some _ _ _ _ _ E) as (Hi & Hu & Hd).
    apply (Hfix _ i (changedRecord old m (additionalItemsArray f))).
    + apply users_incUser_is_Some. simpl. eauto.
    + by apply (findOne_put_same u d i old).
    + done.
    + apply changedRecord_again.
  - apply (Hfix _ (length (mealhistories db))
             (mkMealHistory u d m (additionalItemsArray f) false false
                (dailyCount m) false)).
    + apply users_incUser_is_Some. simpl. eauto.
    + by apply (findOne_save_new u d).
    + done.
    + unfold changedRecord; simpl. by destruct m.
Qed.

(** Only the date guard reads the clock: two instants at which the day is
    not in the past give the same result. *)
Lemma mealUpdate_clock now now' u mealField f dateField db :
  (∀ d, dateField = Some d →
        now `div` msPerDay ≤ d ∧ now' `div` msPerDay ≤ d) →
  mealUpdate now u mealField f dateField db
  = mealUpdate now' u mealField f dateField db.
Proof.
  intros Hd. unfold mealUpdate.
  destruct (parseMeal mealField) as [m|]; [|done].
  destruct dateField as [d|]; [|done].
  destruct (Hd d eq_refl) as [H1 H2].
  by rewrite !bool_decide_eq_false_2 by (rewrite past_guard; lia).
Qed.

Lemma mealUpdate_past now u mealField m f d db :
  parseMeal mealField = Some m → d < now `div` msPerDay →
  mealUpdate now u mealField f (Some d) db = (db, CannotUpdatePastDate).
Proof.
  intros Hm Hd. unfold mealUpdate. rewrite Hm.
  by rewrite bool_decide_eq_true_2 by by rewrite past_guard.
Qed.

(** Resending a self-service request never counts it twice.  Whenever the
    second call is made (at the instant of the first or later), the
    database after it is the database after the first call; the second
    answer is the first one, except that a request whose day has passed by
    then is refused as a past date. *)
Theorem mealUpdate_twice (now1 now2 : Z) (u : nat) (mealField : string)
    (f : ItemsField) (dateField : option Z) (db : Db) :
  now1 ≤ now2 →
  let once := mealUpdate now1 u mealField f dateField db in
  let twice := mealUpdate now2 u mealField f dateField once.1 in
  twice.1 = once.1 ∧
  (twice.2 = once.2 ∨ twice.2 = CannotUpdatePastDate) ∧
  (twice.2 = CannotUpdatePastDate
   ↔ In mealField ["Lunch"; "Dinner"; "Both"; "Off"] ∧
     ∃ d, dateField = Some d ∧ d < now2 `div` msPerDay).
Proof.
  intros Hle. cbv zeta.
  assert (now1 `div` msPerDay ≤ now2 `div` msPerDay) as Hdiv
    by (apply Z.div_le_mono; [done|done]).
  set (db1 := (mealUpdate now1 u mealField f dateField db).1).
  assert ((mealUpdate now2 u mealField f dateField db1).2 = CannotUpdatePastDate
          ↔ In mealField ["Lunch"; "Dinner"; "Both"; "Off"] ∧
            ∃ d, dateField = Some d ∧ d < now2 `div` msPerDay) as Hiff.
  { rewrite mealUpdate_reply.
    pose proof (parseMeal_None mealField) as HN.
    destruct (parseMeal mealField) as [m|] eqn:E.
    - pose proof (parseMeal_valid _ _ E) as Hin.
      destruct dateField as [d|].
      + case_bool_decide as Hp.
        * split; [eauto|done].
        * split; [by destruct (users db1 !! u)|].
          by intros (_ & d' & [= <-] & ?).
      + split; [done|]. by intros (_ & d' & ? & _).
    - split; [done|]. intros [Hin _]. exfalso. by apply (proj1 HN eq_refl). }
  split_and!; [| |exact Hiff].
  - destruct (parseMeal mealField) as [m|] eqn:E;
      [|by unfold mealUpdate; rewrite E].
    destruct dateField as [d|]; [|by unfold mealUpdate; rewrite E].
    destruct (decide (d < now2 `div` msPerDay)) as [Hp|Hp].
    + by rewrite (mealUpdate_past now2 u mealField m f d db1).
    + rewrite (mealUpdate_clock now2 now1 u mealField f (Some d) db1)
        by (intros ? [= <-]; lia).
      unfold db1. by rewrite mealUpdate_again.
  - destruct (parseMeal mealField) as [m|] eqn:E;
      [|left; by unfold mealUpdate; rewrite E].
    destruct dateField as [d|]; [|left; by unfold mealUpdate; rewrite E].
    destruct (decide (d < now2 `div` msPerDay)) as [Hp|Hp].
    + right. by rewrite (mealUpdate_past now2 u mealField m f d db1).
    + left.
      rewrite (mealUpdate_clock now2 now1 u mealField f (Some d) db1)
        by (intros ? [= <-]; lia).
      unfold db1. by rewrite mealUpdate_again.
Qed.

Lemma mealUpdate_twice_witness :
  let db := mkDb [mkUser "11" "Female" 0 2]
                 [mkMealHistory 0 10 Both [] true true 2 false] in
  let send := λ now, mealUpdate now 0 "Lunch" (ItemsString "Egg") (Some 10) in
  (send (10 * msPerDay + 9) (send (10 * msPerDay + 7) db).1).1
  = (send (10 * msPerDay + 7) db).1 ∧
  (send (11 * msPerDay + 1) (send (10 * msPerDay + 7) db).1).1
  = (send (10 * msPerDay + 7) db).1 ∧
  (send (11 * msPerDay + 1) (send (10 * msPerDay + 7) db).1).2
  = CannotUpdatePastDate.
Proof.
  intros db send. split_and!.
  - apply (mealUpdate_twice (10 * msPerDay + 7) (10 * msPerDay + 9) 0 "Lunch"
             (ItemsString "Egg") (Some 10) db).
    vm_compute. discriminate.
  - apply (mealUpdate_twice (10 * msPerDay + 7) (11 * msPerDay + 1) 0 "Lunch"
             (ItemsString "Egg") (Some 10) db).
    vm_compute. discriminate.
  - apply (mealUpdate_twice (10 * msPerDay + 7) (11 * msPerDay + 1) 0 "Lunch"
             (ItemsString "Egg") (Some 10) db).
    + vm_compute. discriminate.
    + split; [simpl; auto|]. exists 10. split; [done|]. vm_compute. reflexivity.
Defined.

Lemma mealUpdate_total now u mealField m f d db :
  parseMeal mealField = Some m →
  now `div` msPerDay ≤ d →
  is_Some (users db !! u) →
  totalOf u (mealUpdate now u mealField f (Some d) db).1
  = (λ t, t + (dailyCount m
               - match recordOf u d db with
                 | Some old => dailyCount (meal old)
                 | None => 0
                 end)) <$> totalOf u db ∧
  meal <$> recordOf u d (mealUpdate now u mealField f (Some d) db).1 = Some m.
Proof.
  intros Hm Hd [usr Husr]. unfold mealUpdate. rewrite Hm.
  rewrite bool_decide_eq_false_2 by (rewrite past_guard; lia).
  rewrite Husr.
  destruct (findOne u d (mealhistories db)) as [[i old]|] eqn:E; cbn [fst].
  - rewrite (findOne_recordOf _ _ _ _ _ E).
    destruct (findOne_Some _ _ _ _ _ E) as (Hi & Hu & Hdate).
    rewrite totalOf_incUser_same, recordOf_incUser.
    by rewrite (recordOf_put_same u d i old).
  - pose proof E as E'. apply findOne_None_recordOf in E'. rewrite E'.
    rewrite totalOf_incUser_same, recordOf_incUser.
    rewrite recordOf_save_new by done. split; [|done].
    change (totalOf u (saveHistory ?r db)) with (totalOf u db).
    destruct (totalOf u db); simpl; [f_equal; lia|done].
Qed.

(** Changing the meal of a day and then changing it back to what it was
    brings the user's counter back to its value, whatever the items sent
    along. *)
Theorem mealUpdate_undo_restores_counter (now : Z) (u : nat)
    (mealField : string) (m : Meal) (f f' : ItemsField) (d : Z) (db : Db)
    (old : MealHistory) :
  parseMeal mealField = Some m →
  now `div` msPerDay ≤ d →
  is_Some (users db !! u) →
  recordOf u d db = Some old →
  let db1 := (mealUpdate now u mealField f (Some d) db).1 in
  let db2 := (mealUpdate now u (mealName (meal old)) f' (Some d) db1).1 in
  totalOf u db2 = totalOf u db ∧ meal <$> recordOf u d db2 = Some (meal old).
Proof.
  intros Hm Hd Husr Hold. cbv zeta.
  destruct (mealUpdate_total now u mealField m f d db Hm Hd Husr) as [Ht1 Hr1].
  set (db1 := (mealUpdate now u mealField f (Some d) db).1) in *.
  assert (is_Some (users db1 !! u)) as Husr1.
  { unfold totalOf in Ht1. destruct Husr as [usr Husr].
    rewrite Husr in Ht1. simpl in Ht1.
    destruct (users db1 !! u); [eauto|done]. }
  destruct (mealUpdate_total now u (mealName (meal old)) (meal old) f' d db1
              (parseMeal_mealName _) Hd Husr1) as [Ht2 Hr2].
  split; [|done]. rewrite Ht2, Ht1, Hold.
  destruct (recordOf u d db1) as [r1|]; [|done]. simpl in Hr1. simplify_eq.
  destruct (totalOf u db) as [t|]; simpl; [f_equal; lia|done].
Qed.

Lemma mealUpdate_undo_restores_counter_witness :
  let db := mkDb [mkUser "11" "Female" 0 7]
                 [mkMealHistory 0 10 Both [] true true 2 false] in
  totalOf 0
    (mealUpdate (10 * msPerDay) 0 "Both" ItemsMissing (Some 10)
       (mealUpdate (10 * msPerDay) 0 "Off" ItemsMissing (Some 10) db).1).1
  = Some 7.
Proof.
  intros db.
  destruct (mealUpdate_undo_restores_counter (10 * msPerDay) 0 "Off" Off
              ItemsMissing ItemsMissing 10 db
              (mkMealHistory 0 10 Both [] true true 2 false)) as [H _].
  - reflexivity.
  - vm_compute. discriminate.
  - simpl. eauto.
  - reflexivity.
  - exact H.
Defined.

(** A specific extra grant that succeeded cannot be granted again: the
    same call is then answered with the already-enabled error and changes
    nothing. *)
Theorem extraSpecific_twice (u : nat) (slot : Slot) (d : Z) (db : Db) :
  (extraSpecific u (slotName slot) d db).2 = ExtraEnabled slot →
  extraSpecific u (slotName slot) d (extraSpecific u (slotName slot) d db).1
  = ((extraSpecific u (slotName slot) d db).1, AlreadyEnabled slot).
Proof.
  assert (∀ i mh db0,
    findOne u d (mealhistories db0) = Some (i, mh) →
    (finishExtra u i mh slot db0).2 = ExtraEnabled slot →
    extraSpecific u (slotName slot) d (finishExtra u i mh slot db0).1
    = ((finishExtra u i mh slot db0).1, AlreadyEnabled slot)) as Hfin.
  { intros i mh db0 E. unfold finishExtra.
    destruct (findOne_Some _ _ _ _ _ E) as (Hi & Hu & Hd).
    destruct (extraTarget (meal mh) slot) as [[newMeal c]|] eqn:T; [|done].
    intros _. cbn [fst]. unfold extraSpecific. rewrite parseSlot_slotName.
    change (mealhistories (incUser ?a ?b ?c)) with (mealhistories c).
    rewrite (findOne_put_same u d i mh) by done.
    unfold finishExtra. cbn [meal extraRecord].
    assert (extraTarget newMeal slot = None) as ->; [|done].
    destruct (meal mh), slot; simpl in T; by simplify_eq. }
  destruct (findOne u d (mealhistories db)) as [[i mh]|] eqn:E.
  - assert (extraSpecific u (slotName slot) d db = finishExtra u i mh slot db)
      as -> by (unfold extraSpecific; by rewrite parseSlot_slotName, E).
    by apply Hfin.
  - destruct (users db !! u) as [usr|] eqn:Husr.
    + set (mh := mkMealHistory u d Off [] false false 0 false).
      assert (extraSpecific u (slotName slot) d db
              = finishExtra u (length (mealhistories db)) mh slot
                  (saveHistory mh db)) as ->
        by (unfold extraSpecific; by rewrite parseSlot_slotName, E, Husr).
      apply Hfin. by apply findOne_save_new.
    + unfold extraSpecific at 1. by rewrite parseSlot_slotName, E, Husr.
Qed.

Lemma extraSpecific_twice_witness :
  let db := mkDb [mkUser "12" "Male" 0 1]
                 [mkMealHistory 0 4 Lunch [] true false 1 false] in
  (extraSpecific 0 "Dinner" 4 (extraSpecific 0 "Dinner" 4 db).1).2
  = AlreadyEnabled SDinner.
Proof.
  intros db.
  exact (f_equal snd (extraSpecific_twice 0 SDinner 4 db eq_refl)).
Defined.

(** ** What the cron job does to counters and daily counts *)

Lemma cronUser_totalOf_other today db u v :
  u ≠ v → totalOf u (cronUser today db v) = totalOf u db.
Proof.
  intros Huv. unfold cronUser.
  destruct (findOne v today (mealhistories db)) as [[i r]|];
    by rewrite totalOf_incUser_other.
Qed.

Lemma cronUser_dailySum_other today db u v :
  u ≠ v →
  dailySum u (mealhistories (cronUser today db v))
  = dailySum u (mealhistories db).
Proof.
  intros Huv. unfold cronUser.
  destruct (findOne v today (mealhistories db)) as [[i r]|] eqn:E.
  - destruct (findOne_Some _ _ _ _ _ E) as (Hi & Hu & Hd). simpl.
    rewrite (dailySum_insert _ _ _ r) by done.
    rewrite decide_False by congruence. lia.
  - destruct (carryForward_key v today
                (snd <$> findOne v (today - 1) (mealhistories db))) as [Hu Hd].
    remember (carryForward v today _) as mh eqn:Hmh in *. simpl.
    rewrite (dailySum_insert _ _ _ mh);
      [|by rewrite lookup_app_r, Nat.sub_diag|done].
    rewrite dailySum_snoc, !decide_False by congruence. lia.
Qed.

Lemma foldl_cronUser_totalOf_other today l db u :
  Forall (λ v, v ≠ u) l →
  totalOf u (foldl (cronUser today) db l) = totalOf u db.
Proof.
  intros Hl. revert db.
  induction Hl as [|v l Hv Hl IH]; intros db; simpl; [done|].
  rewrite IH. by apply cronUser_totalOf_other.
Qed.

Lemma foldl_cronUser_dailySum_other today l db u :
  Forall (λ v, v ≠ u) l →
  dailySum u (mealhistories (foldl (cronUser today) db l))
  = dailySum u (mealhistories db).
Proof.
  intros Hl. revert db.
  induction Hl as [|v l Hv Hl IH]; intros db; simpl; [done|].
  rewrite IH. by apply cronUser_dailySum_other.
Qed.

Lemma cronUser_effect today db u :
  totalOf u (cronUser today db u)
  = (λ t, t + cronRepair today db u) <$> totalOf u db ∧
  dailySum u (mealhistories (cronUser today db u))
  = dailySum u (mealhistories db) + cronRepair today db u
    + cronCarried today db u ∧
  recordOf u today (cronUser today db u)
  = Some match recordOf u today db with
         | Some r => withDailyMealCount r (dailyCount (meal r))
         | None => carryForward u today (recordOf u (today - 1) db)
         end.
Proof.
  unfold cronRepair, cronCarried, cronUser.
  fold (recordOf u (today - 1) db).
  destruct (findOne u today (mealhistories db)) as [[i r]|] eqn:E.
  - rewrite (findOne_recordOf _ _ _ _ _ E).
    destruct (findOne_Some _ _ _ _ _ E) as (Hi & Hu & Hd).
    rewrite totalOf_incUser_same, recordOf_incUser.
    rewrite (recordOf_put_same u today i r) by done.
    split_and!; try done. simpl.
    rewrite (dailySum_insert _ _ _ r) by done.
    rewrite decide_True by done. simpl. lia.
  - pose proof E as E'. apply findOne_None_recordOf in E'. rewrite E'.
    destruct (carryForward_key u today (recordOf u (today - 1) db)) as [Hu Hd].
    pose proof (carryForward_count u today (recordOf u (today - 1) db)) as Hc.
    remember (carryForward u today _) as mh eqn:Hmh in *.
    rewrite totalOf_incUser_same, recordOf_incUser.
    rewrite <- Hc, withDailyMealCount_id, Z.sub_diag.
    split_and!.
    + done.
    + simpl. rewrite (dailySum_insert _ _ _ mh);
        [|by rewrite lookup_app_r, Nat.sub_diag|done].
      rewrite dailySum_snoc, !decide_True by done. lia.
    + eapply recordOf_put_same; [|done..]. by apply findOne_save_new.
Qed.

Lemma cron_effect now db u :
  is_Some (users db !! u) →
  let today := now `div` msPerDay in
  totalOf u (cron now db) = (λ t, t + cronRepair today db u) <$> totalOf u db ∧
  dailySum u (mealhistories (cron now db))
  = dailySum u (mealhistories db) + cronRepair today db u
    + cronCarried today db u ∧
  recordOf u today (cron now db)
  = Some match recordOf u today db with
         | Some r => withDailyMealCount r (dailyCount (meal r))
         | None => carryForward u today (recordOf u (today - 1) db)
         end.
Proof.
  intros Hu%lookup_lt_is_Some. cbv zeta. unfold cron.
  set (today := now `div` msPerDay).
  rewrite (seq_split _ u Hu), foldl_app. simpl.
  assert (Forall (λ v, v ≠ u) (seq 0 u)) as Hbefore.
  { apply Forall_forall. intros v Hv%elem_of_seq. lia. }
  assert (Forall (λ v, v ≠ u) (seq (S u) (length (users db) - S u))) as Hafter.
  { apply Forall_forall. intros v Hv%elem_of_seq. lia. }
  set (db0 := foldl (cronUser today) db (seq 0 u)).
  assert (∀ e, recordOf u e db0 = recordOf u e db) as Hrec.
  { intros e. unfold recordOf, db0. by rewrite foldl_cronUser_other. }
  assert (cronRepair today db0 u = cronRepair today db u) as Hrep
    by (unfold cronRepair; by rewrite Hrec).
  assert (cronCarried today db0 u = cronCarried today db u) as Hcar
    by (unfold cronCarried; by rewrite !Hrec).
  destruct (cronUser_effect today db0 u) as (Ht & Hs & Hr).
  rewrite foldl_cronUser_totalOf_other, foldl_cronUser_dailySum_other by done.
  unfold recordOf at 1. rewrite (foldl_cronUser_other _ _ _ _ _ Hafter).
  fold (recordOf u today (cronUser today db0 u)).
  rewrite Ht, Hs, Hr, Hrep, Hcar, !Hrec. split_and!; [|f_equal|done].
  - unfold db0. by rewrite foldl_cronUser_totalOf_other.
  - f_equal. unfold db0. by rewrite foldl_cronUser_dailySum_other.
Qed.

(** For a user who already has a document for today, the job rewrites its
    [dailyMealCount] to the count of its meal, leaves the rest of the
    document alone and moves the user's counter by exactly that
    correction. *)
Theorem cron_repairs_daily_count (now : Z) (db : Db) (u : nat)
    (r : MealHistory) :
  is_Some (users db !! u) →
  recordOf u (now `div` msPerDay) db = Some r →
  recordOf u (now `div` msPerDay) (cron now db)
  = Some (mkMealHistory (userId r) (date r) (meal r) (additionalItems r)
            (lunchServed r) (dinnerServed r) (dailyCount (meal r)) (isExtra r)) ∧
  totalOf u (cron now db)
  = (λ t, t + (dailyCount (meal r) - dailyMealCount r)) <$> totalOf u db.
Proof.
  intros Hu Hr. destruct (cron_effect now db u Hu) as (Ht & _ & Hrec).
  unfold cronRepair in Ht. rewrite Hr in Ht, Hrec. by rewrite Ht, Hrec.
Qed.

Lemma cron_repairs_daily_count_witness :
  let db := mkDb [mkUser "09" "Male" 0 5]
                 [mkMealHistory 0 10 Both [] false false 0 false] in
  totalOf 0 (cron (10 * msPerDay) db) = Some 7.
Proof.
  intros db.
  destruct (cron_repairs_daily_count (10 * msPerDay) db 0
              (mkMealHistory 0 10 Both [] false false 0 false)) as [_ H].
  - simpl. eauto.
  - reflexivity.
  - exact H.
Defined.

Lemma cron_users_is_Some now db u :
  is_Some (users (cron now db) !! u) ↔ is_Some (users db !! u).
Proof.
  unfold cron. by rewrite !lookup_lt_is_Some, foldl_cronUser_users_length.
Qed.

(** On a database that satisfies I1, the job keeps I1 exactly when no
    user without a document for today has a document for yesterday whose
    meal is not Off. *)
Theorem cron_keeps_I1_iff (now : Z) (db : Db) :
  I1 db →
  I1 (cron now db)
  ↔ ∀ (u : nat) (p : MealHistory),
      is_Some (users db !! u) →
      recordOf u (now `div` msPerDay) db = None →
      recordOf u (now `div` msPerDay - 1) db = Some p →
      meal p = Off.
Proof.
  intros HI.
  assert (∀ u usr, users db !! u = Some usr →
    ∃ usr', users (cron now db) !! u = Some usr' ∧
      totalMealCount usr' - dailySum u (mealhistories (cron now db))
      = - cronCarried (now `div` msPerDay) db u) as Heff.
  { intros u usr Husr.
    destruct (cron_effect now db u ltac:(eauto)) as (Ht & Hs & _).
    unfold totalOf in Ht. rewrite Husr in Ht. simpl in Ht.
    destruct (users (cron now db) !! u) as [usr'|]; [|done].
    exists usr'. split; [done|]. simpl in Ht. simplify_eq.
    rewrite Hs, <- (HI _ _ Husr). lia. }
  split.
  - intros HI' u p [usr Husr] Hnone Hp.
    destruct (Heff u usr Husr) as (usr' & Husr' & Hd).
    rewrite (HI' _ _ Husr') in Hd.
    unfold cronCarried in Hd. rewrite Hnone, Hp in Hd. simpl in Hd.
    destruct (meal p); simpl in Hd; [done|lia..].
  - intros Hoff u usr' Husr'.
    assert (is_Some (users db !! u)) as [usr Husr]
      by (apply (cron_users_is_Some now); eauto).
    destruct (Heff u usr Husr) as (usr'' & Husr'' & Hd).
    simplify_eq. unfold cronCarried in Hd.
    destruct (recordOf u (now `div` msPerDay) db) eqn:Hrec; [lia|].
    destruct (recordOf u (now `div` msPerDay - 1) db) as [p|] eqn:Hp;
      simpl in Hd; [|lia].
    rewrite (Hoff u p) in Hd by eauto. simpl in Hd. lia.
Qed.

Lemma cron_keeps_I1_iff_witness :
  let db := mkDb [mkUser "09" "Male" 0 1]
                 [mkMealHistory 0 8 Lunch [] true false 1 false] in
  I1 (cron (10 * msPerDay) db).
Proof.
  intros db.
  apply (cron_keeps_I1_iff (10 * msPerDay) db).
  - intros [|u] usr; simpl; [by intros [= <-]|done].
  - intros [|u] p; simpl; [|by intros [? ?]].
    intros _ _ Hp. vm_compute in Hp. discriminate Hp.
Defined.

(** ** The serving page *)

Lemma snapshot_elem u d l :
  u ∈ userId <$> filter (λ r, date r = d) l ↔ is_Some (findOne u d l).
Proof.
  rewrite list_elem_of_fmap. split.
  - intros (r & -> & [Hd Hr]%list_elem_of_filter).
    destruct (findOne (userId r) d l) eqn:E; [eauto|].
    apply findOne_None_recordCount in E.
    pose proof (recordCount_elem _ _ Hr) as Hge. rewrite Hd in Hge. lia.
  - intros [[i r] E]. destruct (findOne_Some _ _ _ _ _ E) as (Hi & Hu & Hd).
    exists r. split; [done|]. apply list_elem_of_filter. split; [done|].
    by eapply list_elem_of_lookup_2.
Qed.

Lemma findPrevious_app_same_day u d l k :
  Forall (λ r, date r = d) k → findPrevious u d (l ++ k) = findPrevious u d l.
Proof.
  intros Hk. unfold findPrevious. rewrite filter_app.
  assert (filter (λ r, userId r = u ∧ date r < d) k = []) as ->.
  { induction Hk as [|x k Hx Hk IH]; [done|].
    rewrite filter_cons, decide_False by lia. done. }
  by rewrite app_nil_r.
Qed.

Lemma staffServing_loop d us l (ids : list nat) k listed :
  Forall (λ r, date r = d) k →
  foldl (λ acc u,
           if bool_decide (u ∈ ids) then acc
           else saveHistory
                  (carryForward u d (findPrevious u d (mealhistories acc)))
                  acc)
        (mkDb us (l ++ k)) listed
  = mkDb us (l ++ k ++ ((λ u, carryForward u d (findPrevious u d l))
                         <$> filter (λ u, u ∉ ids) listed)).
Proof.
  revert k. induction listed as [|u listed IH]; intros k Hk; simpl.
  - by rewrite app_nil_r.
  - rewrite filter_cons. case_bool_decide as Hin.
    + rewrite decide_False by tauto. by apply IH.
    + rewrite decide_True by done.
      unfold saveHistory; simpl.
      rewrite findPrevious_app_same_day by done.
      rewrite <- (assoc_L (++) l k), IH.
      * by rewrite <- (assoc_L (++) k).
      * apply Forall_app. split; [done|]. constructor; [|constructor].
        apply carryForward_key.
Qed.

(** The page in closed form: it appends, for every listed user it creates
    a document for, the document carried forward from that user's latest
    earlier one, in the order of the list, and changes nothing else. *)
Lemma staffServing_closed listed d db :
  staffServing listed d db
  = mkDb (users db)
      (mealhistories db
       ++ ((λ u, carryForward u d (findPrevious u d (mealhistories db)))
             <$> servingCreates listed d db)).
Proof.
  unfold staffServing, servingCreates. case_bool_decide as Hg.
  - destruct db as [us l]. simpl.
    pose proof (staffServing_loop d us l
                  (userId <$> filter (λ r, date r = d) l) [] listed) as H.
    rewrite app_nil_r in H. rewrite H by constructor. simpl. do 3 f_equal.
    apply list_filter_iff. intros u. rewrite snapshot_elem.
    unfold recordOf; simpl. destruct (findOne u d l); simpl.
    + split; [intros []; eauto|done].
    + split; [done|]. by intros _ [? ?].
  - destruct db as [us l]. simpl. by rewrite app_nil_r.
Qed.

Lemma findOne_app_None u d l k :
  findOne u d l = None →
  snd <$> findOne u d (l ++ k) = snd <$> findOne u d k.
Proof.
  intros E. unfold findOne in *. rewrite list_find_app_r by done.
  by destruct (list_find _ k) as [[j y]|].
Qed.

Lemma findOne_carried u d (g : nat → MealHistory) cs :
  (∀ v, userId (g v) = v ∧ date (g v) = d) →
  snd <$> findOne u d (g <$> cs) = if decide (u ∈ cs) then Some (g u) else None.
Proof.
  intros Hg. unfold findOne. induction cs as [|v cs IH]; [done|].
  rewrite fmap_cons. simpl. destruct (Hg v) as [Hv Hd].
  destruct (decide (v = u)) as [->|Hne].
  - rewrite decide_True by done. simpl. rewrite decide_True; [done|by left].
  - rewrite decide_False by (intros [? _]; congruence).
    destruct (list_find _ (g <$> cs)) as [[j y]|] eqn:E; simpl in *.
    + destruct (decide (u ∈ cs)) as [Hin|Hnin]; [|done].
      rewrite decide_True; [done|by right].
    + destruct (decide (u ∈ cs)) as [Hin|Hnin]; [done|].
      rewrite decide_False; [done|].
      intros [->|?]%elem_of_cons; done.
Qed.

Lemma recordCount_app u d l k :
  recordCount u d (l ++ k) = (recordCount u d l + recordCount u d k)%nat.
Proof. unfold recordCount. by rewrite filter_app, length_app. Qed.

Lemma recordCount_carried u e d (g : nat → MealHistory) cs :
  (∀ v, userId (g v) = v ∧ date (g v) = d) →
  NoDup cs →
  recordCount u e (g <$> cs) = if decide (u ∈ cs ∧ e = d) then 1%nat else 0%nat.
Proof.
  intros Hg Hnd. induction Hnd as [|v cs Hv Hnd IH].
  - rewrite decide_False; [done|]. intros [Hin _]. by apply elem_of_nil in Hin.
  - rewrite fmap_cons, recordCount_cons, IH. destruct (Hg v) as [-> ->].
    destruct (decide (v = u ∧ d = e)) as [[-> ->]|Hne].
    + rewrite decide_False by tauto. rewrite decide_True; [done|].
      split; [by left|done].
    + simpl. destruct (decide (u ∈ cs ∧ e = d)) as [[Hin ->]|Hn].
      * rewrite decide_True; [done|]. split; [by right|done].
      * rewrite decide_False; [done|].
        intros [[->|Hin]%elem_of_cons ->]; tauto.
Qed.

Lemma servingCreates_spec listed d db u :
  u ∈ servingCreates listed d db →
  u ∈ listed ∧ recordOf u d db = None ∧
  (length (filter (λ r, date r = d) (mealhistories db)) < length listed)%nat.
Proof.
  unfold servingCreates. case_bool_decide; [|by intros ?%elem_of_nil].
  by intros [? ?]%list_elem_of_filter.
Qed.

(** Loading the serving page never moves a counter and never touches a
    document that exists: the users are as before and every meal history
    keeps its position and its content; whatever is new comes after
    them. *)
Theorem staffServing_keeps_existing (listed : list nat) (d : Z) (db : Db) :
  users (staffServing listed d db) = users db ∧
  (length (mealhistories db)
   ≤ length (mealhistories (staffServing listed d db)))%nat ∧
  ∀ (i : nat) (r : MealHistory),
    mealhistories db !! i = Some r →
    mealhistories (staffServing listed d db) !! i = Some r.
Proof.
  rewrite staffServing_closed. simpl. split_and!; [done| |].
  - rewrite length_app. lia.
  - intros i r Hi. by apply lookup_app_l_Some.
Qed.

Lemma staffServing_recordOf (listed : list nat) (d : Z) (db : Db) (u : nat) :
  (length (filter (λ r, date r = d) (mealhistories db)) < length listed)%nat →
  u ∈ listed →
  recordOf u d (staffServing listed d db)
  = Some match recordOf u d db with
         | Some r => r
         | None =>
           match findPrevious u d (mealhistories db) with
           | Some p => mkMealHistory u d (meal p) (additionalItems p)
                         false false (dailyCount (meal p)) false
           | None => mkMealHistory u d Off [] false false 0 false
           end
         end.
Proof.
  intros Hg Hu. rewrite staffServing_closed. unfold recordOf at 1. simpl.
  unfold recordOf.
  destruct (findOne u d (mealhistories db)) as [[i r]|] eqn:E.
  - unfold findOne in *. by erewrite list_find_app_l.
  - rewrite findOne_app_None by done.
    rewrite findOne_carried by (intros v; apply carryForward_key).
    rewrite decide_True.
    + unfold carryForward. by destruct (findPrevious _ _ _).
    + unfold servingCreates. rewrite bool_decide_eq_true_2 by done.
      apply list_elem_of_filter. split; [|done].
      by apply findOne_None_recordOf.
Qed.

(** When the day has fewer documents than the page lists users, every
    listed user has a document for the day afterwards; for a listed user
    who had none it is the one carried forward from that user's latest
    earlier document (meal and items copied, both flags false,
    [dailyMealCount] the count of the meal), or Off when there is none. *)
Theorem staffServing_fills_day (listed : list nat) (d : Z) (db : Db) (u : nat) :
  (length (filter (λ r, date r = d) (mealhistories db)) < length listed)%nat →
  u ∈ listed →
  recordOf u d (staffServing listed d db)
  = Some match recordOf u d db with
         | Some r => r
         | None =>
           match findPrevious u d (mealhistories db) with
           | Some p => mkMealHistory u d (meal p) (additionalItems p)
                         false false (dailyCount (meal p)) false
           | None => mkMealHistory u d Off [] false false 0 false
           end
         end.
Proof. exact (staffServing_recordOf listed d db u). Qed.

Lemma staffServing_fills_day_witness :
  let db := mkDb [mkUser "09" "Male" 0 2; mkUser "09" "Male" 0 0]
                 [mkMealHistory 0 3 Both ["Egg"] true true 2 false;
                  mkMealHistory 1 7 Lunch [] false false 1 false] in
  recordOf 0 7 (staffServing [0; 1]%nat 7 db)
  = Some (mkMealHistory 0 7 Both ["Egg"] false false 2 false).
Proof.
  intros db.
  apply (staffServing_fills_day [0; 1]%nat 7 db 0).
  - vm_compute. lia.
  - by left.
Defined.

(** With distinct listed users, loading the page keeps the unique index,
    I2 and I3. *)
Theorem staffServing_good (listed : list nat) (d : Z) (db : Db) :
  NoDup listed →
  goodHistories (mealhistories db) →
  goodHistories (mealhistories (staffServing listed d db)).
Proof.
  intros Hnd (Hq & H2 & H3). rewrite staffServing_closed. simpl.
  assert (NoDup (servingCreates listed d db)) as Hcs.
  { unfold servingCreates. case_bool_decide; [|constructor].
    by apply NoDup_filter. }
  split_and!.
  - intros u e. rewrite recordCount_app.
    rewrite (recordCount_carried _ _ d);
      [|intros v; apply carryForward_key|done].
    case_decide as Hc; [|specialize (Hq u e); lia].
    destruct Hc as [Hin ->].
    apply servingCreates_spec in Hin as (_ & Hnone & _).
    apply findOne_None_recordOf, findOne_None_recordCount in Hnone. lia.
  - apply Forall_app. split; [done|]. apply Forall_fmap, Forall_forall.
    intros v _. apply carryForward_ok.
  - apply Forall_app. split; [done|]. apply Forall_fmap, Forall_forall.
    intros v _. apply carryForward_ok.
Qed.

Lemma staffServing_good_witness :
  goodHistories
    (mealhistories
       (staffServing [0; 1]%nat 7
          (mkDb [mkUser "09" "Male" 0 2; mkUser "09" "Male" 0 0] []))).
Proof.
  apply staffServing_good.
  - constructor; [|constructor; [|constructor]].
    + intros H%list_elem_of_singleton. discriminate H.
    + by intros H%elem_of_nil.
  - split_and!; [intros u d; unfold recordCount; simpl; lia|constructor..].
Defined.

(** Loading the page a second time creates nothing: the database after two
    loads is the database after one. *)
Theorem staffServing_twice (listed : list nat) (d : Z) (db : Db) :
  staffServing listed d (staffServing listed d db) = staffServing listed d db.
Proof.
  set (db1 := staffServing listed d db).
  assert (servingCreates listed d db1 = []) as Hnil.
  { unfold servingCreates. case_bool_decide as Hg1; [|done].
    destruct (decide (length (filter (λ r, date r = d) (mealhistories db))
                      < length listed)%nat) as [Hg|Hg].
    - apply elem_of_nil_inv. intros u [Hnone Hu]%list_elem_of_filter.
      unfold db1 in Hnone.
      by rewrite (staffServing_recordOf listed d db u Hg Hu) in Hnone.
    - exfalso. unfold db1, staffServing in Hg1.
      by rewrite bool_decide_eq_false_2 in Hg1. }
  rewrite (staffServing_closed listed d db1), Hnil. simpl.
  rewrite app_nil_r. by destruct db1.
Qed.

Lemma dailySum_app u l k :
  dailySum u (l ++ k) = dailySum u l + dailySum u k.
Proof.
  induction k as [|x k IH] using rev_ind.
  - rewrite app_nil_r. unfold dailySum at 3. simpl. lia.
  - rewrite (assoc_L (++)), !dailySum_snoc, IH. lia.
Qed.

Lemma dailySum_cons u x l :
  dailySum u (x :: l)
  = (if decide (userId x = u) then dailyMealCount x else 0) + dailySum u l.
Proof. unfold dailySum. rewrite filter_cons. by case_decide. Qed.

Lemma dailySum_carried u (g : nat → MealHistory) cs :
  (∀ v, userId (g v) = v) →
  NoDup cs →
  dailySum u (g <$> cs) = if decide (u ∈ cs) then dailyMealCount (g u) else 0.
Proof.
  intros Hg Hnd. induction Hnd as [|v cs Hv Hnd IH].
  - rewrite decide_False; [done|]. by intros ?%elem_of_nil.
  - rewrite fmap_cons, dailySum_cons, IH, Hg.
    destruct (decide (v = u)) as [->|Hne].
    + rewrite decide_False by done. rewrite decide_True; [lia|by left].
    + destruct (decide (u ∈ cs)) as [Hin|Hnin].
      * rewrite decide_True; [lia|by right].
      * rewrite decide_False; [lia|].
        intros [->|?]%elem_of_cons; done.
Qed.

(** On a database that satisfies I1 and with distinct listed users, the
    page keeps I1 exactly when every document it creates for an existing
    user is Off, that is, when no listed user without a document for the
    day has a latest earlier document that is not Off. *)
Theorem staffServing_keeps_I1_iff (listed : list nat) (d : Z) (db : Db) :
  NoDup listed →
  I1 db →
  I1 (staffServing listed d db)
  ↔ ((length (filter (λ r, date r = d) (mealhistories db)) < length listed)%nat →
     ∀ (u : nat) (p : MealHistory),
       u ∈ listed → is_Some (users db !! u) → recordOf u d db = None →
       findPrevious u d (mealhistories db) = Some p → meal p = Off).
Proof.
  intros Hnd HI. rewrite staffServing_closed.
  assert (NoDup (servingCreates listed d db)) as Hcs.
  { unfold servingCreates. case_bool_decide; [|constructor].
    by apply NoDup_filter. }
  assert (∀ u, dailySum u
      (mealhistories db
       ++ ((λ u, carryForward u d (findPrevious u d (mealhistories db)))
             <$> servingCreates listed d db))
    = dailySum u (mealhistories db)
      + if decide (u ∈ servingCreates listed d db)
        then dailyCount (meal (carryForward u d
                                 (findPrevious u d (mealhistories db))))
        else 0) as Hsum.
  { intros u. rewrite dailySum_app, dailySum_carried;
      [|intros v; apply carryForward_key|done].
    by rewrite carryForward_count. }
  split.
  - intros HI' Hg u p Hu [usr Husr] Hnone Hp.
    specialize (HI' u usr Husr). simpl in HI'. rewrite Hsum in HI'.
    rewrite (HI _ _ Husr) in HI'. rewrite decide_True in HI'.
    + rewrite Hp in HI'. simpl in HI'. destruct (meal p); simpl in HI'; [done|lia..].
    + unfold servingCreates. rewrite bool_decide_eq_true_2 by done.
      by apply list_elem_of_filter.
  - intros Hoff u usr Husr. simpl in *. rewrite Hsum, (HI _ _ Husr).
    case_decide as Hin; [|lia].
    apply servingCreates_spec in Hin as (Hu & Hnone & Hg).
    destruct (findPrevious u d (mealhistories db)) as [p|] eqn:Hp; simpl; [|lia].
    rewrite (Hoff Hg u p) by eauto. simpl. lia.
Qed.

Lemma staffServing_keeps_I1_iff_witness :
  ¬ I1 (staffServing [0%nat] 7
          (mkDb [mkUser "09" "Male" 0 2]
                [mkMealHistory 0 3 Both [] true true 2 false])).
Proof.
  intros HI.
  assert (NoDup [0%nat]) as Hnd
    by (constructor; [by intros H%elem_of_nil|constructor]).
  assert (I1 (mkDb [mkUser "09" "Male" 0 2]
                   [mkMealHistory 0 3 Both [] true true 2 false])) as HI0
    by (intros [|u] usr; simpl; [by intros [= <-]|done]).
  pose proof (proj1 (staffServing_keeps_I1_iff [0%nat] 7 _ Hnd HI0) HI) as H.
  assert (meal (mkMealHistory 0 3 Both [] true true 2 false) = Off) as Hoff;
    [|discriminate Hoff].
  apply H with (u := 0%nat); [vm_compute; lia|by left|simpl; eauto|done..].
Defined.

(** ** The admin override *)

Lemma adminUpdate_writes (id : nat) (dep tot : option Z) (db : Db) :
  is_Some dep ∨ is_Some tot →
  let res := adminUpdate id dep tot db in
  res.2 = UserUpdated ∧
  mealhistories res.1 = mealhistories db ∧
  (users db !! id = None → res.1 = db) ∧
  (∀ usr, users db !! id = Some usr →
     users res.1 !! id
     = Some (mkUser (batch usr) (gender usr)
               (default (deposit usr) dep)
               (default (totalMealCount usr) tot))) ∧
  (∀ u, u ≠ id → users res.1 !! u = users db !! u).
Proof.
  intros Hsome. cbv zeta. unfold adminUpdate.
  assert (∀ X (a b : X), match dep, tot with
                         | None, None => a
                         | _, _ => b
                         end = b) as Hm.
  { intros X a b. destruct dep, tot; try done.
    destruct Hsome as [[? ?]|[? ?]]; done. }
  rewrite Hm. simpl. split_and!; try done.
  - intros Hnone. destruct db as [us hs]. simpl in *.
    f_equal. apply list_eq. intros j. rewrite list_lookup_alter.
    case_decide; [|done]. subst j. by rewrite Hnone.
  - intros usr Husr. by rewrite list_lookup_alter_eq, Husr.
  - intros u Hne. by rewrite list_lookup_alter_ne.
Qed.

(** The three answers of the admin override and what each leaves behind.
    A request without a field is answered "No updates provided".  With a
    field, a request whose [:id] is not an ObjectId or whose field is not a
    number is answered "Failed to update user".  Every other request is
    answered "User updated successfully", whether or not the user exists.
    Only the last answer can come with a change, and then only for a known
    [_id]: exactly the fields sent are overwritten, the other field, every
    other user and all meal histories stay as they are. *)
Theorem adminUpdate_effect (idParam : option nat) (dep tot : NumberField)
    (db : Db) :
  let res := adminUpdateRoute idParam dep tot db in
  let noField := dep = FieldUndefined ∧ tot = FieldUndefined in
  let refused := idParam = None ∨ dep = FieldNaN ∨ tot = FieldNaN in
  (res.2 = NoUpdatesProvided ↔ noField) ∧
  (res.2 = FailedToUpdateUser ↔ ¬ noField ∧ refused) ∧
  (res.2 = UserUpdated ↔ ¬ noField ∧ ¬ refused) ∧
  (res.2 ≠ UserUpdated → res.1 = db) ∧
  mealhistories res.1 = mealhistories db ∧
  ∀ id, idParam = Some id → res.2 = UserUpdated →
    (users db !! id = None → res.1 = db) ∧
    (∀ usr, users db !! id = Some usr →
       users res.1 !! id
       = Some (mkUser (batch usr) (gender usr)
                 match dep with FieldNumber z => z | _ => deposit usr end
                 match tot with
                 | FieldNumber z => z
                 | _ => totalMealCount usr
                 end)) ∧
    (∀ u, u ≠ id → users res.1 !! u = users db !! u).
Proof.
  cbv zeta. unfold adminUpdateRoute.
  destruct (decide (dep = FieldUndefined ∧ tot = FieldUndefined)) as [[-> ->]|Hf].
  { split_and!; try done; try (split; [done|tauto]). }
  assert (∀ X (a b : X), match dep, tot with
                         | FieldUndefined, FieldUndefined => a
                         | _, _ => b
                         end = b) as Hm.
  { intros X a b. destruct dep, tot; try done. by destruct Hf. }
  rewrite Hm. clear Hm.
  destruct idParam as [id|].
  - case_bool_decide as Hnan.
    + split_and!; try done; split; intros; first [done | tauto].
    + assert (is_Some (fieldNumber dep) ∨ is_Some (fieldNumber tot)) as Hsome.
      { destruct dep, tot; simpl; eauto; try (by destruct Hf);
          destruct Hnan; auto. }
      assert (¬ (Some id = None ∨ dep = FieldNaN ∨ tot = FieldNaN)) as Hnr
        by (intros [?|?]; [done|tauto]).
      destruct (adminUpdate_writes id _ _ db Hsome)
        as (Hr & Hh & Hnone & Hid & Hne).
      rewrite Hr.
      split_and!; try done; try (split; intros; first [done | tauto]).
      intros id' [= <-] _. split_and!; [done| |done].
      intros usr Husr. rewrite (Hid usr Husr).
      by destruct dep, tot.
  - assert (@None nat = None ∨ dep = FieldNaN ∨ tot = FieldNaN) as Hr
      by by left.
    split_and!; try done; split; intros; first [done | tauto].
Qed.

Lemma adminUpdate_effect_witness :
  let db := mkDb [mkUser "09" "Male" 10 2] [] in
  adminUpdateRoute (Some 3%nat) FieldUndefined (FieldNumber 40) db
  = (db, UserUpdated) ∧
  users (adminUpdateRoute (Some 0%nat) FieldUndefined (FieldNumber 40) db).1
    !! 0%nat
  = Some (mkUser "09" "Male" 10 40) ∧
  (adminUpdateRoute (Some 0%nat) FieldNaN (FieldNumber 40) db).2
  = FailedToUpdateUser ∧
  (adminUpdateRoute None FieldUndefined FieldUndefined db).2 = NoUpdatesProvided.
Proof.
  intros db. split_and!.
  - destruct (adminUpdate_effect (Some 3%nat) FieldUndefined (FieldNumber 40) db)
      as (_ & _ & Hr & _ & _ & H).
    assert ((adminUpdateRoute (Some 3%nat) FieldUndefined (FieldNumber 40) db).2
            = UserUpdated) as Hu.
    { apply Hr. split; [by intros [_ ?]|]. by intros [?|[?|?]]. }
    destruct (H 3%nat eq_refl Hu) as (Hnone & _).
    specialize (Hnone eq_refl).
    destruct (adminUpdateRoute (Some 3%nat) FieldUndefined (FieldNumber 40) db)
      as [db' r].
    simpl in Hu, Hnone. by rewrite Hu, Hnone.
  - destruct (adminUpdate_effect (Some 0%nat) FieldUndefined (FieldNumber 40) db)
      as (_ & _ & Hr & _ & _ & H).
    destruct (H 0%nat eq_refl) as (_ & Hid & _).
    { apply Hr. split; [by intros [_ ?]|]. by intros [?|[?|?]]. }
    exact (Hid _ eq_refl).
  - destruct (adminUpdate_effect (Some 0%nat) FieldNaN (FieldNumber 40) db)
      as (_ & Hr & _).
    apply Hr. split; [by intros [? _]|]. right. by left.
  - destruct (adminUpdate_effect None FieldUndefined FieldUndefined db)
      as (Hr & _).
    by apply Hr.
Defined.

(** Writing a counter re-establishes I1 for that user exactly when the
    value written is the sum of the user's daily counts: with I1 holding
    for every other user, I1 holds after the override if and only if the
    value is that sum. *)
Theorem adminUpdate_I1_iff (id : nat) (dep : option Z) (t : Z) (db : Db)
    (usr : User) :
  users db !! id = Some usr →
  (∀ u usr', u ≠ id → users db !! u = Some usr' →
     totalMealCount usr' = dailySum u (mealhistories db)) →
  I1 (adminUpdate id dep (Some t) db).1 ↔ t = dailySum id (mealhistories db).
Proof.
  intros Husr Hothers.
  destruct (adminUpdate_writes id dep (Some t) db ltac:(right; eauto))
    as (_ & Hh & _ & Hid & Hne).
  specialize (Hid usr Husr). split.
  - intros HI. specialize (HI id _ Hid). simpl in HI. by rewrite Hh in HI.
  - intros -> u usr' Hu. rewrite Hh.
    destruct (decide (u = id)) as [->|Hn].
    + rewrite Hid in Hu. by simplify_eq.
    + rewrite Hne in Hu by done. by apply Hothers.
Qed.

Lemma adminUpdate_I1_iff_witness :
  I1 (adminUpdate 0 None (Some 4)
        (mkDb [mkUser "09" "Male" 0 2]
              [mkMealHistory 0 9 Both [] true true 2 false;
               mkMealHistory 0 10 Both [] false false 2 false])).1.
Proof.
  apply (adminUpdate_I1_iff 0 None 4 _ (mkUser "09" "Male" 0 2)).
  - reflexivity.
  - intros [|u] usr' Hne; [done|]. simpl. done.
  - reflexivity.
Defined.

(** ** The total of a day *)

Lemma foldl_add_sumZ (a : Z) (l : list MealHistory) :
  foldl (λ sum mh, sum + dailyMealCount mh) a l
  = a + sumZ (dailyMealCount <$> l).
Proof.
  revert a. induction l as [|x l IH]; intros a; [simpl; lia|].
  rewrite fmap_cons. cbn [foldl sumZ]. rewrite IH. lia.
Qed.

Lemma totalCount_sumZ d db :
  totalCount d db
  = sumZ (dailyMealCount <$> filter (λ r, date r = d) (mealhistories db)).
Proof. unfold totalCount. rewrite foldl_add_sumZ. apply Z.add_0_l. Qed.

Lemma daySum_insert d l i r r' :
  l !! i = Some r → date r' = date r →
  sumZ (dailyMealCount <$> filter (λ r, date r = d) (<[i:=r']> l))
  = sumZ (dailyMealCount <$> filter (λ r, date r = d) l)
    + (if decide (date r = d) then dailyMealCount r' - dailyMealCount r else 0).
Proof.
  revert i. induction l as [|x l IH]; intros i Hi Hd; [done|].
  destruct i as [|i]; simpl in *.
  - simplify_eq. rewrite !filter_cons, Hd.
    destruct (decide (date r = d)); rewrite ?fmap_cons; cbn [sumZ]; lia.
  - rewrite !filter_cons.
    destruct (decide (date x = d)); rewrite ?fmap_cons; cbn [sumZ];
      rewrite (IH i) by done; lia.
Qed.

Lemma daySum_snoc d (l : list MealHistory) r :
  sumZ (dailyMealCount <$> filter (λ r, date r = d) (l ++ [r])%list)
  = sumZ (dailyMealCount <$> filter (λ r, date r = d) l)
    + (if decide (date r = d) then dailyMealCount r else 0).
Proof.
  induction l as [|x l IH].
  - simpl. rewrite filter_cons. case_decide; simpl; lia.
  - rewrite <- app_comm_cons, !filter_cons.
    destruct (decide (date x = d)); rewrite ?fmap_cons; cbn [sumZ];
      rewrite IH; lia.
Qed.

(** On histories that satisfy I2 the total of a day lies between 0 and
    twice the number of documents of that day. *)
Theorem totalCount_bounds (d : Z) (db : Db) :
  Forall I2rec (mealhistories db) →
  0 ≤ totalCount d db
  ≤ 2 * Z.of_nat (length (filter (λ r, date r = d) (mealhistories db))).
Proof.
  intros H2. rewrite totalCount_sumZ.
  induction H2 as [|x l Hx Hl IH]; [simpl; lia|].
  rewrite filter_cons. case_decide; [|done].
  rewrite fmap_cons. cbn [sumZ length]. unfold I2rec in Hx. rewrite Hx.
  destruct (meal x); simpl dailyCount; lia.
Qed.

Lemma totalCount_bounds_witness :
  0 ≤ totalCount 5 (mkDb [] [mkMealHistory 0 5 Both [] false false 2 false;
                             mkMealHistory 1 5 Lunch [] false false 1 false])
  ≤ 2 * Z.of_nat 2.
Proof.
  apply (totalCount_bounds 5
           (mkDb [] [mkMealHistory 0 5 Both [] false false 2 false;
                     mkMealHistory 1 5 Lunch [] false false 1 false])).
  by repeat constructor.
Defined.

(** A successful self-service change moves the total of its day by
    exactly what it adds to the user's counter, and leaves the total of
    every other day alone (histories satisfying I2). *)
Theorem mealUpdate_totalCount (now : Z) (u : nat) (mealField : string)
    (m : Meal) (f : ItemsField) (d d' : Z) (db : Db) :
  parseMeal mealField = Some m →
  now `div` msPerDay ≤ d →
  is_Some (users db !! u) →
  Forall I2rec (mealhistories db) →
  let res := mealUpdate now u mealField f (Some d) db in
  let delta := dailyCount m - match recordOf u d db with
                              | Some old => dailyCount (meal old)
                              | None => 0
                              end in
  totalCount d' res.1 = totalCount d' db + (if decide (d' = d) then delta else 0) ∧
  totalOf u res.1 = (λ t, t + delta) <$> totalOf u db.
Proof.
  intros Hm Hd Husr H2. cbv zeta.
  split; [|by apply (mealUpdate_total now u mealField m f d db)].
  destruct Husr as [usr Husr]. unfold mealUpdate. rewrite Hm.
  rewrite bool_decide_eq_false_2 by (rewrite past_guard; lia).
  rewrite Husr, !totalCount_sumZ.
  destruct (findOne u d (mealhistories db)) as [[i old]|] eqn:E; cbn [fst].
  - rewrite (findOne_recordOf _ _ _ _ _ E).
    destruct (findOne_Some _ _ _ _ _ E) as (Hi & Hu & Hdate). simpl.
    rewrite (daySum_insert _ _ _ old) by done.
    pose proof (Forall_lookup_1 _ _ _ _ H2 Hi) as Hold. unfold I2rec in Hold.
    rewrite Hdate, Hold. simpl.
    destruct (decide (d = d')) as [->|Hne].
    + by rewrite decide_True.
    + by rewrite decide_False.
  - apply findOne_None_recordOf in E. rewrite E. simpl.
    rewrite daySum_snoc. simpl.
    destruct (decide (d = d')) as [->|Hne].
    + rewrite decide_True by done. lia.
    + by rewrite decide_False.
Qed.

Lemma mealUpdate_totalCount_witness :
  let db := mkDb [mkUser "11" "Female" 0 2]
                 [mkMealHistory 0 10 Both [] true true 2 false] in
  totalCount 10 (mealUpdate (10 * msPerDay) 0 "Off" ItemsMissing (Some 10) db).1
  = totalCount 10 db + (0 - 2).
Proof.
  intros db.
  destruct (mealUpdate_totalCount (10 * msPerDay) 0 "Off" Off ItemsMissing
              10 10 db) as [H _].
  - reflexivity.
  - vm_compute. discriminate.
  - simpl. eauto.
  - by repeat constructor.
  - exact H.
Defined.

(** ** The history of a user *)

#[local] Instance laterFirst_trans : Transitive laterFirst.
Proof. intros a b c. unfold laterFirst. lia. Qed.

#[local] Instance laterFirst_total : Total laterFirst.
Proof. intros a b. unfold laterFirst. lia. Qed.

Lemma StronglySorted_laterFirst_lookup (l : list MealHistory) :
  StronglySorted laterFirst l →
  ∀ (i j : nat) (a b : MealHistory),
    (i < j)%nat → l !! i = Some a → l !! j = Some b → date b ≤ date a.
Proof.
  induction 1 as [|x l Hs IH Hx]; intros i j a b Hij Hi Hj; [done|].
  destruct j as [|j]; [lia|]. simpl in Hj.
  destruct i as [|i]; simpl in Hi.
  - simplify_eq. rewrite Forall_forall in Hx.
    apply (Hx b). by eapply list_elem_of_lookup_2.
  - apply (IH i j); [lia|done..].
Qed.

Lemma mealHistory_perm_sorted (u : nat) (db : Db) :
  mealHistory u db ≡ₚ filter (λ r, userId r = u) (mealhistories db) ∧
  (∀ (i j : nat) (a b : MealHistory),
     (i < j)%nat → mealHistory u db !! i = Some a →
     mealHistory u db !! j = Some b → date b ≤ date a) ∧
  (∀ r, r ∈ mealHistory u db ↔ r ∈ mealhistories db ∧ userId r = u).
Proof.
  assert (mealHistory u db ≡ₚ filter (λ r, userId r = u) (mealhistories db))
    as Hperm by apply merge_sort_Permutation.
  split_and!; [done| |].
  - apply StronglySorted_laterFirst_lookup.
    apply (StronglySorted_merge_sort laterFirst).
  - intros r. rewrite Hperm, list_elem_of_filter. tauto.
Qed.

(** The history of a user consists of exactly that user's documents, each
    as often as it is stored, ordered from the latest day to the earliest;
    in particular its first entry has the latest day. *)
Theorem mealHistory_sorted (u : nat) (db : Db) :
  mealHistory u db ≡ₚ filter (λ r, userId r = u) (mealhistories db) ∧
  (∀ (i j : nat) (a b : MealHistory),
     (i < j)%nat → mealHistory u db !! i = Some a →
     mealHistory u db !! j = Some b → date b ≤ date a) ∧
  (∀ r, r ∈ mealHistory u db ↔ r ∈ mealhistories db ∧ userId r = u).
Proof. exact (mealHistory_perm_sorted u db). Qed.

Lemma latestMeal_spec u l :
  match latestMeal u l with
  | Some b => b ∈ l ∧ userId b = u ∧ ∀ r, r ∈ l → userId r = u → date r ≤ date b
  | None => ∀ r, r ∈ l → userId r ≠ u
  end.
Proof.
  unfold latestMeal.
  pose proof (foldl_laterOf_None (filter (λ r, userId r = u) l)) as H.
  destruct (foldl laterOf None _) as [b|].
  - destruct H as [Hin Hmax]. apply list_elem_of_filter in Hin as [Hu Hin].
    split_and!; try done. intros r Hr Hru. apply Hmax.
    by apply list_elem_of_filter.
  - intros r Hr Hru.
    assert (r ∈ filter (λ r, userId r = u) l) as Hf
      by by apply list_elem_of_filter.
    rewrite H in Hf. by apply elem_of_nil in Hf.
Qed.

Lemma uniqueKeys_same_key l r1 r2 :
  uniqueKeys l → r1 ∈ l → r2 ∈ l →
  userId r1 = userId r2 → date r1 = date r2 → r1 = r2.
Proof.
  intros Hq H1 H2 Hu Hd.
  pose proof (uniqueKeys_findOne l r1 Hq H1) as E1.
  pose proof (uniqueKeys_findOne l r2 Hq H2) as E2.
  rewrite Hu, Hd in E1. congruence.
Qed.

(** Under the unique index, when every document of the user lies before
    day [d], the first entry of the user's history is the document that
    serving day [d] (or loading the serving page for it) carries forward;
    both are absent together. *)
Theorem mealHistory_head_is_carried (u : nat) (d : Z) (db : Db) :
  uniqueKeys (mealhistories db) →
  (∀ r, r ∈ mealhistories db → userId r = u → date r < d) →
  head (mealHistory u db) = findPrevious u d (mealhistories db).
Proof.
  intros Hq Hbefore.
  destruct (mealHistory_perm_sorted u db) as (Hperm & Hsorted & Hmem).
  pose proof (findPrevious_spec u d (mealhistories db)) as Hprev.
  destruct (mealHistory u db) as [|a l] eqn:Hh; simpl.
  - destruct (findPrevious u d (mealhistories db)) as [b|]; [|done].
    destruct Hprev as (Hin & Hu & _).
    assert (b ∈ @nil MealHistory) as Hb by (apply Hmem; done).
    by apply elem_of_nil in Hb.
  - assert (a ∈ mealhistories db ∧ userId a = u) as [Ha Hau]
      by (apply Hmem; by left).
    destruct (findPrevious u d (mealhistories db)) as [b|].
    + destruct Hprev as (Hin & Hu & Hd & Hmax). f_equal.
      apply (uniqueKeys_same_key (mealhistories db)); try done; [congruence|].
      assert (b ∈ a :: l) as Hb by (apply Hmem; done).
      pose proof (Hmax a Ha Hau (Hbefore a Ha Hau)) as Hle.
      apply elem_of_cons in Hb as [->|Hb]; [done|].
      apply list_elem_of_lookup in Hb as [j Hj].
      pose proof (Hsorted 0%nat (S j) a b ltac:(lia) eq_refl Hj). lia.
    + exfalso. by apply (Hprev a Ha Hau), Hbefore.
Qed.

Lemma mealHistory_head_is_carried_witness :
  let db := mkDb [mkUser "09" "Male" 0 3]
                 [mkMealHistory 0 3 Both [] true true 2 false;
                  mkMealHistory 0 5 Lunch [] true false 1 false] in
  head (mealHistory 0 db) = findPrevious 0 9 (mealhistories db).
Proof.
  intros db. apply mealHistory_head_is_carried.
  - intros u d. unfold recordCount, db. simpl. rewrite !filter_cons.
    repeat case_decide; destruct_and?; simpl in *; lia.
  - intros r Hr _. unfold db in Hr. simpl in Hr.
    apply elem_of_cons in Hr as [->|Hr]; [simpl; lia|].
    apply list_elem_of_singleton in Hr as ->. simpl; lia.
Defined.

(** ** The export row *)

Lemma exportRow_latest (u : nat) (usr : User) (db : Db) :
  rowTotalMealCount (exportRow u usr db) = totalMealCount usr ∧
  ((∃ b, b ∈ mealhistories db ∧ userId b = u ∧
         (∀ r, r ∈ mealhistories db → userId r = u → date r ≤ date b) ∧
         rowMeal (exportRow u usr db) = meal b ∧
         rowAdditionalItems (exportRow u usr db)
         = (if decide (String.concat ", " (additionalItems b) = "")
            then "-" else String.concat ", " (additionalItems b)) ∧
         rowLunchServed (exportRow u usr db)
         = (if lunchServed b then "Yes" else "No") ∧
         rowDinnerServed (exportRow u usr db)
         = (if dinnerServed b then "Yes" else "No")) ∨
   ((∀ r, r ∈ mealhistories db → userId r ≠ u) ∧
    exportRow u usr db = mkExportRow Off "-" "No" "No" (totalMealCount usr))).
Proof.
  split; [done|]. unfold exportRow.
  pose proof (latestMeal_spec u (mealhistories db)) as H.
  destruct (latestMeal u (mealhistories db)) as [b|].
  - left. destruct H as (Hin & Hu & Hmax). exists b. simpl.
    split_and!; try done. by case_bool_decide; case_decide.
  - right. by split.
Qed.

(** The row of a user shows the first stored document with the latest day
    among the user's documents: its meal, its items joined by a comma (a
    dash when there are none) and Yes/No for the two served flags; for a
    user without documents it shows Off, a dash and No twice.  The count
    is always the user's counter. *)
Theorem exportRow_shows_latest (u : nat) (usr : User) (db : Db) :
  rowTotalMealCount (exportRow u usr db) = totalMealCount usr ∧
  ((∃ b, b ∈ mealhistories db ∧ userId b = u ∧
         (∀ r, r ∈ mealhistories db → userId r = u → date r ≤ date b) ∧
         rowMeal (exportRow u usr db) = meal b ∧
         rowAdditionalItems (exportRow u usr db)
         = (if decide (String.concat ", " (additionalItems b) = "")
            then "-" else String.concat ", " (additionalItems b)) ∧
         rowLunchServed (exportRow u usr db)
         = (if lunchServed b then "Yes" else "No") ∧
         rowDinnerServed (exportRow u usr db)
         = (if dinnerServed b then "Yes" else "No")) ∨
   ((∀ r, r ∈ mealhistories db → userId r ≠ u) ∧
    exportRow u usr db = mkExportRow Off "-" "No" "No" (totalMealCount usr))).
Proof. exact (exportRow_latest u usr db). Qed.

(** After a successful self-service change for a day that is not before
    any of the user's documents, the export row of the user shows the meal
    just chosen and the items just sent (histories satisfying the unique
    index, I2 and I3). *)
Theorem exportRow_after_update (now : Z) (u : nat) (usr' : User)
    (mealField : string) (m : Meal) (f : ItemsField) (d : Z) (db : Db) :
  parseMeal mealField = Some m →
  now `div` msPerDay ≤ d →
  is_Some (users db !! u) →
  goodHistories (mealhistories db) →
  (∀ r, r ∈ mealhistories db → userId r = u → date r ≤ d) →
  let db' := (mealUpdate now u mealField f (Some d) db).1 in
  rowMeal (exportRow u usr' db') = m ∧
  rowAdditionalItems (exportRow u usr' db')
  = (if decide (String.concat ", " (additionalItemsArray f) = "")
     then "-" else String.concat ", " (additionalItemsArray f)).
Proof.
  intros Hm Hd Husr Hg Hlast. cbv zeta.
  pose proof (mealUpdate_good now u mealField f (Some d) db Hg) as (Hq' & _ & _).
  set (db' := (mealUpdate now u mealField f (Some d) db).1) in *.
  assert (∃ r', recordOf u d db' = Some r' ∧ meal r' = m ∧
                additionalItems r' = additionalItemsArray f ∧
                ∀ r, r ∈ mealhistories db' → userId r = u → date r ≤ d)
    as (r' & Hr' & Hmeal & Hitems & Hlast').
  { destruct Husr as [usr Husr]. unfold db', mealUpdate. rewrite Hm.
    rewrite bool_decide_eq_false_2 by (rewrite past_guard; lia).
    rewrite Husr.
    destruct (findOne u d (mealhistories db)) as [[i old]|] eqn:E; cbn [fst].
    - destruct (findOne_Some _ _ _ _ _ E) as (Hi & Hu & Hdate).
      eexists. rewrite recordOf_incUser.
      rewrite (recordOf_put_same u d i old) by done.
      split_and!; try done. simpl. intros r Hr Hru.
      apply list_elem_of_lookup in Hr as [j Hj].
      apply list_lookup_insert_Some in Hj as [(-> & <- & _)|[_ Hj]].
      { simpl. lia. }
      apply Hlast; [by eapply list_elem_of_lookup_2|done].
    - apply findOne_None_recordOf in E.
      eexists. rewrite recordOf_incUser, recordOf_save_new by done.
      split_and!; try done. simpl. intros r Hr Hru.
      apply elem_of_app in Hr as [Hr|Hr]; [by apply Hlast|].
      apply list_elem_of_singleton in Hr as ->. simpl. lia. }
  destruct (exportRow_latest u usr' db') as [_ [H|[Hnone _]]].
  - destruct H as (b & Hin & Hu & Hmax & -> & -> & _).
    assert (b = r') as ->; [|by rewrite Hmeal, Hitems].
    unfold recordOf in Hr'.
    destruct (findOne u d (mealhistories db')) as [[i x]|] eqn:E; [|done].
    simpl in Hr'. injection Hr' as ->.
    destruct (findOne_Some _ _ _ _ _ E) as (Hi & Hu' & Hd').
    pose proof (list_elem_of_lookup_2 _ _ _ Hi) as Hin'.
    apply (uniqueKeys_same_key (mealhistories db'));
      [done|done|done|congruence|].
    pose proof (Hmax r' Hin' Hu'). pose proof (Hlast' b Hin Hu). lia.
  - exfalso. unfold recordOf in Hr'.
    destruct (findOne u d (mealhistories db')) as [[i x]|] eqn:E; [|done].
    destruct (findOne_Some _ _ _ _ _ E) as (Hi & Hu' & _).
    by apply (Hnone x (list_elem_of_lookup_2 _ _ _ Hi)).
Qed.

Lemma exportRow_after_update_witness :
  let db := mkDb [mkUser "11" "Female" 0 2]
                 [mkMealHistory 0 9 Both [] true true 2 false] in
  rowMeal (exportRow 0 (mkUser "11" "Female" 0 3)
             (mealUpdate (10 * msPerDay) 0 "Lunch" (ItemsArray ["Egg"; "Mutton"])
                (Some 10) db).1)
  = Lunch.
Proof.
  intros db.
  destruct (exportRow_after_update (10 * msPerDay) 0 (mkUser "11" "Female" 0 3)
              "Lunch" Lunch (ItemsArray ["Egg"; "Mutton"]) 10 db) as [H _].
  - reflexivity.
  - vm_compute. discriminate.
  - simpl. eauto.
  - split_and!.
    + intros u d. unfold recordCount, db. simpl. rewrite filter_cons.
      case_decide; simpl; lia.
    + by repeat constructor.
    + by repeat constructor.
  - intros r Hr _. unfold db in Hr. simpl in Hr.
    apply list_elem_of_singleton in Hr as ->. simpl. lia.
  - exact H.
Defined.

(** ** The two generations of the cron job *)

Lemma cronUser1_agrees today db u :
  Forall I2rec (mealhistories db) →
  Earlier.cronUser1 today db u = cronUser today db u.
Proof.
  intros H2. unfold Earlier.cronUser1, cronUser.
  destruct (findOne u today (mealhistories db)) as [[i mh]|]; [done|].
  destruct (findOne u (today - 1) (mealhistories db)) as [[j p]|] eqn:E;
    [|done].
  destruct (findOne_Some _ _ _ _ _ E) as (Hj & _ & _).
  pose proof (Forall_lookup_1 _ _ _ _ H2 Hj) as Hp. unfold I2rec in Hp.
  simpl. by rewrite Hp.
Qed.

(** On histories that satisfy the unique index, I2 and I3, the cron job
    of the first generation, which copies yesterday's [dailyMealCount]
    instead of recomputing it, leaves the same database as the current
    one. *)
Theorem cron1_agrees (now : Z) (db : Db) :
  goodHistories (mealhistories db) →
  Earlier.cron1 now db = cron now db.
Proof.
  unfold Earlier.cron1, cron. generalize (seq 0 (length (users db))).
  intros l. revert db. induction l as [|u l IH]; intros db Hg; simpl; [done|].
  destruct Hg as (Hq & H2 & H3).
  rewrite cronUser1_agrees by done.
  apply IH. by apply cronUser_good.
Qed.

Lemma cron1_agrees_witness :
  let db := mkDb [mkUser "09" "Male" 0 1]
                 [mkMealHistory 0 9 Lunch ["Mutton"] true false 1 false] in
  Earlier.cron1 (10 * msPerDay) db = cron (10 * msPerDay) db.
Proof.
  intros db. apply cron1_agrees. split_and!.
  - intros u d. unfold recordCount, db. simpl. rewrite filter_cons.
    case_decide; simpl; lia.
  - by repeat constructor.
  - by repeat constructor.
Defined.

(** ** Who is listed by the off-meals query *)

Lemma offMeals_nil m ls ds :
  offMeals m ls ds = []
  ↔ (m = Lunch ∧ ls = true) ∨ (m = Dinner ∧ ds = true) ∨
    (m = Both ∧ ls = true ∧ ds = true).
Proof.
  destruct m, ls, ds; simpl; split; try done; intuition congruence.
Qed.

(** A user is listed by the query exactly when the user exists, matches
    the batch and gender filters, and the document of the day is not one
    of: Lunch with lunch served, Dinner with dinner served, Both with both
    served.  A listed user comes with the slots of the chain. *)
Theorem allUsers_lists (d : Z) (batchQ genderQ : option string) (db : Db)
    (u : nat) (slots : list Slot) :
  (u, slots) ∈ allUsers d batchQ genderQ db
  ↔ ∃ usr, users db !! u = Some usr ∧
           queryMatches batchQ (batch usr) = true ∧
           queryMatches genderQ (gender usr) = true ∧
           slots = offMealsAt u d db ∧
           ¬ ∃ r, recordOf u d db = Some r ∧
                  ((meal r = Lunch ∧ lunchServed r = true) ∨
                   (meal r = Dinner ∧ dinnerServed r = true) ∨
                   (meal r = Both ∧ lunchServed r = true ∧
                    dinnerServed r = true)).
Proof.
  assert (offMealsAt u d db = []
          ↔ ∃ r, recordOf u d db = Some r ∧
                 ((meal r = Lunch ∧ lunchServed r = true) ∨
                  (meal r = Dinner ∧ dinnerServed r = true) ∨
                  (meal r = Both ∧ lunchServed r = true ∧
                   dinnerServed r = true))) as Hnil.
  { unfold offMealsAt, recordOf.
    destruct (findOne u d (mealhistories db)) as [[i r]|]; simpl.
    - rewrite offMeals_nil. split; [eauto|]. by intros (r' & [= <-] & H).
    - split; [done|]. by intros (r' & ? & _). }
  unfold allUsers. rewrite list_elem_of_filter, list_elem_of_omap. simpl.
  split.
  - intros [Hne ([j usr] & Hin & Hsome)].
    apply list_elem_of_lookup in Hin as [k Hk].
    apply list_lookup_imap_Some in Hk as (usr0 & Husr & [= -> ->]).
    simpl in Hsome.
    destruct (queryMatches batchQ (batch usr0)) eqn:Hb; [|done].
    destruct (queryMatches genderQ (gender usr0)) eqn:Hgd; [|done].
    simpl in Hsome. injection Hsome as <- <-.
    exists usr0. split_and!; try done. by rewrite <- Hnil.
  - intros (usr & Husr & Hb & Hgd & -> & Hnot). split; [by rewrite Hnil|].
    exists (u, usr). split.
    + apply list_elem_of_lookup. exists u.
      apply list_lookup_imap_Some. by exists usr.
    + simpl. by rewrite Hb, Hgd.
Qed.

(** ** When the bulk grant keeps the counters right *)

Lemma I1_totalOf db :
  I1 db ↔ ∀ u t, totalOf u db = Some t → t = dailySum u (mealhistories db).
Proof.
  unfold I1, totalOf. split.
  - intros HI u t Ht. destruct (users db !! u) as [usr|] eqn:E; [|done].
    simpl in Ht. injection Ht as <-. by apply HI.
  - intros H u usr Husr. apply H. by rewrite Husr.
Qed.

Lemma grantAll_histories mt d db :
  mealhistories (grantAll mt d db).1
  = (λ r, if decide (date r = d ∧ meal r = Off) then grantedRecord mt r else r)
      <$> mealhistories db.
Proof. unfold grantAll. by case_bool_decide. Qed.

Lemma dailySum_grant mt d u (l : list MealHistory) :
  Forall I2rec l →
  dailySum u ((λ r, if decide (date r = d ∧ meal r = Off)
                    then grantedRecord mt r else r) <$> l)
  = dailySum u l
    + extraCount mt
      * Z.of_nat (length (filter (λ r, userId r = u ∧ date r = d ∧ meal r = Off) l)).
Proof.
  induction 1 as [|x l Hx Hl IH]; [simpl; unfold dailySum; simpl; lia|].
  rewrite fmap_cons, !dailySum_cons, IH, filter_cons.
  unfold I2rec in Hx.
  destruct (decide (date x = d ∧ meal x = Off)) as [[Hd Hm]|Hn].
  - simpl. rewrite Hm in Hx. simpl in Hx.
    destruct (decide (userId x = u)) as [Hu|Hu].
    + rewrite decide_True by done. cbn [length]. lia.
    + rewrite decide_False by tauto. lia.
  - destruct (decide (userId x = u)) as [Hu|Hu];
      rewrite decide_False by tauto; lia.
Qed.

Lemma length_filter_le (P Q : MealHistory → Prop)
    `{∀ x, Decision (P x)} `{∀ x, Decision (Q x)} (l : list MealHistory) :
  (∀ x, P x → Q x) → (length (filter P l) ≤ length (filter Q l))%nat.
Proof.
  intros HPQ. induction l as [|x l IH]; [done|].
  rewrite !filter_cons. destruct (decide (P x)) as [HP|HP].
  - rewrite decide_True by auto. simpl. lia.
  - destruct (decide (Q x)); simpl; lia.
Qed.

Lemma offCount_affected d db u :
  uniqueKeys (mealhistories db) →
  length (filter (λ r, userId r = u ∧ date r = d ∧ meal r = Off)
            (mealhistories db))
  = if decide (u ∈ affectedUsers d db) then 1%nat else 0%nat.
Proof.
  intros Hq.
  pose proof (length_filter_le
                (λ r, userId r = u ∧ date r = d ∧ meal r = Off)
                (λ r, userId r = u ∧ date r = d) (mealhistories db)
                ltac:(intros x; simpl; tauto)) as Hle.
  specialize (Hq u d). unfold recordCount in Hq.
  destruct (filter (λ r, userId r = u ∧ date r = d ∧ meal r = Off)
              (mealhistories db)) as [|x k] eqn:E.
  - rewrite decide_False; [done|]. unfold affectedUsers.
    intros (r & -> & [[Hd Hm] Hr]%list_elem_of_filter)%list_elem_of_fmap.
    assert (r ∈ filter (λ r0, userId r0 = userId r ∧ date r0 = d ∧ meal r0 = Off)
                  (mealhistories db)) as Hin by by apply list_elem_of_filter.
    rewrite E in Hin. by apply elem_of_nil in Hin.
  - assert (x ∈ filter (λ r, userId r = u ∧ date r = d ∧ meal r = Off)
                  (mealhistories db)) as Hx by (rewrite E; by left).
    apply list_elem_of_filter in Hx as [(Hu & Hd & Hm) Hx].
    rewrite decide_True.
    + simpl in *. lia.
    + unfold affectedUsers. apply list_elem_of_fmap. exists x.
      split; [done|]. by apply list_elem_of_filter.
Qed.

(** On a database that satisfies I1, the unique index and I2, the bulk
    grant of [mt] keeps I1 exactly when it changes nothing or no existing
    user already has [mt] as the meal of the day. *)
Theorem extraAll_keeps_I1_iff (mt : Meal) (d : Z) (db : Db) :
  mt ≠ Off →
  uniqueKeys (mealhistories db) →
  Forall I2rec (mealhistories db) →
  I1 db →
  I1 (extraAll (mealName mt) d db).1
  ↔ (affectedUsers d db ≠ [] →
     ∀ (u : nat) (r : MealHistory),
       is_Some (users db !! u) → recordOf u d db = Some r → meal r ≠ mt).
Proof.
  intros Hmt Hq H2 HI. rewrite extraAll_grantAll by done.
  rewrite (I1_totalOf db) in HI. rewrite I1_totalOf.
  assert (0 < extraCount mt) as Hc by (destruct mt; simpl; lia).
  assert (∀ u, dailySum u (mealhistories (grantAll mt d db).1)
               = dailySum u (mealhistories db)
                 + if decide (u ∈ affectedUsers d db)
                   then extraCount mt else 0) as Hsum.
  { intros u. rewrite grantAll_histories, dailySum_grant by done.
    rewrite offCount_affected by done. case_decide; lia. }
  assert (∀ u, u ∈ affectedUsers d db →
               (0 < length (affectedUsers d db))%nat) as Hlen.
  { intros u Hu. destruct (affectedUsers d db); [by apply elem_of_nil in Hu|].
    simpl. lia. }
  split.
  - intros HI' Hne u r [usr Husr] Hrec Hm.
    assert (totalOf u db = Some (totalMealCount usr)) as Ht
      by (unfold totalOf; by rewrite Husr).
    specialize (HI' u (totalMealCount usr + extraCount mt)).
    rewrite grantAll_totalOf, Hsum, Ht in HI'.
    rewrite bool_decide_eq_true_2 in HI'.
    + rewrite decide_False in HI'.
      * specialize (HI' eq_refl). rewrite <- (HI u _ Ht) in HI'. lia.
      * intros (old & Hold & Hoff)%affectedUsers_spec; [|done]. congruence.
    + split.
      * destruct (affectedUsers d db); [done|simpl; lia].
      * apply grantAll_listed; [done|]. unfold recordOf in Hrec.
        destruct (findOne u d (mealhistories db)) as [[i x]|] eqn:E; [|done].
        simpl in Hrec. injection Hrec as ->.
        destruct (findOne_Some _ _ _ _ _ E) as (Hi & Hu & Hd).
        exists r. split_and!; try done; [by eapply list_elem_of_lookup_2|auto].
  - intros Hsafe u t. rewrite grantAll_totalOf, Hsum.
    destruct (totalOf u db) as [t0|] eqn:Ht; [|by case_bool_decide].
    pose proof (HI u t0 Ht) as Ht0.
    destruct (decide (u ∈ affectedUsers d db)) as [Ha|Ha].
    + rewrite bool_decide_eq_true_2.
      * simpl. intros [= <-]. lia.
      * split; [by eapply Hlen|].
        apply affectedUsers_spec in Ha as (old & Hold & Hoff); [|done].
        apply grantAll_listed; [done|]. unfold recordOf in Hold.
        destruct (findOne u d (mealhistories db)) as [[i x]|] eqn:E; [|done].
        simpl in Hold. injection Hold as ->.
        destruct (findOne_Some _ _ _ _ _ E) as (Hi & Hu & Hd).
        exists old. split_and!; try done; [by eapply list_elem_of_lookup_2|auto].
    + rewrite bool_decide_eq_false_2.
      * intros [= <-]. lia.
      * intros [Hpos (r & Hr & Hu & Hd & Hm)%grantAll_listed]; [|done].
        destruct Hm as [Hm|Hm].
        -- apply Ha. unfold affectedUsers. apply list_elem_of_fmap.
           exists r. split; [done|]. by apply list_elem_of_filter.
        -- assert (recordOf u d db = Some r) as Hrec.
           { rewrite <- Hu, <- Hd. by apply uniqueKeys_findOne. }
           assert (affectedUsers d db ≠ []) as Hne
             by (intros Hnil; rewrite Hnil in Hpos; simpl in Hpos; lia).
           apply (Hsafe Hne u r); [|done..].
           unfold totalOf in Ht. destruct (users db !! u); [eauto|done].
Qed.

Lemma extraAll_keeps_I1_iff_witness :
  let db := mkDb [mkUser "09" "Male" 0 0; mkUser "09" "Female" 0 2]
                 [mkMealHistory 0 9 Off [] false false 0 false;
                  mkMealHistory 1 9 Both [] false false 2 false] in
  I1 (extraAll "Lunch" 9 db).1.
Proof.
  intros db.
  apply (extraAll_keeps_I1_iff Lunch 9 db).
  - discriminate.
  - intros u d. unfold recordCount, db. simpl. rewrite !filter_cons.
    repeat case_decide; destruct_and?; simpl in *; lia.
  - by repeat constructor.
  - intros [|[|u]] usr; simpl; [by intros [= <-]|by intros [= <-]|done].
  - intros _ [|[|u]] r; simpl.
    + intros _ Hr. vm_compute in Hr. injection Hr as <-. discriminate.
    + intros _ Hr. vm_compute in Hr. injection Hr as <-. discriminate.
    + by intros [? ?].
Defined.

(** ** Serving and the counters *)

Lemma I1_put_same_count db i r r' :
  I1 db → mealhistories db !! i = Some r →
  userId r' = userId r → dailyMealCount r' = dailyMealCount r →
  I1 (putHistory i r' db).
Proof.
  intros HI Hi Hu Hc.
  rewrite <- (incUser_0 (userId r) (putHistory i r' db)).
  apply (I1_put_inc _ _ _ r); try done. lia.
Qed.

Lemma finishServe_I1 i mh slot db :
  I1 db → mealhistories db !! i = Some mh →
  I1 (finishServe i mh slot db).1.
Proof.
  intros HI Hi. unfold finishServe.
  destruct (serveGuard mh slot); [done|]. simpl.
  apply (I1_put_same_count _ _ mh); try done; by destruct slot.
Qed.

(** On a database that satisfies I1, a serve call keeps I1 exactly when it
    does not synthesize a document with a meal other than Off: that is,
    unless the meal type is valid, the user exists, the day has no document
    and the user's latest earlier document is not Off. *)
Theorem serve_keeps_I1_iff (u : nat) (mealTypeField : string) (d : Z) (db : Db) :
  I1 db →
  I1 (serve u mealTypeField d db).1
  ↔ ∀ (slot : Slot) (p : MealHistory),
      parseSlot mealTypeField = Some slot →
      is_Some (users db !! u) →
      recordOf u d db = None →
      findPrevious u d (mealhistories db) = Some p →
      meal p = Off.
Proof.
  intros HI. unfold serve.
  destruct (parseSlot mealTypeField) as [slot|]; [|by split].
  destruct (findOne u d (mealhistories db)) as [[i mh]|] eqn:E.
  - split.
    + intros _ s p _ _ Hnone. unfold recordOf in Hnone. by rewrite E in Hnone.
    + intros _. apply finishServe_I1; [done|].
      by destruct (findOne_Some _ _ _ _ _ E).
  - destruct (users db !! u) as [usr|] eqn:Husr.
    2:{ split; [|done]. by intros _ s p _ [? ?]. }
    destruct (carryForward_key u d (findPrevious u d (mealhistories db)))
      as [Hu Hd].
    pose proof (carryForward_count u d (findPrevious u d (mealhistories db)))
      as Hc.
    remember (carryForward u d _) as mh eqn:Hmh.
    assert (I1 (saveHistory mh db) ↔ dailyMealCount mh = 0) as Hsave.
    { split.
      - intros HI'. specialize (HI' u usr Husr). simpl in HI'.
        rewrite dailySum_snoc, decide_True in HI' by done.
        rewrite (HI _ _ Husr) in HI'. lia.
      - intros H0. rewrite <- (incUser_0 u (saveHistory mh db)).
        by apply I1_save_inc. }
    assert (I1 (finishServe (length (mealhistories db)) mh slot
                  (saveHistory mh db)).1 ↔ I1 (saveHistory mh db)) as Hfin.
    { unfold finishServe. destruct (serveGuard mh slot); [done|]. simpl.
      split.
      - intros HI' v usr' Hv. specialize (HI' v usr' Hv). simpl in *.
        rewrite (dailySum_insert _ _ _ mh) in HI';
          [|by rewrite lookup_app_r, Nat.sub_diag|by destruct slot].
        replace (dailyMealCount (setServed mh slot)) with (dailyMealCount mh)
          in HI' by by destruct slot.
        rewrite HI'. case_decide; lia.
      - intros HI'. apply (I1_put_same_count _ _ mh); try done.
        + simpl. by rewrite lookup_app_r, Nat.sub_diag.
        + by destruct slot.
        + by destruct slot. }
    rewrite Hfin, Hsave, Hc. split.
    + intros H0 s p _ _ _ Hp. rewrite Hmh, Hp in H0. simpl in H0.
      destruct (meal p); simpl in H0; [done|lia..].
    + intros Hoff. rewrite Hmh.
      destruct (findPrevious u d (mealhistories db)) as [p|] eqn:Hp; [|done].
      simpl. rewrite (Hoff slot p); [done..|eauto| |done].
      by apply findOne_None_recordOf.
Qed.

Lemma serve_keeps_I1_iff_witness :
  I1 (serve 0 "Lunch" 10
        (mkDb [mkUser "09" "Male" 0 1]
              [mkMealHistory 0 10 Lunch [] false false 1 false])).1.
Proof.
  apply (serve_keeps_I1_iff 0 "Lunch" 10).
  - intros [|u] usr; simpl; [by intros [= <-]|done].
  - intros slot p _ _ Hnone. vm_compute in Hnone. discriminate Hnone.
Defined.

(** ** No operation moves a document *)

Lemma keepsKeys_refl l : keepsKeys l l.
Proof. intros i r Hi. eauto. Qed.

Lemma keepsKeys_trans l1 l2 l3 :
  keepsKeys l1 l2 → keepsKeys l2 l3 → keepsKeys l1 l3.
Proof.
  intros H12 H23 i r Hi.
  destruct (H12 i r Hi) as (r2 & Hi2 & Hu2 & Hd2).
  destruct (H23 i r2 Hi2) as (r3 & Hi3 & Hu3 & Hd3).
  exists r3. split_and!; [done|congruence..].
Qed.

Lemma keepsKeys_insert l i r r' :
  l !! i = Some r → userId r' = userId r → date r' = date r →
  keepsKeys l (<[i:=r']> l).
Proof.
  intros Hi Hu Hd j x Hj. destruct (decide (i = j)) as [->|Hne].
  - exists r'. rewrite list_lookup_insert_eq by by eapply lookup_lt_Some.
    split_and!; [done|congruence..].
  - exists x. by rewrite list_lookup_insert_ne.
Qed.

Lemma keepsKeys_app l k : keepsKeys l (l ++ k).
Proof. intros i r Hi. exists r. split_and!; [by apply lookup_app_l_Some|done..]. Qed.

Lemma keepsKeys_put_found u d i r r' db :
  findOne u d (mealhistories db) = Some (i, r) →
  userId r' = u → date r' = d →
  keepsKeys (mealhistories db) (mealhistories (putHistory i r' db)).
Proof.
  intros E Hu Hd. destruct (findOne_Some _ _ _ _ _ E) as (Hi & <- & <-).
  by apply (keepsKeys_insert _ _ r).
Qed.

Lemma keepsKeys_save_put r r' db :
  userId r' = userId r → date r' = date r →
  keepsKeys (mealhistories db)
    (mealhistories (putHistory (length (mealhistories db)) r'
                      (saveHistory r db))).
Proof.
  intros Hu Hd. simpl.
  eapply keepsKeys_trans; [apply (keepsKeys_app _ [r])|].
  apply (keepsKeys_insert _ _ r); [|done..].
  by rewrite lookup_app_r, Nat.sub_diag.
Qed.

Lemma cronUser_keepsKeys today db u :
  keepsKeys (mealhistories db) (mealhistories (cronUser today db u)).
Proof.
  unfold cronUser.
  destruct (findOne u today (mealhistories db)) as [[i r]|] eqn:E.
  - destruct (findOne_Some _ _ _ _ _ E) as (Hi & Hu & Hd).
    by apply (keepsKeys_put_found u today i r).
  - by apply keepsKeys_save_put.
Qed.

Lemma serve_users_length u mt d db :
  length (users (serve u mt d db).1) = length (users db).
Proof.
  unfold serve. destruct (parseSlot mt) as [slot|]; [|done].
  destruct (findOne u d (mealhistories db)) as [[i mh]|].
  - unfold finishServe. by destruct (serveGuard mh slot).
  - destruct (users db !! u); [|done].
    unfold finishServe. by destruct (serveGuard _ slot).
Qed.

(** Whatever the request, every meal history that exists before it exists
    after it at the same position, with the same user and the same day:
    no route and no run of the cron job deletes a document, moves it or
    gives it to another user or day; and no request adds or removes a
    user. *)
Theorem handle_keeps_documents (db : Db) (req : Request) :
  keepsKeys (mealhistories db) (mealhistories (handle db req)) ∧
  length (users (handle db req)) = length (users db).
Proof.
  destruct req as [now u mf f df|uf mf df|u mt d|mt d|u mt d|now]; simpl.
  - unfold mealUpdate.
    destruct (parseMeal mf) as [m|]; [|split; [apply keepsKeys_refl|done]].
    destruct df as [d|]; [|split; [apply keepsKeys_refl|done]].
    case_bool_decide; [split; [apply keepsKeys_refl|done]|].
    destruct (users db !! u); [|split; [apply keepsKeys_refl|done]].
    destruct (findOne u d (mealhistories db)) as [[i old]|] eqn:E; simpl;
      rewrite length_alter; (split; [|done]).
    + destruct (findOne_Some _ _ _ _ _ E) as (Hi & Hu & Hd).
      by apply (keepsKeys_insert _ _ old).
    + apply keepsKeys_app.
  - unfold staffUpdate.
    destruct (parseMeal mf) as [m|]; [|split; [apply keepsKeys_refl|done]].
    destruct df as [d|], uf as [u|];
      try (split; [apply keepsKeys_refl|done]).
    destruct (users db !! u); [|split; [apply keepsKeys_refl|done]].
    destruct (findOne u d (mealhistories db)) as [[i old]|] eqn:E; simpl;
      rewrite length_alter; (split; [|done]).
    + destruct (findOne_Some _ _ _ _ _ E) as (Hi & Hu & Hd).
      by apply (keepsKeys_insert _ _ old).
    + apply keepsKeys_app.
  - split; [|apply serve_users_length]. unfold serve.
    destruct (parseSlot mt) as [slot|]; [|apply keepsKeys_refl].
    destruct (findOne u d (mealhistories db)) as [[i mh]|] eqn:E.
    + unfold finishServe. destruct (serveGuard mh slot); [apply keepsKeys_refl|].
      destruct (findOne_Some _ _ _ _ _ E) as (Hi & Hu & Hd).
      apply (keepsKeys_put_found u d i mh); [done|by destruct slot..].
    + destruct (users db !! u); [|apply keepsKeys_refl].
      unfold finishServe. destruct (serveGuard _ slot).
      * apply keepsKeys_app.
      * apply keepsKeys_save_put; by destruct slot.
  - unfold extraAll.
    assert (∀ m, keepsKeys (mealhistories db) (mealhistories (grantAll m d db).1)
                 ∧ length (users (grantAll m d db).1) = length (users db)) as Hg.
    { intros m. rewrite grantAll_histories. split.
      - intros i r Hi. eexists. rewrite list_lookup_fmap, Hi. simpl.
        split; [done|]. by case_decide.
      - unfold grantAll. case_bool_decide; simpl; [|done].
        by rewrite length_imap. }
    destruct (parseMeal mt) as [[| | |]|]; try apply Hg;
      (split; [apply keepsKeys_refl|done]).
  - unfold extraSpecific.
    destruct (parseSlot mt) as [slot|]; [|split; [apply keepsKeys_refl|done]].
    destruct (findOne u d (mealhistories db)) as [[i mh]|] eqn:E.
    + unfold finishExtra.
      destruct (extraTarget (meal mh) slot) as [[nm c]|];
        [|split; [apply keepsKeys_refl|done]].
      simpl. rewrite length_alter. split; [|done].
      destruct (findOne_Some _ _ _ _ _ E) as (Hi & Hu & Hd).
      by apply (keepsKeys_insert _ _ mh).
    + destruct (users db !! u); [|split; [apply keepsKeys_refl|done]].
      unfold finishExtra. cbn [meal extraTarget fst].
      change (users (incUser ?a ?b ?c)) with (alter (incTotal b) a (users c)).
      rewrite length_alter. split; [|done].
      by apply keepsKeys_save_put.
  - unfold cron. rewrite foldl_cronUser_users_length. split; [|done].
    generalize (seq 0 (length (users db))). intros l. revert db.
    induction l as [|v l IH]; intros db; simpl; [apply keepsKeys_refl|].
    eapply keepsKeys_trans; [apply cronUser_keepsKeys|apply IH].
Qed.

(** ** Instances of the sequence and frame lemmas *)

Lemma updates_keep_I1_witness :
  I1 (foldl handle (mkDb [mkUser "09" "Male" 0 0] [])
        [ReqMealUpdate (10 * msPerDay) 0 "Both" ItemsMissing (Some 10);
         ReqExtraSpecific 0 "Lunch" 11;
         ReqStaffUpdate (Some 0%nat) "Off" (Some 10)]).
Proof.
  apply updates_keep_I1.
  - intros [|u] usr; simpl; [by intros [= <-]|done].
  - split_and!; [intros u d; unfold recordCount; simpl; lia|constructor..].
  - by repeat constructor.
Defined.

Lemma mealUpdate_frame_witness :
  let db := mkDb [mkUser "09" "Male" 0 0; mkUser "10" "Female" 0 4] [] in
  totalOf 1 (mealUpdate (10 * msPerDay) 0 "Both" ItemsMissing (Some 10) db).1
  = totalOf 1 db.
Proof.
  intros db.
  apply (mealUpdate_frame (10 * msPerDay) 0 "Both" ItemsMissing (Some 10) db 1 0).
  discriminate.
Defined.
